(** * Flat price prediction pipeline: preprocessing, training, evaluation

    A shallow embedding of the modules [src/preprocessing.py],
    [src/training.py] and [src/evaluation.py] together with the constants of
    [src/config.py] they read.

    Conventions of the embedding.
    - A pandas [Series] is the list of its cells; a [DataFrame] is the ordered
      list of its labelled columns.  [df\[c\]] reads the first column
      labelled [c], and the number of rows is the length of the first
      column: this is pandas on frames with pairwise distinct labels (what
      [read_csv] and the construction from a dict produce); a frame
      without columns has no rows.
    - A float is a rational, an infinity or NaN.  Arithmetic follows IEEE 754
      on these three kinds of values; rounding, overflow and the sign of zero
      are not represented.
    - An exception is a value of [exn]; code that can raise returns a
      [result].
    - Calls into pandas, numpy, scikit-learn and the boosting libraries whose
      value no property below depends on are fields of an interface record
      ([Pandas], [Python], [Regressors], [Numerics]); the theorems hold for
      every instance.
    - An object mutated in place is a state threaded through its methods;
      the frames the preprocessor copies and mutates live in a store of
      frames addressed by index. *)

From Stdlib Require Import String Ascii Bool Arith ZArith QArith Qabs Qround Lia List.
From Stdlib Require Import Permutation.
Import ListNotations.

Local Open Scope string_scope.
Local Open Scope list_scope.

(* ====================================================================== *)
(** * Exceptions and results *)
(* ====================================================================== *)

Inductive exn : Type :=
| ValueError (msg : string)
| TypeError (msg : string)
| KeyError (key : string)
| IndexError (msg : string)
| StopIteration
| LibraryError (msg : string).

Inductive result (A : Type) : Type :=
| Ok (a : A)
| Raise (e : exn).

Arguments Ok {A} a.
Arguments Raise {A} e.

Definition bind {A B : Type} (m : result A) (k : A -> result B) : result B :=
  match m with
  | Ok a => k a
  | Raise e => Raise e
  end.

Notation "x <- m ;; k" := (bind m (fun x => k))
  (at level 61, m at next level, right associativity).

Fixpoint mapM {A B : Type} (f : A -> result B) (l : list A) : result (list B) :=
  match l with
  | [] => Ok []
  | a :: l' => b <- f a ;; bs <- mapM f l' ;; Ok (b :: bs)
  end.

Fixpoint foldM {A S : Type} (f : S -> A -> result S) (l : list A) (s : S)
  : result S :=
  match l with
  | [] => Ok s
  | a :: l' => s' <- f s a ;; foldM f l' s'
  end.

Definition is_ok {A : Type} (r : result A) : bool :=
  match r with Ok _ => true | Raise _ => false end.

(* ====================================================================== *)
(** * Floats *)
(* ====================================================================== *)

Inductive float : Type :=
| Fin (q : Q)
| Inf (negative : bool)
| NaN.

Definition Qzero (q : Q) : bool := Qeq_bool q 0.
Definition Qpos (q : Q) : bool := negb (Qle_bool q 0).
Definition Qltb (a b : Q) : bool := negb (Qle_bool b a).

Definition fneg (x : float) : float :=
  match x with
  | Fin q => Fin (- q)
  | Inf s => Inf (negb s)
  | NaN => NaN
  end.

Definition fadd (x y : float) : float :=
  match x, y with
  | Fin a, Fin b => Fin (a + b)
  | Fin _, Inf s => Inf s
  | Inf s, Fin _ => Inf s
  | Inf s, Inf t => if Bool.eqb s t then Inf s else NaN
  | _, _ => NaN
  end.

Definition fsub (x y : float) : float := fadd x (fneg y).

Definition fmul (x y : float) : float :=
  match x, y with
  | Fin a, Fin b => Fin (a * b)
  | Fin a, Inf s | Inf s, Fin a =>
      if Qzero a then NaN else Inf (xorb s (negb (Qpos a)))
  | Inf s, Inf t => Inf (xorb s t)
  | _, _ => NaN
  end.

Definition fdiv (x y : float) : float :=
  match x, y with
  | Fin a, Fin b =>
      if Qzero b
      then (if Qzero a then NaN else Inf (negb (Qpos a)))
      else Fin (a / b)
  | Fin _, Inf _ => Fin 0
  | Inf s, Fin b => Inf (xorb s (Qltb b 0))
  | _, _ => NaN
  end.

Definition feqb (x y : float) : bool :=
  match x, y with
  | Fin a, Fin b => Qeq_bool a b
  | Inf s, Inf t => Bool.eqb s t
  | _, _ => false
  end.

Definition fleb (x y : float) : bool :=
  match x, y with
  | Fin a, Fin b => Qle_bool a b
  | Fin _, Inf s => negb s
  | Inf s, Fin _ => s
  | Inf s, Inf t => s || negb t
  | _, _ => false
  end.

Definition fltb (x y : float) : bool :=
  match x, y with
  | NaN, _ | _, NaN => false
  | _, _ => negb (fleb y x)
  end.

Definition fgtb (x y : float) : bool := fltb y x.

Definition fabs (x : float) : float :=
  match x with
  | Fin q => Fin (Qabs q)
  | Inf _ => Inf false
  | NaN => NaN
  end.

Definition of_bool (b : bool) : float := Fin (if b then 1 else 0).
Definition of_nat (n : nat) : float := Fin (inject_Z (Z.of_nat n)).

(* ====================================================================== *)
(** * Series and frames *)
(* ====================================================================== *)

(** A cell of a column: a number (NaN is the missing value) or a Python
    string. *)
Inductive cell : Type :=
| Num (x : float)
| Str (s : string).

Definition series : Type := list cell.
Definition frame : Type := list (string * series).

Definition columns (df : frame) : list string := map fst df.

Definition mem (c : string) (l : list string) : bool :=
  existsb (String.eqb c) l.

(** [len(df)]: the common length of the columns. *)
Definition n_rows (df : frame) : nat :=
  match df with
  | [] => 0
  | (_, s) :: _ => length s
  end.

(** [df\[c\]] *)
Fixpoint getitem (df : frame) (c : string) : result series :=
  match df with
  | [] => Raise (KeyError c)
  | (c', s) :: df' => if String.eqb c c' then Ok s else getitem df' c
  end.

(** [df\[c\] = s]: overwrites the column in place, or appends it. *)
Fixpoint setitem (df : frame) (c : string) (s : series) : frame :=
  match df with
  | [] => [(c, s)]
  | (c', s') :: df' =>
      if String.eqb c c' then (c', s) :: df' else (c', s') :: setitem df' c s
  end.

(** [df.drop(columns=cs)]: a missing label is a KeyError. *)
Definition drop (df : frame) (cs : list string) : result frame :=
  match find (fun c => negb (mem c (columns df))) cs with
  | Some c => Raise (KeyError c)
  | None => Ok (filter (fun p => negb (mem (fst p) cs)) df)
  end.

(** [df\[names\]] with a list of labels. *)
Definition select (df : frame) (names : list string) : result frame :=
  mapM (fun c => s <- getitem df c ;; Ok (c, s)) names.

(** ** Cell operations *)

Definition type_error {A : Type} : result A :=
  Raise (TypeError "unsupported operand type(s)").

Definition cell_arith (op : float -> float -> float) (a b : cell) : result cell :=
  match a, b with
  | Num x, Num y => Ok (Num (op x y))
  | _, _ => type_error
  end.

Definition cell_eqb (a b : cell) : bool :=
  match a, b with
  | Num x, Num y => feqb x y
  | Str s, Str t => String.eqb s t
  | _, _ => false
  end.

Definition cell_gt (a b : cell) : result bool :=
  match a, b with
  | Num x, Num y => Ok (fgtb x y)
  | _, _ => type_error
  end.

Definition cell_is_zero (a : cell) : bool := cell_eqb a (Num (Fin 0)).

(** The float held by a numeric cell (NaN stands in for a string, where
    no caller reads it). *)
Definition val (a : cell) : float :=
  match a with Num x => x | Str _ => NaN end.

Definition isnull (a : cell) : bool :=
  match a with Num NaN => true | _ => false end.

(** ** Series operations *)

Fixpoint zip_with {A B C : Type} (f : A -> B -> C) (l : list A) (l' : list B)
  : list C :=
  match l, l' with
  | a :: t, b :: t' => f a b :: zip_with f t t'
  | _, _ => []
  end.

Fixpoint sequence {A : Type} (l : list (result A)) : result (list A) :=
  match l with
  | [] => Ok []
  | r :: l' => a <- r ;; t <- sequence l' ;; Ok (a :: t)
  end.

(** [s1 op s2], elementwise. *)
Definition series_arith (op : float -> float -> float) (s1 s2 : series)
  : result series :=
  sequence (zip_with (cell_arith op) s1 s2).

(** [k op s] and [s op k] for a scalar [k]. *)
Definition scalar_arith_l (op : float -> float -> float) (k : float) (s : series)
  : result series :=
  mapM (cell_arith op (Num k)) s.

Definition scalar_arith_r (op : float -> float -> float) (s : series) (k : float)
  : result series :=
  mapM (fun a => cell_arith op a (Num k)) s.

(** [s.replace(0, v)] *)
Definition replace_zero (v : float) (s : series) : series :=
  map (fun a => if cell_is_zero a then Num v else a) s.

(** [(s == k).astype(int)] for a scalar cell [k]. *)
Definition series_eq_scalar (s : series) (k : cell) : series :=
  map (fun a => Num (of_bool (cell_eqb a k))) s.

(** [(s1 == s2).astype(int)] *)
Definition series_eq (s1 s2 : series) : series :=
  zip_with (fun a b => Num (of_bool (cell_eqb a b))) s1 s2.

(** [(s > k).astype(int)] *)
Definition series_gt_scalar (s : series) (k : float) : result series :=
  mapM (fun a => b <- cell_gt a (Num k) ;; Ok (Num (of_bool b))) s.

(** [s.isnull().sum()] *)
Definition count_null (s : series) : nat :=
  length (filter isnull s).

(** [s.fillna(v)] *)
Definition fillna (v : cell) (s : series) : series :=
  map (fun a => if isnull a then v else a) s.

(* ====================================================================== *)
(** * Constants of [src/config.py] *)
(* ====================================================================== *)

Module config.

Definition CATEGORICAL_FEATURES : list string :=
  ["gas"; "hot_water"; "central_heating"; "extra_area_type_name";
   "district_name"].

Definition NUMERICAL_FEATURES : list string :=
  ["kitchen_area"; "bath_area"; "other_area"; "extra_area";
   "extra_area_count"; "year"; "ceil_height"; "floor_max";
   "floor"; "total_area"; "bath_count"; "rooms_count"].

Definition CURRENT_YEAR : float := Fin 2024.

Definition FEATURE_ENGINEERING_CONFIG : list (string * bool) :=
  [("building_age", true); ("building_age_squared", true);
   ("area_ratios", true); ("floor_features", true);
   ("amenities_score", true); ("volume", true);
   ("extra_area_features", true); ("interaction_features", true);
   ("polynomial_features", false)].

Definition OUTLIER_METHOD : string := "iqr".
Definition OUTLIER_THRESHOLD : float := Fin 3.
Definition REMOVE_OUTLIERS : bool := false.

Definition EARLY_STOPPING_ROUNDS : nat := 50.

Definition MISSING_VALUE_STRATEGY_numerical : string := "median".
Definition MISSING_VALUE_STRATEGY_categorical : string := "mode".

(** [VALIDATION_RULES]: column, min, max, required. *)
Definition VALIDATION_RULES : list (string * Q * Q * bool) :=
  [("price", 1000000, 100000000, true);
   ("total_area", 10, 500, true);
   ("rooms_count", 0, 10, true);
   ("year", 1800, 2025, true);
   ("floor", 1, 100, true);
   ("ceil_height", 3 # 2, 6, true)].

End config.

(* ====================================================================== *)
(** * [FeatureEngineer] *)
(* ====================================================================== *)

Module FeatureEngineer.
Import config.

(** [config.get(key, True)] on a dict of flags. *)
Fixpoint config_get (cfg : list (string * bool)) (key : string) (default : bool)
  : bool :=
  match cfg with
  | [] => default
  | (k, v) :: cfg' => if String.eqb key k then v else config_get cfg' key default
  end.

(** The state of the object: [self.df] and [self.config]. *)
Record t : Type := mk { df : frame; cfg : list (string * bool) }.

(** [__init__]: [self.df = df.copy()], [self.config = config or
    FEATURE_ENGINEERING_CONFIG] (None and the empty dict are falsy). *)
Definition __init__ (d : frame) (c : option (list (string * bool))) : t :=
  mk d (match c with
        | None | Some [] => FEATURE_ENGINEERING_CONFIG
        | Some c' => c'
        end).

Definition set_df (self : t) (d : frame) : t := mk d (cfg self).

Definition has (self : t) (c : string) : bool := mem c (columns (df self)).

Definition _create_building_age_features (self : t) : result t :=
  if has self "year" then
    year <- getitem (df self) "year" ;;
    age <- scalar_arith_l fsub CURRENT_YEAR year ;;
    let self := set_df self (setitem (df self) "building_age" age) in
    if config_get (cfg self) "building_age_squared" true then
      age' <- getitem (df self) "building_age" ;;
      sq <- series_arith fmul age' age' ;;
      Ok (set_df self (setitem (df self) "building_age_squared" sq))
    else Ok self
  else Ok self.

Definition _create_area_ratio_features (self : t) : result t :=
  if has self "total_area" then
    total_area <- getitem (df self) "total_area" ;;
    let total_area_safe := replace_zero NaN total_area in
    self <- (if has self "kitchen_area" then
               a <- getitem (df self) "kitchen_area" ;;
               r <- series_arith fdiv a total_area_safe ;;
               Ok (set_df self (setitem (df self) "kitchen_ratio" r))
             else Ok self) ;;
    self <- (if has self "bath_area" then
               a <- getitem (df self) "bath_area" ;;
               r <- series_arith fdiv a total_area_safe ;;
               Ok (set_df self (setitem (df self) "bath_ratio" r))
             else Ok self) ;;
    self <- (if has self "other_area" then
               a <- getitem (df self) "other_area" ;;
               let self := set_df self (setitem (df self) "living_area" a) in
               a' <- getitem (df self) "other_area" ;;
               r <- series_arith fdiv a' total_area_safe ;;
               Ok (set_df self (setitem (df self) "living_ratio" r))
             else Ok self) ;;
    if has self "rooms_count" then
      rooms <- getitem (df self) "rooms_count" ;;
      let rooms_safe := replace_zero (Fin 1) rooms in
      total <- getitem (df self) "total_area" ;;
      r <- series_arith fdiv total rooms_safe ;;
      Ok (set_df self (setitem (df self) "area_per_room" r))
    else Ok self
  else Ok self.

Definition _create_floor_features (self : t) : result t :=
  if has self "floor" && has self "floor_max" then
    floor <- getitem (df self) "floor" ;;
    let self :=
      set_df self (setitem (df self) "is_first_floor"
                     (series_eq_scalar floor (Num (Fin 1)))) in
    floor <- getitem (df self) "floor" ;;
    floor_max <- getitem (df self) "floor_max" ;;
    let self :=
      set_df self (setitem (df self) "is_last_floor" (series_eq floor floor_max)) in
    floor_max <- getitem (df self) "floor_max" ;;
    let floor_max_safe := replace_zero (Fin 1) floor_max in
    floor <- getitem (df self) "floor" ;;
    r <- series_arith fdiv floor floor_max_safe ;;
    Ok (set_df self (setitem (df self) "floor_ratio" r))
  else Ok self.

Definition amenity_cols : list string := ["gas"; "hot_water"; "central_heating"].

(** [sum(gen)] of Python starts from the integer 0. *)
Definition _create_amenities_score (self : t) : result t :=
  if forallb (has self) amenity_cols then
    flags <- mapM (fun c => s <- getitem (df self) c ;;
                            Ok (series_eq_scalar s (Str "Yes")))
               amenity_cols ;;
    match flags with
    | [] => Ok self
    | f0 :: rest =>
        first <- scalar_arith_l fadd (Fin 0) f0 ;;
        total <- foldM (series_arith fadd) rest first ;;
        Ok (set_df self (setitem (df self) "amenities_score" total))
    end
  else Ok self.

Definition _create_volume_feature (self : t) : result t :=
  if has self "total_area" && has self "ceil_height" then
    a <- getitem (df self) "total_area" ;;
    h <- getitem (df self) "ceil_height" ;;
    v <- series_arith fmul a h ;;
    Ok (set_df self (setitem (df self) "volume" v))
  else Ok self.

Definition _create_extra_area_features (self : t) : result t :=
  if has self "extra_area" then
    e <- getitem (df self) "extra_area" ;;
    flag <- series_gt_scalar e (Fin 0) ;;
    let self := set_df self (setitem (df self) "has_extra_area" flag) in
    if has self "total_area" then
      total <- getitem (df self) "total_area" ;;
      let total_area_safe := replace_zero (Fin 1) total in
      e' <- getitem (df self) "extra_area" ;;
      r <- series_arith fdiv e' total_area_safe ;;
      Ok (set_df self (setitem (df self) "extra_area_ratio" r))
    else Ok self
  else Ok self.

Definition _create_interaction_features (self : t) : result t :=
  self <- (if has self "rooms_count" && has self "floor" then
             r <- getitem (df self) "rooms_count" ;;
             f <- getitem (df self) "floor" ;;
             p <- series_arith fmul r f ;;
             Ok (set_df self (setitem (df self) "rooms_floor_interaction" p))
           else Ok self) ;;
  if has self "total_area" && has self "building_age" then
    a <- getitem (df self) "total_area" ;;
    b <- getitem (df self) "building_age" ;;
    p <- series_arith fmul a b ;;
    Ok (set_df self (setitem (df self) "area_age_interaction" p))
  else Ok self.

Definition step (key : string) (f : t -> result t) (self : t) : result t :=
  if config_get (cfg self) key true then f self else Ok self.

(** [engineer_all]: returns the final state; its [df] is the returned frame. *)
Definition engineer_all (self : t) : result t :=
  self <- step "building_age" _create_building_age_features self ;;
  self <- step "area_ratios" _create_area_ratio_features self ;;
  self <- step "floor_features" _create_floor_features self ;;
  self <- step "amenities_score" _create_amenities_score self ;;
  self <- step "volume" _create_volume_feature self ;;
  self <- step "extra_area_features" _create_extra_area_features self ;;
  step "interaction_features" _create_interaction_features self.

End FeatureEngineer.

(* ====================================================================== *)
(** * The pandas interface *)
(* ====================================================================== *)

(** Library functions whose value depends on numeric or textual detail that
    the pipeline only passes along. *)
Record Pandas : Type := {
  series_mean : series -> result float;       (* Series.mean() *)
  series_median : series -> result float;     (* Series.median() *)
  series_std : series -> result float;        (* Series.std() *)
  series_quantile : series -> Q -> result float;  (* Series.quantile(q) *)
  series_mode : series -> series;             (* Series.mode() *)
  parse_float : string -> float;   (* pd.to_numeric(errors='coerce') of a str *)
  repr_float : float -> string     (* str() of a float *)
}.

(** [pd.to_numeric(s, errors='coerce')] *)
Definition to_numeric (lib : Pandas) (s : series) : series :=
  map (fun a => match a with
                | Num x => Num x
                | Str t => Num (parse_float lib t)
                end) s.

(** [str(a)] for one cell, and [s.astype(str)]. *)
Definition cell_str (lib : Pandas) (a : cell) : string :=
  match a with
  | Num x => repr_float lib x
  | Str t => t
  end.

Definition astype_str (lib : Pandas) (s : series) : series :=
  map (fun a => Str (cell_str lib a)) s.

(** ** Rows *)

Definition cell_lt (a b : cell) : result bool :=
  match a, b with
  | Num x, Num y => Ok (fltb x y)
  | _, _ => type_error
  end.

Definition cell_le (a b : cell) : result bool :=
  match a, b with
  | Num x, Num y => Ok (fleb x y)
  | _, _ => type_error
  end.

Fixpoint filter_by {A : Type} (keep : list bool) (l : list A) : list A :=
  match keep, l with
  | k :: keep', a :: l' =>
      if k then a :: filter_by keep' l' else filter_by keep' l'
  | _, _ => []
  end.

(** [df\[mask\]] with a boolean mask over the rows. *)
Definition filter_rows (keep : list bool) (df : frame) : frame :=
  map (fun p => (fst p, filter_by keep (snd p))) df.

Definition rows (df : frame) : list (list cell) :=
  map (fun i => map (fun p => nth i (snd p) (Num NaN)) df)
      (seq 0 (n_rows df)).

(** Equality of cells as [duplicated] sees it: missing values are equal. *)
Definition cell_same (a b : cell) : bool :=
  match a, b with
  | Num NaN, Num NaN => true
  | _, _ => cell_eqb a b
  end.

Fixpoint row_same (r r' : list cell) : bool :=
  match r, r' with
  | [], [] => true
  | a :: t, b :: t' => cell_same a b && row_same t t'
  | _, _ => false
  end.

Fixpoint duplicated_from (seen rs : list (list cell)) : list bool :=
  match rs with
  | [] => []
  | r :: rs' => existsb (row_same r) seen :: duplicated_from (r :: seen) rs'
  end.

(** [df.duplicated()]: a row equal to an earlier one. *)
Definition duplicated (df : frame) : list bool :=
  duplicated_from [] (rows df).

Definition count_true (l : list bool) : nat := length (filter (fun b => b) l).

(** [df.drop_duplicates()] *)
Definition drop_duplicates (df : frame) : frame :=
  filter_rows (map negb (duplicated df)) df.

(** [df.dropna(subset=\[col\])] *)
Definition dropna_subset (df : frame) (col : string) : result frame :=
  s <- getitem df col ;;
  Ok (filter_rows (map (fun a => negb (isnull a)) s) df).

(* ====================================================================== *)
(** * [DataValidator] *)
(* ====================================================================== *)

Module DataValidator.
Import config.

(** The messages appended to [self.validation_issues], by kind. *)
Inductive issue : Type :=
| MissingValues (col : string) (count : nat)
| ShouldBeNumeric (col : string)
| ShouldBeCategorical (col : string)
| RequiredColumnMissing (col : string)
| BelowMinimum (col : string) (violations : nat)
| AboveMaximum (col : string) (violations : nat)
| DuplicateRecords (n : nat).

(** The dtype of a column is numeric when all its cells are numbers, and
    [object] otherwise. *)
Definition is_numeric_dtype (s : series) : bool :=
  forallb (fun a => match a with Num _ => true | Str _ => false end) s.

Definition _check_missing_values (df : frame) (issues : list issue)
  : list issue :=
  issues ++
  flat_map (fun p => let n := count_null (snd p) in
                     if Nat.ltb 0 n then [MissingValues (fst p) n] else [])
           df.

Definition _check_data_types (df : frame) (issues : list issue)
  : result (list issue) :=
  issues <-
    foldM (fun issues col =>
             if mem col (columns df) then
               s <- getitem df col ;;
               if negb (is_numeric_dtype s)
               then Ok (issues ++ [ShouldBeNumeric col]) else Ok issues
             else Ok issues)
          NUMERICAL_FEATURES issues ;;
  foldM (fun issues col =>
           if mem col (columns df) then
             s <- getitem df col ;;
             if is_numeric_dtype s
             then Ok (issues ++ [ShouldBeCategorical col]) else Ok issues
           else Ok issues)
        CATEGORICAL_FEATURES issues.

Definition count_where (f : cell -> result bool) (s : series) : result nat :=
  flags <- mapM f s ;; Ok (count_true flags).

Definition _check_value_ranges (df : frame) (issues : list issue)
  : result (list issue) :=
  foldM (fun issues rule =>
           let '(col, lo, hi, required) := rule in
           if negb (mem col (columns df)) then
             if (required : bool)
             then Ok (issues ++ [RequiredColumnMissing col]) else Ok issues
           else
             s <- getitem df col ;;
             below <- count_where (fun a => cell_lt a (Num (Fin lo))) s ;;
             let issues :=
               if Nat.ltb 0 below
               then issues ++ [BelowMinimum col below] else issues in
             s <- getitem df col ;;
             above <- count_where (fun a => cell_gt a (Num (Fin hi))) s ;;
             Ok (if Nat.ltb 0 above
                 then issues ++ [AboveMaximum col above] else issues))
        VALIDATION_RULES issues.

Definition _check_duplicates (df : frame) (issues : list issue) : list issue :=
  let n := count_true (duplicated df) in
  if Nat.ltb 0 n then issues ++ [DuplicateRecords n] else issues.

(** [validate_all] on a validator whose [validation_issues] is [issues]
    ([\[\]] after [__init__]); the frame is only read. *)
Definition validate_all (df : frame) (issues : list issue)
  : result (bool * list issue) :=
  let issues := _check_missing_values df issues in
  issues <- _check_data_types df issues ;;
  issues <- _check_value_ranges df issues ;;
  let issues := _check_duplicates df issues in
  Ok (Nat.eqb (length issues) 0, issues).

End DataValidator.

(* ====================================================================== *)
(** * [DataCleaner] *)
(* ====================================================================== *)

(** The methods act on [self.df], the private copy made by [__init__]; they
    are written as functions from its content before the call to its content
    after.  The in-place [fillna] through [self.df\[col\]] is taken to reach
    the frame (pandas without copy-on-write). *)
Module DataCleaner.
Import config.

Section WithPandas.
Variable lib : Pandas.

Definition cols_with_missing (df : frame) : list string :=
  map fst (filter (fun p => Nat.ltb 0 (count_null (snd p))) df).

Definition fill_column (df : frame) (col : string) (v : cell) : result frame :=
  s <- getitem df col ;; Ok (setitem df col (fillna v s)).

Definition _handle_missing_values (df : frame) : result frame :=
  let cols := cols_with_missing df in
  if Nat.eqb (length cols) 0 then Ok df
  else
    foldM (fun df col =>
             if mem col NUMERICAL_FEATURES then
               let strategy := MISSING_VALUE_STRATEGY_numerical in
               if String.eqb strategy "mean" then
                 s <- getitem df col ;;
                 m <- series_mean lib s ;;
                 fill_column df col (Num m)
               else if String.eqb strategy "median" then
                 s <- getitem df col ;;
                 m <- series_median lib s ;;
                 fill_column df col (Num m)
               else if String.eqb strategy "drop" then dropna_subset df col
               else Ok df
             else if mem col CATEGORICAL_FEATURES then
               let strategy := MISSING_VALUE_STRATEGY_categorical in
               if String.eqb strategy "mode" then
                 s <- getitem df col ;;
                 match series_mode lib s with
                 | [] => Raise (KeyError "0")
                 | v :: _ => fill_column df col v
                 end
               else if String.eqb strategy "constant" then
                 fill_column df col (Str "Unknown")
               else if String.eqb strategy "drop" then dropna_subset df col
               else Ok df
             else Ok df)
          cols df.

Definition _remove_duplicates (df : frame) : frame :=
  let n_duplicates := count_true (duplicated df) in
  if Nat.ltb 0 n_duplicates then drop_duplicates df else df.

Definition _handle_outliers (df : frame) : result frame :=
  if negb REMOVE_OUTLIERS then Ok df
  else
    foldM (fun df col =>
             if negb (mem col (columns df)) then Ok df
             else if String.eqb OUTLIER_METHOD "iqr" then
               s <- getitem df col ;;
               Q1 <- series_quantile lib s (1 # 4) ;;
               Q3 <- series_quantile lib s (3 # 4) ;;
               let IQR := fsub Q3 Q1 in
               let lower_bound := fsub Q1 (fmul OUTLIER_THRESHOLD IQR) in
               let upper_bound := fadd Q3 (fmul OUTLIER_THRESHOLD IQR) in
               below <- mapM (fun a => cell_lt a (Num lower_bound)) s ;;
               above <- mapM (fun a => cell_gt a (Num upper_bound)) s ;;
               let outliers := count_true (zip_with orb below above) in
               if Nat.ltb 0 outliers then
                 ge <- mapM (fun a => cell_le (Num lower_bound) a) s ;;
                 le <- mapM (fun a => cell_le a (Num upper_bound)) s ;;
                 Ok (filter_rows (zip_with andb ge le) df)
               else Ok df
             else if String.eqb OUTLIER_METHOD "zscore" then
               s <- getitem df col ;;
               m <- series_mean lib s ;;
               sd <- series_std lib s ;;
               centred <- scalar_arith_r fsub s m ;;
               scaled <- scalar_arith_r fdiv centred sd ;;
               let z_scores := map (fun a => Num (fabs (val a))) scaled in
               above <- mapM (fun a => cell_gt a (Num OUTLIER_THRESHOLD))
                          z_scores ;;
               if Nat.ltb 0 (count_true above) then
                 le <- mapM (fun a => cell_le a (Num OUTLIER_THRESHOLD))
                         z_scores ;;
                 Ok (filter_rows le df)
               else Ok df
             else Ok df)
          NUMERICAL_FEATURES df.

Definition _fix_data_types (df : frame) : result frame :=
  df <- foldM (fun df col =>
                 if mem col (columns df) then
                   s <- getitem df col ;;
                   Ok (setitem df col (to_numeric lib s))
                 else Ok df)
          NUMERICAL_FEATURES df ;;
  foldM (fun df col =>
           if mem col (columns df) then
             s <- getitem df col ;;
             Ok (setitem df col (astype_str lib s))
           else Ok df)
        CATEGORICAL_FEATURES df.

(** [clean]: the content of [self.df] when the method returns it. *)
Definition clean (df : frame) : result frame :=
  df <- _handle_missing_values df ;;
  let df := _remove_duplicates df in
  df <- _handle_outliers df ;;
  _fix_data_types df.

End WithPandas.
End DataCleaner.

(* ====================================================================== *)
(** * [LabelEncoder] (scikit-learn) *)
(* ====================================================================== *)

Module LabelEncoder.

(** A fitted encoder: [classes_], the sorted distinct labels. *)
Record t : Type := mk { classes_ : list string }.

Fixpoint insert (x : string) (l : list string) : list string :=
  match l with
  | [] => [x]
  | y :: l' =>
      match String.compare x y with
      | Lt => x :: l
      | Eq => l
      | Gt => y :: insert x l'
      end
  end.

(** [np.unique] *)
Definition unique (y : list string) : list string :=
  fold_right insert [] y.

Fixpoint index (x : string) (l : list string) : option nat :=
  match l with
  | [] => None
  | y :: l' =>
      if String.eqb x y then Some 0%nat
      else match index x l' with
           | Some i => Some (S i)
           | None => None
           end
  end.

Definition fit (y : list string) : t := mk (unique y).

(** [transform]: the position of each label in [classes_]; an unseen label
    is a ValueError. *)
Definition transform (le : t) (y : list string) : result (list nat) :=
  mapM (fun x => match index x (classes_ le) with
                 | Some i => Ok i
                 | None =>
                     Raise (ValueError "y contains previously unseen labels")
                 end) y.

Definition fit_transform (y : list string) : result (t * list nat) :=
  let le := fit y in
  codes <- transform le y ;; Ok (le, codes).

End LabelEncoder.

(* ====================================================================== *)
(** * Objects: the store of frames and the preprocessor *)
(* ====================================================================== *)

(** The fields of a [DataPreprocessor]. *)
Record preprocessor : Type := mk_preprocessor {
  label_encoders : list (string * LabelEncoder.t);
  feature_names : list string;
  is_fitted : bool
}.

(** The part of the Python heap the pipeline touches: the DataFrame
    objects, addressed by position, and the preprocessor [self]. *)
Record world : Type := mk_world {
  frames : list frame;
  self_ : preprocessor
}.

Definition loc : Type := nat.

(** A method of an object of state [S]: it reads and writes the state and
    may raise; the state survives an exception. *)
Definition St (S A : Type) : Type := S -> result A * S.

Definition retM {S A : Type} (a : A) : St S A := fun w => (Ok a, w).
Definition raiseM {S A : Type} (e : exn) : St S A := fun w => (Raise e, w).

Definition bindM {S A B : Type} (m : St S A) (k : A -> St S B) : St S B :=
  fun w => match m w with
           | (Ok a, w') => k a w'
           | (Raise e, w') => (Raise e, w')
           end.

Notation "x <~ m ;; k" := (bindM m (fun x => k))
  (at level 61, m at next level, right associativity).

Definition liftM {S A : Type} (r : result A) : St S A := fun w => (r, w).

(** Reading [self], and an assignment to its fields. *)
Definition getS {S : Type} : St S S := fun w => (Ok w, w).
Definition modifyS {S : Type} (f : S -> S) : St S unit :=
  fun w => (Ok tt, f w).

Fixpoint forM_ {S A : Type} (l : list A) (body : A -> St S unit) : St S unit :=
  match l with
  | [] => retM tt
  | a :: l' => _ <~ body a ;; forM_ l' body
  end.

(** [try: m  except Exception: handler] *)
Definition try_except {S A : Type} (m : St S A) (handler : exn -> St S A)
  : St S A :=
  fun w => match m w with
           | (Ok a, w') => (Ok a, w')
           | (Raise e, w') => handler e w'
           end.

(** Computations on the heap of frames. *)
Definition M (A : Type) : Type := St world A.

Fixpoint update {A : Type} (i : nat) (a : A) (l : list A) : list A :=
  match l, i with
  | [], _ => []
  | _ :: l', O => a :: l'
  | x :: l', S i' => x :: update i' a l'
  end.

(** A new DataFrame object. *)
Definition alloc (f : frame) : M loc :=
  fun w => (Ok (length (frames w)), mk_world (frames w ++ [f]) (self_ w)).

Definition load (l : loc) : M frame :=
  fun w => match nth_error (frames w) l with
           | Some f => (Ok f, w)
           | None => (Raise (LibraryError "dangling reference"), w)
           end.

(** Mutation of the object at [l]. *)
Definition store (l : loc) (f : frame) : M unit :=
  fun w => (Ok tt, mk_world (update l f (frames w)) (self_ w)).

Definition get_self : M preprocessor := fun w => (Ok (self_ w), w).

Definition set_self (p : preprocessor) : M unit :=
  fun w => (Ok tt, mk_world (frames w) p).

(** [df.copy()] *)
Definition copy (l : loc) : M loc := f <~ load l ;; alloc f.

(** A method that mutates the frame at [l]. *)
Definition inplace (g : frame -> result frame) (l : loc) : M unit :=
  f <~ load l ;; f' <~ liftM (g f) ;; store l f'.

(** ** Python sets of labels *)

(** The iteration order of a set is not specified by the language. *)
Record Python : Type := {
  set_order : list string -> list string;
  set_order_perm : forall l, Permutation (set_order l) l
}.

(** [set(a) - set(b)], as the list of its elements. *)
Definition set_difference (a b : list string) : list string :=
  nodup string_dec (filter (fun c => negb (mem c b)) a).

(** ** Dicts keyed by labels *)

Fixpoint dict_get {V : Type} (d : list (string * V)) (k : string) : option V :=
  match d with
  | [] => None
  | (k', v) :: d' => if String.eqb k k' then Some v else dict_get d' k
  end.

Fixpoint dict_set {V : Type} (d : list (string * V)) (k : string) (v : V)
  : list (string * V) :=
  match d with
  | [] => [(k, v)]
  | (k', v') :: d' =>
      if String.eqb k k' then (k', v) :: d' else (k', v') :: dict_set d' k v
  end.

(* ====================================================================== *)
(** * [DataPreprocessor] *)
(* ====================================================================== *)

Module DataPreprocessor.
Import config.

Section WithLibraries.
Variable lib : Pandas.
Variable py : Python.

(** [__init__] *)
Definition __init__ : preprocessor := mk_preprocessor [] [] false.

(** [DataCleaner(df)]: the object is its field [self.df], a copy. *)
Definition new_DataCleaner (df : loc) : M loc := copy df.

(** [cleaner.clean()]: mutates [self.df] and returns it. *)
Definition DataCleaner_clean (self : loc) : M loc :=
  _ <~ inplace (DataCleaner.clean lib) self ;; retM self.

(** [FeatureEngineer(df)], with the default configuration. *)
Definition new_FeatureEngineer (df : loc) : M loc := copy df.

(** [engineer.engineer_all()]: mutates [self.df] and returns it. *)
Definition FeatureEngineer_engineer_all (self : loc) : M loc :=
  _ <~ inplace (fun f =>
                  e <- FeatureEngineer.engineer_all
                         (FeatureEngineer.__init__ f None) ;;
                  Ok (FeatureEngineer.df e)) self ;;
  retM self.

Definition code_cell (i : nat) : cell := Num (of_nat i).

(** The lambda of [_encode_categorical]:
    [x if x in le.classes_ else le.classes_\[0\]]. *)
Definition known_or_first (le : LabelEncoder.t) (x : string) : result string :=
  if mem x (LabelEncoder.classes_ le) then Ok x
  else match LabelEncoder.classes_ le with
       | [] => Raise (IndexError "index 0 is out of bounds")
       | c :: _ => Ok c
       end.

Definition _encode_categorical (df : loc) (fit : bool) : M loc :=
  df <~ copy df ;;
  _ <~ forM_ CATEGORICAL_FEATURES (fun col =>
    f <~ load df ;;
    if negb (mem col (columns f)) then retM tt
    else if fit then
      s <~ liftM (getitem f col) ;;
      r <~ liftM (LabelEncoder.fit_transform (map (cell_str lib) s)) ;;
      let '(le, codes) := r in
      _ <~ store df (setitem f col (map code_cell codes)) ;;
      p <~ get_self ;;
      set_self (mk_preprocessor (dict_set (label_encoders p) col le)
                  (feature_names p) (is_fitted p))
    else
      p <~ get_self ;;
      match dict_get (label_encoders p) col with
      | Some le =>
          s <~ liftM (getitem f col) ;;
          mapped <~ liftM (mapM (known_or_first le) (map (cell_str lib) s)) ;;
          _ <~ store df (setitem f col (map Str mapped)) ;;
          f <~ load df ;;
          s <~ liftM (getitem f col) ;;
          codes <~ liftM (LabelEncoder.transform le (map (cell_str lib) s)) ;;
          store df (setitem f col (map code_cell codes))
      | None => retM tt
      end) ;;
  retM df.

(** [X\[col\] = 0] *)
Definition zeros (n : nat) : series := repeat (Num (Fin 0)) n.

Definition present (cols : list string) (f : frame) : list string :=
  filter (fun c => mem c (columns f)) cols.

Definition fit_transform (df : loc) (target_col : string)
  : M (loc * option series) :=
  (* validator = DataValidator(df): keeps a reference to the argument *)
  d <~ load df ;;
  _ <~ liftM (DataValidator.validate_all d []) ;;
  cleaner <~ new_DataCleaner df ;;
  df_clean <~ DataCleaner_clean cleaner ;;
  engineer <~ new_FeatureEngineer df_clean ;;
  df_engineered <~ FeatureEngineer_engineer_all engineer ;;
  df_encoded <~ _encode_categorical df_engineered true ;;
  enc <~ load df_encoded ;;
  Xy <~ (if mem target_col (columns enc) then
           y <~ liftM (getitem enc target_col) ;;
           d <~ liftM (drop enc [target_col]) ;;
           X <~ alloc d ;;
           retM (X, Some y)
         else retM (df_encoded, None)) ;;
  let '(X, y) := Xy in
  let cols_to_drop := ["index"; "Unnamed: 0"] in
  Xf <~ load X ;;
  d <~ liftM (drop Xf (present cols_to_drop Xf)) ;;
  X <~ alloc d ;;
  Xf <~ load X ;;
  p <~ get_self ;;
  _ <~ set_self (mk_preprocessor (label_encoders p) (columns Xf) true) ;;
  retM (X, y).

Definition transform (df : loc) : M loc :=
  p <~ get_self ;;
  if negb (is_fitted p) then
    raiseM (ValueError "Preprocessor not fitted. Call fit_transform first.")
  else
    cleaner <~ new_DataCleaner df ;;
    df_clean <~ DataCleaner_clean cleaner ;;
    engineer <~ new_FeatureEngineer df_clean ;;
    df_engineered <~ FeatureEngineer_engineer_all engineer ;;
    df_encoded <~ _encode_categorical df_engineered false ;;
    let cols_to_drop := ["index"; "Unnamed: 0"; "price"] in
    enc <~ load df_encoded ;;
    d <~ liftM (drop enc (present cols_to_drop enc)) ;;
    X <~ alloc d ;;
    Xf <~ load X ;;
    p <~ get_self ;;
    let missing_features :=
      set_order py (set_difference (feature_names p) (columns Xf)) in
    _ <~ forM_ missing_features (fun col =>
           inplace (fun f => Ok (setitem f col (zeros (n_rows f)))) X) ;;
    Xf <~ load X ;;
    p <~ get_self ;;
    let extra_features :=
      set_order py (set_difference (columns Xf) (feature_names p)) in
    X <~ (match extra_features with
          | [] => retM X
          | _ :: _ =>
              Xf <~ load X ;;
              d <~ liftM (drop Xf extra_features) ;;
              alloc d
          end) ;;
    Xf <~ load X ;;
    p <~ get_self ;;
    d <~ liftM (select Xf (feature_names p)) ;;
    alloc d.

End WithLibraries.
End DataPreprocessor.

(* ====================================================================== *)
(** * The regressor libraries and scikit-learn's [r2_score] *)
(* ====================================================================== *)

(** A numpy array of floats. *)
Definition vector : Type := list float.

(** The keyword arguments of the four ways [model.fit] is called. *)
Inductive fit_args : Type :=
| Plain
| XgbEvalSet (X_val : frame) (y_val : vector)
| LgbEarlyStopping (X_val : frame) (y_val : vector) (rounds : nat)
| CatEarlyStopping (X_val : frame) (y_val : vector) (rounds : nat).

(** xgboost, lightgbm, catboost and [cross_val_score], as far as the
    trainers use them. *)
Record Regressors : Type := {
  Model : Type;
  XGBRegressor : Model;        (* xgb.XGBRegressor( **XGBOOST_PARAMS) *)
  LGBMRegressor : Model;       (* lgb.LGBMRegressor( **LIGHTGBM_PARAMS) *)
  CatBoostRegressor : Model;   (* cb.CatBoostRegressor( **CATBOOST_PARAMS) *)
  model_fit : Model -> frame -> vector -> fit_args -> result Model;
  model_predict : Model -> frame -> result vector;
  cross_val_score : Model -> frame -> vector -> result vector;
  elapsed : float              (* the difference of two [time.time()] *)
}.

Definition Qsum (l : list Q) : Q := fold_right Qplus 0%Q l.

Definition finite_values (v : vector) : option (list Q) :=
  fold_right (fun x acc => match x, acc with
                           | Fin q, Some l => Some (q :: l)
                           | _, _ => None
                           end) (Some []) v.

(** The checks every regression metric of scikit-learn starts with: equal
    lengths, at least one sample, no NaN and no infinity. *)
Definition check_reg_targets (y_true y_pred : vector)
  : result (list Q * list Q) :=
  if negb (Nat.eqb (length y_true) (length y_pred)) then
    Raise (ValueError "Found input variables with inconsistent numbers of samples")
  else match y_true with
       | [] => Raise (ValueError "Found array with 0 sample(s)")
       | _ :: _ =>
           match finite_values y_true, finite_values y_pred with
           | Some t, Some p => Ok (t, p)
           | _, _ => Raise (ValueError "Input contains NaN or infinity")
           end
       end.

Definition Qmean (l : list Q) : Q :=
  (Qsum l / inject_Z (Z.of_nat (length l)))%Q.

Definition squares (l : list Q) : list Q := map (fun x => (x * x)%Q) l.

Definition residuals (t p : list Q) : list Q :=
  zip_with (fun a b => (a - b)%Q) t p.

(** [sklearn.metrics.r2_score]: NaN below two samples; with a constant
    target, 1 for a perfect prediction and 0 otherwise. *)
Definition r2_score (y_true y_pred : vector) : result float :=
  tp <- check_reg_targets y_true y_pred ;;
  let '(t, p) := tp in
  if Nat.ltb (length p) 2 then Ok NaN
  else
    let numerator := Qsum (squares (residuals t p)) in
    let m := Qmean t in
    let denominator := Qsum (squares (map (fun a => (a - m)%Q) t)) in
    Ok (Fin (if negb (Qzero denominator) then (1 - numerator / denominator)%Q
             else if negb (Qzero numerator) then 0%Q else 1%Q)).

(** [np.arange(start, stop, step)], in exact arithmetic. *)
Definition arange (start stop step : Q) : list Q :=
  map (fun i => (start + inject_Z (Z.of_nat i) * step)%Q)
      (seq 0 (Z.to_nat (Qceiling ((stop - start) / step)))).

(* ====================================================================== *)
(** * [ModelTrainer] *)
(* ====================================================================== *)

Module ModelTrainer.
Import config.

Section WithRegressors.
Variable lib : Regressors.

Record t : Type := mk {
  model_type : string;
  model : option (Model lib);
  training_time : float;
  cv_scores : option vector
}.

Definition __init__ (model_type : string) : t :=
  mk model_type None (Fin 0) None.

Definition set_model (self : t) (m : Model lib) : t :=
  mk (model_type self) (Some m) (training_time self) (cv_scores self).

Definition unknown_model_type (model_type : string) : exn :=
  ValueError (String.append "Unknown model type: "
                (String.append model_type
                   ". Only xgboost, lightgbm, catboost are supported.")).

(** [build_model]: sets [self.model]. *)
Definition build_model (self : t) : result t :=
  if String.eqb (model_type self) "xgboost" then
    Ok (set_model self (XGBRegressor lib))
  else if String.eqb (model_type self) "lightgbm" then
    Ok (set_model self (LGBMRegressor lib))
  else if String.eqb (model_type self) "catboost" then
    Ok (set_model self (CatBoostRegressor lib))
  else Raise (unknown_model_type (model_type self)).

Definition fit_with (self : t) (X_train : frame) (y_train : vector)
           (args : fit_args) : result t :=
  match model self with
  | Some m => m' <- model_fit lib m X_train y_train args ;; Ok (set_model self m')
  | None => Raise (TypeError "'NoneType' object has no attribute 'fit'")
  end.

Definition _train_with_early_stopping (self : t) (X_train : frame)
           (y_train : vector) (X_val : frame) (y_val : vector) : result t :=
  if String.eqb (model_type self) "xgboost" then
    fit_with self X_train y_train (XgbEvalSet X_val y_val)
  else if String.eqb (model_type self) "lightgbm" then
    fit_with self X_train y_train
             (LgbEarlyStopping X_val y_val EARLY_STOPPING_ROUNDS)
  else if String.eqb (model_type self) "catboost" then
    fit_with self X_train y_train
             (CatEarlyStopping X_val y_val EARLY_STOPPING_ROUNDS)
  else Ok self.

(** [train]: the trainer after the call. *)
Definition train (self : t) (X_train : frame) (y_train : vector)
           (X_val : option frame) (y_val : option vector) : result t :=
  self <- (match model self with
           | None => build_model self
           | Some _ => Ok self
           end) ;;
  self <- (match X_val, y_val with
           | Some Xv, Some yv =>
               if mem (model_type self) ["xgboost"; "lightgbm"; "catboost"]
               then _train_with_early_stopping self X_train y_train Xv yv
               else fit_with self X_train y_train Plain
           | _, _ => fit_with self X_train y_train Plain
           end) ;;
  Ok (mk (model_type self) (model self) (elapsed lib) (cv_scores self)).

Definition cross_validate (self : t) (X : frame) (y : vector) : result t :=
  self <- (match model self with
           | None => build_model self
           | Some _ => Ok self
           end) ;;
  match model self with
  | Some m =>
      scores <- cross_val_score lib m X y ;;
      Ok (mk (model_type self) (model self) (training_time self) (Some scores))
  | None => Raise (TypeError "estimator should be an estimator")
  end.

Definition predict (self : t) (X : frame) : result vector :=
  match model self with
  | None => Raise (ValueError "Model not trained. Call train() first.")
  | Some m => model_predict lib m X
  end.

End WithRegressors.
End ModelTrainer.

(* ====================================================================== *)
(** * [EnsembleTrainer] *)
(* ====================================================================== *)

Module EnsembleTrainer.

Section WithRegressors.
Variable lib : Regressors.

(** A dict of weights; [None] until weights are assigned. *)
Definition weights_t : Type := list (string * Q).

Record t : Type := mk {
  model_types : list string;
  models : list (string * ModelTrainer.t lib);
  weights : option weights_t
}.

Definition __init__ (model_types : list string) : t := mk model_types [] None.

Definition set_weights (self : t) (w : option weights_t) : t :=
  mk (model_types self) (models self) w.

(** [{mt: 1/len(model_types) for mt in model_types}] *)
Definition equal_weights (model_types : list string) : weights_t :=
  fold_left (fun d mt =>
               dict_set d mt (1 / inject_Z (Z.of_nat (length model_types)))%Q)
            model_types [].

Definition train_all (X_train : frame) (y_train : vector)
           (X_val : option frame) (y_val : option vector) : St t unit :=
  self <~ getS ;;
  _ <~ forM_ (model_types self) (fun model_type =>
         let trainer := ModelTrainer.__init__ lib model_type in
         trainer <~ liftM (ModelTrainer.train lib trainer X_train y_train
                             X_val y_val) ;;
         modifyS (fun s => mk (model_types s)
                              (dict_set (models s) model_type trainer)
                              (weights s))) ;;
  modifyS (fun s => set_weights s (Some (equal_weights (model_types s)))).

(** [dict(zip(keys, values))] *)
Definition dict_zip {V : Type} (keys : list string) (values : list V)
  : list (string * V) :=
  fold_left (fun d kv => dict_set d (fst kv) (snd kv)) (combine keys values) [].

Definition vector_add (a b : vector) : result vector :=
  if Nat.eqb (length a) (length b) then Ok (zip_with fadd a b)
  else Raise (ValueError "operands could not be broadcast together").

Definition _weighted_predict (predictions : list (string * vector))
           (weights : weights_t) : result vector :=
  match predictions with
  | [] => Raise StopIteration
  | (_, first) :: _ =>
      foldM (fun ensemble_pred mp =>
               match dict_get weights (fst mp) with
               | None => Raise (KeyError (fst mp))
               | Some w =>
                   vector_add ensemble_pred
                              (map (fun x => fmul (Fin w) x) (snd mp))
               end)
            predictions (repeat (Fin 0) (length first))
  end.

(** The weight triples of the grid, in the order the loops visit them. *)
Definition grid : list (Q * Q * Q) :=
  flat_map (fun w1 =>
    flat_map (fun w2 =>
      let w3 := (1 - w1 - w2)%Q in
      if Qltb w3 (1 # 10) || Qltb (8 # 10) w3 then []
      else [(w1, w2, w3)])
      (arange (2 # 10) (8 # 10) (1 # 10)))
    (arange (2 # 10) (8 # 10) (1 # 10)).

Definition triple_list (w : Q * Q * Q) : list Q :=
  let '(w1, w2, w3) := w in [w1; w2; w3].

(** One iteration of the inner loop: the state is [(best_score,
    best_weights)]. *)
Definition try_weights (model_types : list string)
           (predictions : list (string * vector)) (y_val : vector)
           (best : float * option weights_t) (w : Q * Q * Q)
  : result (float * option weights_t) :=
  let weights := dict_zip model_types (triple_list w) in
  ensemble_pred <- _weighted_predict predictions weights ;;
  score <- r2_score y_val ensemble_pred ;;
  if fgtb score (fst best) then Ok (score, Some weights) else Ok best.

Definition predictions_of (self : t) (X : frame)
  : result (list (string * vector)) :=
  foldM (fun predictions mt =>
           pred <- ModelTrainer.predict lib (snd mt) X ;;
           Ok (dict_set predictions (fst mt) pred))
        (models self) [].

(** [optimize_weights]: the trainer after the call; the value returned is
    its [weights]. *)
Definition optimize_weights (self : t) (X_val : frame) (y_val : vector)
           (method : string) : result t :=
  if String.eqb method "equal" then
    Ok (set_weights self (Some (equal_weights (model_types self))))
  else
    predictions <- predictions_of self X_val ;;
    best <- (if Nat.eqb (length (model_types self)) 3 then
               foldM (try_weights (model_types self) predictions y_val)
                     grid (Inf true, None)
             else Ok (Inf true, None)) ;;
    match snd best with
    | Some best_weights => Ok (set_weights self (Some best_weights))
    | None => Ok self
    end.

Definition predict (self : t) (X : frame) : result vector :=
  match models self with
  | [] => Raise (ValueError "No models trained")
  | _ :: _ =>
      predictions <- predictions_of self X ;;
      match weights self with
      | Some w => _weighted_predict predictions w
      | None => Raise (TypeError "'NoneType' object is not subscriptable")
      end
  end.

End WithRegressors.
End EnsembleTrainer.

(* ====================================================================== *)
(** * [TrainingPipeline] *)
(* ====================================================================== *)

Module TrainingPipeline.

Section WithRegressors.
Variable lib : Regressors.

(** A value of [self.trained_models]. *)
Inductive trained : Type :=
| Single (trainer : ModelTrainer.t lib)
| Ensemble (ensemble : EnsembleTrainer.t lib).

Record t : Type := mk {
  models_to_train : list string;
  trained_models : list (string * trained)
}.

Definition __init__ (models_to_train : list string) : t :=
  mk models_to_train [].

Definition set_trained (self : t) (key : string) (v : trained) : t :=
  mk (models_to_train self) (dict_set (trained_models self) key v).

(** The body of the [try] block for one model type. *)
Definition train_member (model_type : string) (X_train : frame)
           (y_train : vector) (X_val : option frame) (y_val : option vector)
           (perform_cv : bool) : result (ModelTrainer.t lib) :=
  let trainer := ModelTrainer.__init__ lib model_type in
  trainer <- (if perform_cv
              then ModelTrainer.cross_validate lib trainer X_train y_train
              else Ok trainer) ;;
  ModelTrainer.train lib trainer X_train y_train X_val y_val.

Definition ensemble_models : list string := ["xgboost"; "lightgbm"; "catboost"].

(** [key in self.trained_models] *)
Definition has_key (key : string) (tm : list (string * trained)) : bool :=
  match dict_get tm key with Some _ => true | None => false end.

Definition train_all_models (X_train : frame) (y_train : vector)
           (X_val : option frame) (y_val : option vector) (perform_cv : bool)
  : St t (list (string * trained)) :=
  self <~ getS ;;
  _ <~ forM_ (models_to_train self) (fun model_type =>
         if String.eqb model_type "ensemble" then retM tt
         else
           try_except
             (trainer <~ liftM (train_member model_type X_train y_train
                                  X_val y_val perform_cv) ;;
              modifyS (fun s => set_trained s model_type (Single trainer)))
             (fun _ => retM tt)) ;;
  _ <~ (if mem "ensemble" (models_to_train self) then
          self <~ getS ;;
          let available_models :=
            filter (fun m => has_key m (trained_models self))
                   ensemble_models in
          if Nat.leb 2 (length available_models) then
            let ensemble := EnsembleTrainer.__init__ lib available_models in
            members <~ liftM
              (mapM (fun m => match dict_get (trained_models self) m with
                              | Some (Single tr) => Ok (m, tr)
                              | Some (Ensemble _) =>
                                  Raise (TypeError "not a ModelTrainer")
                              | None => Raise (KeyError m)
                              end) available_models) ;;
            let ensemble :=
              EnsembleTrainer.mk lib available_models
                (fold_left (fun d mt => dict_set d (fst mt) (snd mt)) members [])
                (EnsembleTrainer.weights lib ensemble) in
            ensemble <~
              (match X_val, y_val with
               | Some Xv, Some yv =>
                   liftM (EnsembleTrainer.optimize_weights lib ensemble Xv yv
                            "grid_search")
               | _, _ =>
                   retM (EnsembleTrainer.set_weights lib ensemble
                           (Some (EnsembleTrainer.equal_weights
                                    available_models)))
               end) ;;
            modifyS (fun s => set_trained s "ensemble" (Ensemble ensemble))
          else retM tt
        else retM tt) ;;
  self <~ getS ;;
  retM (trained_models self).

End WithRegressors.
End TrainingPipeline.

(* ====================================================================== *)
(** * [ModelEvaluator] *)
(* ====================================================================== *)

(** numpy functions that leave the rationals, and the type of the number
    [r2_score] returns (a numpy float in older releases of scikit-learn, a
    Python float in newer ones: only the second raises on a division by the
    integer zero). *)
Record Numerics : Type := {
  np_sqrt : float -> float;
  np_median : vector -> float;
  r2_is_python_float : bool
}.

Definition vsum (v : vector) : float := fold_right fadd (Fin 0) v.

(** [np.mean] *)
Definition vmean (v : vector) : float := fdiv (vsum v) (of_nat (length v)).

(** [np.var] *)
Definition vvar (v : vector) : float :=
  let m := vmean v in
  vmean (map (fun x => fmul (fsub x m) (fsub x m)) v).

Definition fmax (x y : float) : float := if fgtb y x then y else x.

(** [np.max] of a non-empty array. *)
Definition vmax (v : vector) : float :=
  match v with
  | [] => NaN
  | x :: v' => fold_left fmax v' x
  end.

Definition mean_squared_error (y_true y_pred : vector) : result float :=
  tp <- check_reg_targets y_true y_pred ;;
  let '(t, p) := tp in
  Ok (Fin (Qmean (squares (residuals t p)))).

Definition mean_absolute_error (y_true y_pred : vector) : result float :=
  tp <- check_reg_targets y_true y_pred ;;
  let '(t, p) := tp in
  Ok (Fin (Qmean (map Qabs (residuals t p)))).

Definition Qmax' (a b : Q) : Q := if Qle_bool a b then b else a.

(** [np.finfo(np.float64).eps] *)
Definition float_eps : Q := 1 # (2 ^ 52).

Definition mean_absolute_percentage_error (y_true y_pred : vector)
  : result float :=
  tp <- check_reg_targets y_true y_pred ;;
  let '(t, p) := tp in
  Ok (Fin (Qmean (zip_with (fun a b =>
                              (Qabs (b - a) / Qmax' (Qabs a) float_eps)%Q)
                           t p))).

Module ModelEvaluator.

Section WithNumerics.
Variable np : Numerics.

(** The entries of [self.metrics] that [evaluate] sets. *)
Record metrics : Type := mk_metrics {
  r2 : float;
  rmse : float;
  mae : float;
  mape : float;
  mse : float;
  within_5_pct : float;
  within_10_pct : float;
  within_15_pct : float;
  within_20_pct : float;
  mean_error : float;
  std_error : float;
  max_error : float;
  median_error : float;
  explained_variance : float;
  adj_r2_score : float
}.

(** [(relative_errors <= bound).sum() / len(y_true) * 100] *)
Definition within (relative_errors : vector) (bound : Q) (n : nat) : float :=
  let count := length (filter (fun x => fleb x (Fin bound)) relative_errors) in
  fmul (fdiv (of_nat count) (of_nat n)) (Fin 100).

Definition _explained_variance (y_true y_pred : vector) : float :=
  let numerator := vvar (zip_with fsub y_true y_pred) in
  let denominator := vvar y_true in
  if negb (feqb denominator (Fin 0)) then fsub (Fin 1) (fdiv numerator denominator)
  else Fin 0.

(** [x / k] for a Python int [k]. *)
Definition div_by_int (x : float) (k : Z) : result float :=
  if r2_is_python_float np && Z.eqb k 0
  then Raise (LibraryError "ZeroDivisionError: float division by zero")
  else Ok (fdiv x (Fin (inject_Z k))).

Definition evaluate (y_true y_pred : vector) : result metrics :=
  r2_ <- r2_score y_true y_pred ;;
  mse_ <- mean_squared_error y_true y_pred ;;
  let rmse_ := np_sqrt np mse_ in
  mae_ <- mean_absolute_error y_true y_pred ;;
  mape_ <- mean_absolute_percentage_error y_true y_pred ;;
  let mape_ := fmul mape_ (Fin 100) in
  mse_ <- mean_squared_error y_true y_pred ;;
  let errors := map fabs (zip_with fsub y_true y_pred) in
  let relative_errors := zip_with fdiv errors y_true in
  let n := length y_true in
  let w5 := within relative_errors (5 # 100) n in
  let w10 := within relative_errors (10 # 100) n in
  let w15 := within relative_errors (15 # 100) n in
  let w20 := within relative_errors (20 # 100) n in
  let diff := zip_with fsub y_pred y_true in
  let mean_error_ := vmean diff in
  let std_error_ := np_sqrt np (vvar diff) in
  let max_error_ := vmax (map fabs diff) in
  let median_error_ := np_median np (map fabs diff) in
  let ev := _explained_variance y_true y_pred in
  let p := 1%Z in
  q <- div_by_int (fmul (fsub (Fin 1) r2_) (Fin (inject_Z (Z.of_nat n - 1))))
                  (Z.of_nat n - p - 1) ;;
  let adj := fsub (Fin 1) q in
  Ok (mk_metrics r2_ rmse_ mae_ mape_ mse_ w5 w10 w15 w20 mean_error_
                 std_error_ max_error_ median_error_ ev adj).

End WithNumerics.
End ModelEvaluator.

(* ====================================================================== *)
(** * Instances for closed examples *)
(* ====================================================================== *)

Definition qcell (q : Q) : cell := Num (Fin q).

(** On frames without missing values, with numbers in the numeric columns
    and strings in the categorical ones, the pipeline reaches none of the
    functions of the interface. *)
Definition example_pandas : Pandas := {|
  series_mean := fun _ => Raise (LibraryError "mean");
  series_median := fun _ => Raise (LibraryError "median");
  series_std := fun _ => Raise (LibraryError "std");
  series_quantile := fun _ _ => Raise (LibraryError "quantile");
  series_mode := fun _ => [];
  parse_float := fun _ => NaN;
  repr_float := fun _ => "nan"
|}.

(** Regressors that predict a constant: 1, 2 and 3. *)
Definition example_regressors : Regressors := {|
  Model := Q;
  XGBRegressor := 1%Q;
  LGBMRegressor := 2%Q;
  CatBoostRegressor := 3%Q;
  model_fit := fun m _ _ _ => Ok m;
  model_predict := fun m X => Ok (repeat (Fin m) (n_rows X));
  cross_val_score := fun _ _ _ => Ok [];
  elapsed := Fin 0
|}.

Definition example_trainer (model_type : string) (m : Q)
  : ModelTrainer.t example_regressors :=
  ModelTrainer.mk example_regressors model_type (Some m) (Fin 0) None.

(** An ensemble of the three trained members, before any weights. *)
Definition example_ensemble : EnsembleTrainer.t example_regressors :=
  EnsembleTrainer.mk example_regressors ["xgboost"; "lightgbm"; "catboost"]
    [("xgboost", example_trainer "xgboost" 1%Q);
     ("lightgbm", example_trainer "lightgbm" 2%Q);
     ("catboost", example_trainer "catboost" 3%Q)]
    None.

(** Regressors of which lightgbm fails to fit. *)
Definition flaky_regressors : Regressors := {|
  Model := Q;
  XGBRegressor := 1%Q;
  LGBMRegressor := 2%Q;
  CatBoostRegressor := 3%Q;
  model_fit := fun m _ _ _ =>
                 if Qeq_bool m 2 then Raise (LibraryError "LightGBMError")
                 else Ok m;
  model_predict := fun m X => Ok (repeat (Fin m) (n_rows X));
  cross_val_score := fun _ _ _ => Ok [];
  elapsed := Fin 0
|}.

Definition example_numerics : Numerics := {|
  np_sqrt := fun _ => NaN;
  np_median := fun _ => NaN;
  r2_is_python_float := true
|}.

Definition example_python : Python := {|
  set_order := fun l => l;
  set_order_perm := fun l => Permutation_refl l
|}.

(** A training batch of two records, with its target. *)
Definition training_frame : frame :=
  [("kitchen_area", [qcell 10; qcell 8]); ("bath_area", [qcell 5; qcell 4]);
   ("other_area", [qcell (101 # 2); qcell 30]);
   ("gas", [Str "Yes"; Str "No"]); ("hot_water", [Str "Yes"; Str "Yes"]);
   ("central_heating", [Str "Yes"; Str "No"]);
   ("extra_area", [qcell 10; qcell 0]); ("extra_area_count", [qcell 1; qcell 0]);
   ("year", [qcell 2010; qcell 1990]);
   ("ceil_height", [qcell (27 # 10); qcell (5 # 2)]);
   ("floor_max", [qcell 10; qcell 5]); ("floor", [qcell 5; qcell 1]);
   ("total_area", [qcell 65; qcell 42]); ("bath_count", [qcell 1; qcell 1]);
   ("extra_area_type_name", [Str "balcony"; Str "loggia"]);
   ("district_name", [Str "Centralnyj"; Str "Kirovskij"]);
   ("rooms_count", [qcell 3; qcell 0]);
   ("price", [qcell 6500000; qcell 4200000])].

(* ====================================================================== *)
(** * Vocabulary of the statements *)
(* ====================================================================== *)

Definition numeric_cell (a : cell) : bool :=
  match a with Num _ => true | Str _ => false end.

Definition finite_cell (a : cell) : bool :=
  match a with Num (Fin _) => true | _ => false end.

Definition numeric (s : series) : bool := forallb numeric_cell s.
Definition finite_series (s : series) : bool := forallb finite_cell s.

(** The columns the feature engineering reads as numbers. *)
Definition numeric_inputs : list string :=
  config.NUMERICAL_FEATURES ++ ["building_age"].

(** Every numeric input column that is present holds finite numbers. *)
Definition finite_inputs (df : frame) : Prop :=
  forall c s, mem c numeric_inputs = true -> getitem df c = Ok s ->
              finite_series s = true.

(** [df'] agrees with [df] on every label outside [W]. *)
Definition same_outside (W : list string) (df df' : frame) : Prop :=
  forall c, mem c W = false -> getitem df' c = getitem df c.

(** Elementwise quotient of two numeric columns. *)
Definition quotient (s1 s2 : series) : series :=
  zip_with (fun a b => Num (fdiv (val a) (val b))) s1 s2.

(** The record of the test suite, with the three denominators left open. *)
Definition sample_frame (total_area rooms_count floor_max : Q) : frame :=
  [("kitchen_area", [qcell 10]); ("bath_area", [qcell 5]);
   ("other_area", [qcell (101 # 2)]);
   ("gas", [Str "Yes"]); ("hot_water", [Str "Yes"]);
   ("central_heating", [Str "Yes"]);
   ("extra_area", [qcell 10]); ("extra_area_count", [qcell 1]);
   ("year", [qcell 2010]); ("ceil_height", [qcell (27 # 10)]);
   ("floor_max", [qcell floor_max]); ("floor", [qcell 5]);
   ("total_area", [qcell total_area]); ("bath_count", [qcell 1]);
   ("extra_area_type_name", [Str "Balcony"]);
   ("district_name", [Str "District1"]);
   ("rooms_count", [qcell rooms_count])].

(** ** The frame [transform] computes, as a function of the input frame *)

(** The body of the loop of [_encode_categorical] with [fit=False], on the
    content of the copy. *)
Definition encode_column (lib : Pandas) (encoders : list (string * LabelEncoder.t))
           (f : frame) (col : string) : result frame :=
  if negb (mem col (columns f)) then Ok f
  else match dict_get encoders col with
       | Some le =>
           s <- getitem f col ;;
           mapped <- mapM (DataPreprocessor.known_or_first le)
                       (map (cell_str lib) s) ;;
           let f := setitem f col (map Str mapped) in
           s <- getitem f col ;;
           codes <- LabelEncoder.transform le (map (cell_str lib) s) ;;
           Ok (setitem f col (map DataPreprocessor.code_cell codes))
       | None => Ok f
       end.

Definition encode_fitted (lib : Pandas) (encoders : list (string * LabelEncoder.t))
           (f : frame) : result frame :=
  foldM (encode_column lib encoders) config.CATEGORICAL_FEATURES f.

(** Cleaning, feature engineering and encoding of a raw frame. *)
Definition encoded (lib : Pandas) (p : preprocessor) (raw : frame)
  : result frame :=
  f <- DataCleaner.clean lib raw ;;
  e <- FeatureEngineer.engineer_all (FeatureEngineer.__init__ f None) ;;
  encode_fitted lib (label_encoders p) (FeatureEngineer.df e).

(** The encoded frame without the non-feature columns. *)
Definition kept (enc : frame) : frame :=
  filter (fun c => negb (mem (fst c) ["index"; "Unnamed: 0"; "price"])) enc.

(** The columns [names], in this order, taken from [f] where it has them
    and filled with zeros where it has not. *)
Definition aligned (names : list string) (f : frame) : frame :=
  map (fun c => (c, match getitem f c with
                    | Ok s => s
                    | Raise _ => DataPreprocessor.zeros (n_rows f)
                    end)) names.

(** ** Feature engineering *)

(** The columns each step of [engineer_all] assigns. *)
Definition W_building_age : list string :=
  ["building_age"; "building_age_squared"].

Definition W_area_ratio : list string :=
  ["kitchen_ratio"; "bath_ratio"; "living_area"; "living_ratio";
   "area_per_room"].

Definition W_floor : list string :=
  ["is_first_floor"; "is_last_floor"; "floor_ratio"].

Definition W_amenities : list string := ["amenities_score"].

Definition W_volume : list string := ["volume"].

Definition W_extra_area : list string := ["has_extra_area"; "extra_area_ratio"].

Definition W_interaction : list string :=
  ["rooms_floor_interaction"; "area_age_interaction"].

Definition W_all : list string :=
  W_building_age ++ W_area_ratio ++ W_floor ++ W_amenities ++ W_volume
    ++ W_extra_area ++ W_interaction.

(** What [engineer_all] computes for the guarded quotients. *)
Record ratios_spec (d d' : frame) : Prop := {
  rs_area_per_room :
    forall total r, getitem d "total_area" = Ok total ->
      getitem d "rooms_count" = Ok r ->
      getitem d' "area_per_room" = Ok (quotient total (replace_zero (Fin 1) r));
  rs_kitchen_ratio :
    forall total a, getitem d "total_area" = Ok total ->
      getitem d "kitchen_area" = Ok a ->
      getitem d' "kitchen_ratio" = Ok (quotient a (replace_zero NaN total));
  rs_bath_ratio :
    forall total a, getitem d "total_area" = Ok total ->
      getitem d "bath_area" = Ok a ->
      getitem d' "bath_ratio" = Ok (quotient a (replace_zero NaN total));
  rs_living_ratio :
    forall total a, getitem d "total_area" = Ok total ->
      getitem d "other_area" = Ok a ->
      getitem d' "living_ratio" = Ok (quotient a (replace_zero NaN total));
  rs_floor_ratio :
    forall f fmax, getitem d "floor" = Ok f ->
      getitem d "floor_max" = Ok fmax ->
      getitem d' "floor_ratio" = Ok (quotient f (replace_zero (Fin 1) fmax));
  rs_extra_area_ratio :
    forall e total, getitem d "extra_area" = Ok e ->
      getitem d "total_area" = Ok total ->
      getitem d' "extra_area_ratio" =
      Ok (quotient e (replace_zero (Fin 1) total))
}.

(** Decision procedure for [finite_inputs]. *)
Definition finite_inputsb (d : frame) : bool :=
  forallb (fun c => match getitem d c with
                    | Ok s => finite_series s
                    | Raise _ => true
                    end) numeric_inputs.

(** [s] holds [num / total] on the rows where [total] is not zero and NaN
    on the others. *)
Definition nan_guarded (num total s : series) : Prop :=
  forall i v t,
    nth_error num i = Some (qcell v) -> nth_error total i = Some (qcell t) ->
    nth_error s i = Some (Num (if Qzero t then NaN else Fin (v / t))).

(** [s] holds [num / den] with a zero denominator replaced by one. *)
Definition one_guarded (num den s : series) : Prop :=
  forall i v t,
    nth_error num i = Some (qcell v) -> nth_error den i = Some (qcell t) ->
    nth_error s i = Some (qcell (v / (if Qzero t then 1 else t))).

(** ** The store and the schema *)

(** [m], started on a heap of at least [n] objects, leaves the first [n]
    as they are (whether it returns or raises), and a value it returns
    satisfies [Q]. *)
Definition triple (n : nat) {A : Type} (m : M A) (Q : A -> Prop) : Prop :=
  forall w, (n <= length (frames w))%nat ->
  forall r w', m w = (r, w') ->
    (n <= length (frames w'))%nat /\
    firstn n (frames w') = firstn n (frames w) /\
    forall a, r = Ok a -> Q a.

(** The frame after [X\[col\] = 0] for each [col] of [cols]. *)
Definition add_zeros (f : frame) (cols : list string) : frame :=
  fold_left (fun f col => setitem f col (DataPreprocessor.zeros (n_rows f))) cols f.

(** ** Training *)

Definition known_model_types : list string := ["xgboost"; "lightgbm"; "catboost"].

(** [sum(weights.values())] *)
Definition weights_sum (w : list (string * Q)) : Q := Qsum (map snd w).

(** The sum is within [1e-6] of 1. *)
Definition sums_to_one (w : list (string * Q)) : Prop :=
  (Qabs (weights_sum w - 1) <= 1 # 1000000)%Q.

(** The R² of the ensemble under the weight triple [w]. *)
Definition score_of (types : list string) (predictions : list (string * vector))
           (y_val : vector) (w : Q * Q * Q) : result float :=
  p <- EnsembleTrainer._weighted_predict predictions
         (EnsembleTrainer.dict_zip types (EnsembleTrainer.triple_list w)) ;;
  r2_score y_val p.

(** A triple of the grid: the free weights are multiples of 0.1, the third
    weight is what is left of 1, and the three lie in [0.1, 0.8]. *)
Definition in_range (x : Q) : Prop := (1 # 10 <= x /\ x <= 8 # 10)%Q.

Definition on_tenths (x : Q) : Prop := exists k : Z, (x == inject_Z k / 10)%Q.

Definition grid_triple (w : Q * Q * Q) : Prop :=
  let '(w1, w2, w3) := w in
  w3 = (1 - w1 - w2)%Q /\
  on_tenths w1 /\ on_tenths w2 /\
  in_range w1 /\ in_range w2 /\ in_range w3.

Definition in_rangeb (x : Q) : bool := Qle_bool (1 # 10) x && Qle_bool x (8 # 10).

Definition on_tenthsb (x : Q) : bool :=
  Qeq_bool x (inject_Z (Qfloor (x * 10)) / 10).

Definition grid_tripleb (w : Q * Q * Q) : bool :=
  let '(w1, w2, w3) := w in
  Qeq_bool w3 (1 - w1 - w2) && on_tenthsb w1 && on_tenthsb w2
  && in_rangeb w1 && in_rangeb w2 && in_rangeb w3.

Section Members.
Variable lib : Regressors.
Variable X_train : frame.
Variable y_train : vector.
Variable X_val : option frame.
Variable y_val : option vector.
Variable perform_cv : bool.
Import TrainingPipeline.

(** The outcome of the [try] block for one model type. *)
Definition member (model_type : string) : result (ModelTrainer.t lib) :=
  train_member lib model_type X_train y_train X_val y_val perform_cv.

(** [self.trained_models] after the loop over the model types. *)
Definition members_after (types : list string)
           (tm : list (string * trained lib)) : list (string * trained lib) :=
  fold_left (fun tm mt =>
               if String.eqb mt "ensemble" then tm
               else match member mt with
                    | Ok tr => dict_set tm mt (Single lib tr)
                    | Raise _ => tm
                    end) types tm.

(** The members of the ensemble: the requested types that trained. *)
Definition available (types : list string) : list string :=
  filter (fun m => mem m types && is_ok (member m)) ensemble_models.

(** The trainer of an available member. *)
Definition trainer_of (m : string) : ModelTrainer.t lib :=
  match member m with
  | Ok tr => tr
  | Raise _ => ModelTrainer.__init__ lib m
  end.

End Members.

(** ** Evaluation *)

(** [count / n * 100] *)
Definition percentage (count n : nat) : Q :=
  (inject_Z (Z.of_nat count) / inject_Z (Z.of_nat n) * 100)%Q.

(** ** Feature engineering, row by row *)

(** Every numeric input column that is present holds numbers (NaN and the
    infinities included). *)
Definition number_inputs (df : frame) : Prop :=
  forall c s, mem c numeric_inputs = true -> getitem df c = Ok s ->
              numeric s = true.

(** [CURRENT_YEAR - year], elementwise. *)
Definition ages (year : series) : series :=
  map (fun a => Num (fsub config.CURRENT_YEAR (val a))) year.

(** Elementwise product of two numeric columns. *)
Definition product (s1 s2 : series) : series :=
  zip_with (fun a b => Num (fmul (val a) (val b))) s1 s2.

(** [(s == 'Yes').astype(int)] *)
Definition yes_flags (s : series) : series := series_eq_scalar s (Str "Yes").

(** The sum [0 + g + h + c] of three columns of flags. *)
Definition flags_sum (g h c : series) : series :=
  zip_with (fun a b => Num (fadd (val a) (val b)))
    (zip_with (fun a b => Num (fadd (val a) (val b)))
       (map (fun a => Num (fadd (Fin 0) (val a))) g) h) c.

(** [(s > 0).astype(int)] on a numeric column. *)
Definition positive_flags (s : series) : series :=
  map (fun a => Num (of_bool (fgtb (val a) (Fin 0)))) s.

(** The columns [engineer_all] derives, as functions of the input columns. *)
Record derived_spec (d d' : frame) : Prop := {
  ds_building_age :
    forall year, getitem d "year" = Ok year ->
      getitem d' "building_age" = Ok (ages year) /\
      getitem d' "building_age_squared" = Ok (product (ages year) (ages year));
  ds_living_area :
    forall total a, getitem d "total_area" = Ok total ->
      getitem d "other_area" = Ok a ->
      getitem d' "living_area" = Ok a;
  ds_floor_flags :
    forall f fmax, getitem d "floor" = Ok f ->
      getitem d "floor_max" = Ok fmax ->
      getitem d' "is_first_floor" = Ok (series_eq_scalar f (Num (Fin 1))) /\
      getitem d' "is_last_floor" = Ok (series_eq f fmax);
  ds_amenities_score :
    forall g h c, getitem d "gas" = Ok g ->
      getitem d "hot_water" = Ok h ->
      getitem d "central_heating" = Ok c ->
      getitem d' "amenities_score" =
      Ok (flags_sum (yes_flags g) (yes_flags h) (yes_flags c));
  ds_volume :
    forall total h, getitem d "total_area" = Ok total ->
      getitem d "ceil_height" = Ok h ->
      getitem d' "volume" = Ok (product total h);
  ds_has_extra_area :
    forall e, getitem d "extra_area" = Ok e ->
      getitem d' "has_extra_area" = Ok (positive_flags e);
  ds_rooms_floor :
    forall r f, getitem d "rooms_count" = Ok r ->
      getitem d "floor" = Ok f ->
      getitem d' "rooms_floor_interaction" = Ok (product r f);
  ds_area_age :
    forall total year, getitem d "total_area" = Ok total ->
      getitem d "year" = Ok year ->
      getitem d' "area_age_interaction" = Ok (product total (ages year))
}.

(** The labels of the columns [engineer_all] can add. *)
Definition derived_labels : list string := W_all.

(** The number of cells of [l] that are the string ['Yes']. *)
Definition yes_count (l : list cell) : nat :=
  length (filter (fun a => cell_eqb a (Str "Yes")) l).

(** ** Validation *)

(** The columns [VALIDATION_RULES] names. *)
Definition rule_columns : list string :=
  map (fun r => fst (fst (fst r))) config.VALIDATION_RULES.

(** ** Cleaning *)

(** The labels and lengths of the columns. *)
Definition shape (df : frame) : list (string * nat) :=
  map (fun p => (fst p, length (snd p))) df.

(** The labels of the feature columns. *)
Definition feature_labels : list string :=
  config.NUMERICAL_FEATURES ++ config.CATEGORICAL_FEATURES.

Definition string_cell (a : cell) : bool :=
  match a with Str _ => true | Num _ => false end.

(** What a step of the cleaning keeps of a frame [f] in the frame [g] it
    returns: the labels and lengths of the columns, and the content of the
    columns that are not features. *)
Definition kept_by (f g : frame) : Prop :=
  shape g = shape f /\
  forall c, mem c feature_labels = false -> getitem g c = getitem f c.

(** ** Encoding *)

(** The text of the cells of a column, as the encoders see it. *)
Definition labels (lib : Pandas) (s : series) : list string :=
  map (cell_str lib) s.

(** [codes] are the positions, in the vocabulary of [le], of the labels of
    [s]: decoding a code gives the label back. *)
Definition decodes (lib : Pandas) (s : series) (le : LabelEncoder.t)
           (codes : list nat) : Prop :=
  length codes = length s /\
  forall i a, nth_error s i = Some a ->
    exists k, nth_error codes i = Some k /\
              LabelEncoder.index (cell_str lib a) (LabelEncoder.classes_ le)
              = Some k /\
              nth_error (LabelEncoder.classes_ le) k = Some (cell_str lib a).

(** The frame [f'] and the encoders [encs'] after the columns [cols] of [f]
    have been encoded with fresh encoders. *)
Definition fit_encoded (lib : Pandas) (cols : list string)
           (f : frame) (encs : list (string * LabelEncoder.t))
           (f' : frame) (encs' : list (string * LabelEncoder.t)) : Prop :=
  shape f' = shape f /\
  forall c,
    match getitem f c with
    | Ok s =>
        if mem c cols then
          exists codes,
            dict_get encs' c = Some (LabelEncoder.fit (labels lib s)) /\
            getitem f' c = Ok (map DataPreprocessor.code_cell codes) /\
            decodes lib s (LabelEncoder.fit (labels lib s)) codes
        else getitem f' c = Ok s /\ dict_get encs' c = dict_get encs c
    | Raise e => getitem f' c = Raise e /\ dict_get encs' c = dict_get encs c
    end.

(** ** Fitting the preprocessor *)

(** Validation, cleaning and feature engineering of a raw frame, as
    [fit_transform] chains them. *)
Definition engineered_for_fit (lib : Pandas) (raw : frame) : result frame :=
  _ <- DataValidator.validate_all raw [] ;;
  f <- DataCleaner.clean lib raw ;;
  e <- FeatureEngineer.engineer_all (FeatureEngineer.__init__ f None) ;;
  Ok (FeatureEngineer.df e).

(** The labels [fit_transform] freezes: those of the engineered frame
    without the target and the index columns. *)
Definition frozen_labels (target_col : string) (f : frame) : list string :=
  filter (fun c => negb (mem c [target_col; "index"; "Unnamed: 0"]))
         (columns f).

(** ** Ensembles *)

(** [ModelTrainer(model_type).train(...)], as [train_all] calls it. *)
Definition trained_alone (lib : Regressors) (X_train : frame) (y_train : vector)
           (X_val : option frame) (y_val : option vector) (model_type : string)
  : result (ModelTrainer.t lib) :=
  ModelTrainer.train lib (ModelTrainer.__init__ lib model_type)
    X_train y_train X_val y_val.

(** Every entry of [v] is a finite number between [lo] and [hi]. *)
Definition between (lo hi : Q) (v : vector) : Prop :=
  Forall (fun x => exists q, x = Fin q /\ (lo <= q /\ q <= hi)%Q) v.

(** The sum of the weights of the members that predict. *)
Definition member_weights_sum (predictions : list (string * vector))
           (weights : list (string * Q)) : Q :=
  Qsum (map (fun mp => match dict_get weights (fst mp) with
                       | Some w => w
                       | None => 0%Q
                       end) predictions).

(** ** Evaluation *)

(** [x] is a finite number equal to [c]. *)
Definition equals (x : float) (c : Q) : Prop :=
  exists q, x = Fin q /\ (q == c)%Q.

(** Elementwise difference of two lists of numbers. *)
Definition differences (a b : list Q) : list Q :=
  zip_with (fun x y => (x - y)%Q) a b.

(** The population variance of a list of numbers ([np.var]). *)
Definition Qvariance (l : list Q) : Q :=
  Qmean (map (fun x => ((x - Qmean l) * (x - Qmean l))%Q) l).

(** The trainer [train_all] registers for a model type. *)
Definition trainer_alone (lib : Regressors) (X_train : frame) (y_train : vector)
           (X_val : option frame) (y_val : option vector) (model_type : string)
  : ModelTrainer.t lib :=
  match trained_alone lib X_train y_train X_val y_val model_type with
  | Ok tr => tr
  | Raise _ => ModelTrainer.__init__ lib model_type
  end.

(* ====================================================================== *)
(** * Frames: lookup after update *)
(* ====================================================================== *)

Lemma getitem_setitem (df : frame) (c : string) (s : series) (c' : string) :
  getitem (setitem df c s) c' = if String.eqb c' c then Ok s else getitem df c'.
Proof.
  induction df as [|[k v] df IH]; simpl.
  - destruct (String.eqb c' c); reflexivity.
  - destruct (String.eqb c k) eqn:Eck; simpl.
    + apply String.eqb_eq in Eck; subst k.
      destruct (String.eqb c' c); reflexivity.
    + destruct (String.eqb c' k) eqn:Ek.
      * apply String.eqb_eq in Ek; subst k.
        rewrite String.eqb_sym, Eck. reflexivity.
      * exact IH.
Qed.

Lemma mem_columns_setitem (df : frame) (c : string) (s : series) (c' : string) :
  mem c' (columns (setitem df c s)) = String.eqb c' c || mem c' (columns df).
Proof.
  unfold mem, columns.
  induction df as [|[k v] df IH]; simpl.
  - destruct (String.eqb c' c); reflexivity.
  - destruct (String.eqb c k) eqn:Eck; simpl.
    + apply String.eqb_eq in Eck; subst k.
      destruct (String.eqb c' c); reflexivity.
    + rewrite IH. destruct (String.eqb c' k), (String.eqb c' c); reflexivity.
Qed.

Lemma mem_getitem (df : frame) (c : string) :
  mem c (columns df) = true -> exists s, getitem df c = Ok s.
Proof.
  unfold mem, columns.
  induction df as [|[k v] df IH]; simpl; [discriminate|].
  destruct (String.eqb c k); simpl; eauto.
Qed.

Lemma getitem_mem (df : frame) (c : string) (s : series) :
  getitem df c = Ok s -> mem c (columns df) = true.
Proof.
  unfold mem, columns.
  induction df as [|[k v] df IH]; simpl; [discriminate|].
  destruct (String.eqb c k); simpl; auto.
Qed.

Lemma not_mem_getitem (df : frame) (c : string) :
  mem c (columns df) = false -> getitem df c = Raise (KeyError c).
Proof.
  unfold mem, columns.
  induction df as [|[k v] df IH]; simpl; [reflexivity|].
  destruct (String.eqb c k); simpl; [discriminate|auto].
Qed.

Lemma mem_In (c : string) (l : list string) : mem c l = true <-> In c l.
Proof.
  unfold mem. rewrite existsb_exists. split.
  - intros [x [Hx E]]. apply String.eqb_eq in E. subst. exact Hx.
  - intros H. exists c. split; [exact H|apply String.eqb_refl].
Qed.

Lemma same_outside_refl (W : list string) (df : frame) : same_outside W df df.
Proof. intros c _. reflexivity. Qed.

Lemma mem_cons (c x : string) (l : list string) :
  mem c (x :: l) = String.eqb c x || mem c l.
Proof. reflexivity. Qed.

Lemma mem_app (c : string) (l l' : list string) :
  mem c (l ++ l') = mem c l || mem c l'.
Proof. unfold mem. apply existsb_app. Qed.

Lemma same_outside_trans (W W' : list string) (d1 d2 d3 : frame) :
  same_outside W d1 d2 -> same_outside W' d2 d3 ->
  same_outside (W ++ W') d1 d3.
Proof.
  intros H12 H23 c Hc. rewrite mem_app in Hc.
  apply orb_false_iff in Hc. destruct Hc as [Hc Hc'].
  rewrite H23 by exact Hc'. apply H12. exact Hc.
Qed.

Lemma same_outside_setitem (W : list string) (df df' : frame) c s :
  mem c W = true -> same_outside W df df' ->
  same_outside W df (setitem df' c s).
Proof.
  intros Hc H c' Hc'. rewrite getitem_setitem.
  destruct (String.eqb c' c) eqn:E.
  - apply String.eqb_eq in E. subst c'. congruence.
  - apply H. exact Hc'.
Qed.

Lemma finite_inputs_same_outside (W : list string) (df df' : frame) :
  forallb (fun r => negb (mem r W)) numeric_inputs = true ->
  finite_inputs df -> same_outside W df df' -> finite_inputs df'.
Proof.
  intros HW Hfin Hsame c s Hc Hget.
  rewrite forallb_forall in HW.
  assert (Hn : mem c W = false).
  { apply mem_In in Hc. specialize (HW c Hc).
    now apply negb_true_iff in HW. }
  rewrite Hsame in Hget by exact Hn. eapply Hfin; eassumption.
Qed.

(* ====================================================================== *)
(** * Series: arithmetic on numeric columns never raises *)
(* ====================================================================== *)

Lemma finite_numeric (s : series) : finite_series s = true -> numeric s = true.
Proof.
  unfold finite_series, numeric. induction s as [|a s IH]; simpl; [reflexivity|].
  intros H. apply andb_true_iff in H. destruct H as [Ha Hs].
  rewrite IH by exact Hs. destruct a as [[| |]|]; try discriminate; reflexivity.
Qed.

Lemma series_arith_numeric (op : float -> float -> float) (s1 s2 : series) :
  numeric s1 = true -> numeric s2 = true ->
  series_arith op s1 s2 =
  Ok (zip_with (fun a b => Num (op (val a) (val b))) s1 s2).
Proof.
  unfold series_arith, numeric. revert s2.
  induction s1 as [|a s1 IH]; intros [|b s2]; simpl; try reflexivity.
  intros H1 H2. apply andb_true_iff in H1. apply andb_true_iff in H2.
  destruct H1 as [Ha H1], H2 as [Hb H2].
  destruct a; [|discriminate]. destruct b; [|discriminate]. simpl.
  rewrite IH by assumption. reflexivity.
Qed.

Lemma scalar_arith_l_numeric (op : float -> float -> float) k (s : series) :
  numeric s = true ->
  scalar_arith_l op k s = Ok (map (fun a => Num (op k (val a))) s).
Proof.
  unfold scalar_arith_l, numeric.
  induction s as [|a s IH]; simpl; [reflexivity|].
  intros H. apply andb_true_iff in H. destruct H as [Ha H].
  destruct a; [|discriminate]. simpl. rewrite IH by exact H. reflexivity.
Qed.

Lemma series_gt_scalar_numeric (s : series) (k : float) :
  numeric s = true ->
  series_gt_scalar s k = Ok (map (fun a => Num (of_bool (fgtb (val a) k))) s).
Proof.
  unfold series_gt_scalar, numeric.
  induction s as [|a s IH]; simpl; [reflexivity|].
  intros H. apply andb_true_iff in H. destruct H as [Ha H].
  destruct a; [|discriminate]. simpl. rewrite IH by exact H. reflexivity.
Qed.

Lemma numeric_replace_zero (v : float) (s : series) :
  numeric s = true -> numeric (replace_zero v s) = true.
Proof.
  unfold numeric, replace_zero. induction s as [|a s IH]; simpl; [reflexivity|].
  intros H. apply andb_true_iff in H. destruct H as [Ha H].
  rewrite IH by exact H. destruct (cell_is_zero a); [reflexivity|].
  rewrite Ha. reflexivity.
Qed.

Lemma numeric_zip_with (f : cell -> cell -> float) (s1 s2 : series) :
  numeric (zip_with (fun a b => Num (f a b)) s1 s2) = true.
Proof.
  unfold numeric. revert s2.
  induction s1 as [|a s1 IH]; intros [|b s2]; simpl; auto.
Qed.

Lemma numeric_map (f : cell -> float) (s : series) :
  numeric (map (fun a => Num (f a)) s) = true.
Proof. unfold numeric. induction s; simpl; auto. Qed.

Lemma numeric_series_eq_scalar (s : series) (k : cell) :
  numeric (series_eq_scalar s k) = true.
Proof. apply (numeric_map (fun a => of_bool (cell_eqb a k))). Qed.

Lemma nth_error_zip_with {A B C : Type} (f : A -> B -> C) l l' i a b :
  nth_error l i = Some a -> nth_error l' i = Some b ->
  nth_error (zip_with f l l') i = Some (f a b).
Proof.
  revert l' i. induction l as [|x l IH]; intros [|y l'] [|i]; simpl;
    try discriminate.
  - intros E1 E2. injection E1 as ->. injection E2 as ->. reflexivity.
  - apply IH.
Qed.

Lemma nth_error_zip_with_inv {A B C : Type} (f : A -> B -> C) l l' i c :
  nth_error (zip_with f l l') i = Some c ->
  exists a b, nth_error l i = Some a /\ nth_error l' i = Some b /\ c = f a b.
Proof.
  revert l' i. induction l as [|x l IH]; intros [|y l'] [|i]; simpl;
    try discriminate.
  - intros E. injection E as <-. eauto.
  - apply IH.
Qed.

Lemma nth_error_replace_zero (v : float) (s : series) i a :
  nth_error s i = Some a ->
  nth_error (replace_zero v s) i = Some (if cell_is_zero a then Num v else a).
Proof.
  unfold replace_zero. intros H.
  rewrite nth_error_map, H. reflexivity.
Qed.

(* ====================================================================== *)
(** * Feature engineering, step by step *)
(* ====================================================================== *)

Ltac eqb_strings :=
  repeat match goal with
  | |- context [String.eqb ?a ?b] =>
      let r := eval vm_compute in (String.eqb a b) in
      match r with
      | true => change (String.eqb a b) with true
      | false => change (String.eqb a b) with false
      end
  end.

Ltac fe_norm :=
  unfold FeatureEngineer.has, FeatureEngineer.set_df;
  cbn [FeatureEngineer.df FeatureEngineer.cfg bind orb andb mapM foldM];
  repeat (first [ rewrite getitem_setitem | rewrite mem_columns_setitem ];
          eqb_strings; cbn [orb andb bind]).

(** Reads a numeric input column known to be present. *)
Ltac fe_read Hfin Hmem s Hs :=
  let Hf := fresh "Hf" in
  destruct (mem_getitem _ _ Hmem) as [s Hs];
  pose proof (fun E => Hfin _ s E Hs) as Hf;
  specialize (Hf eq_refl);
  pose proof (finite_numeric _ Hf).

Ltac fe_outside :=
  repeat (apply same_outside_setitem; [reflexivity|]);
  apply same_outside_refl.

Ltac fe_numeric :=
  first [ assumption
        | apply numeric_replace_zero; assumption
        | apply numeric_zip_with
        | apply numeric_map
        | apply numeric_series_eq_scalar ].

(** Case analysis on the presence of the input column [c] of [d]. *)
Ltac fe_case Hfin d c :=
  let Hm := fresh "Hm" in
  let s := fresh "s" in
  let Hs := fresh "Hs" in
  destruct (mem c (columns d)) eqn:Hm;
  [ fe_read Hfin Hm s Hs | pose proof (not_mem_getitem _ _ Hm) ].

(** Symbolic execution of a step whose inputs are known. *)
Ltac fe_run :=
  repeat (fe_norm;
          match goal with
          | H : getitem ?d ?c = _ |- context [getitem ?d ?c] => rewrite H
          | H : mem ?c (columns ?d) = _ |- context [mem ?c (columns ?d)] =>
              rewrite H
          | |- context [series_arith _ _ _] =>
              rewrite series_arith_numeric by fe_numeric
          | |- context [scalar_arith_l _ _ _] =>
              rewrite scalar_arith_l_numeric by fe_numeric
          | |- context [series_gt_scalar _ _] =>
              rewrite series_gt_scalar_numeric by fe_numeric
          end);
  fe_norm.

(** Identifies two readings of one column. *)
Ltac fe_same :=
  repeat match goal with
  | H : getitem ?d ?c = Ok ?s, H' : getitem ?d ?c = Ok ?s' |- _ =>
      assert (s' = s) by congruence; subst s'; clear H'
  | H : getitem ?d ?c = Raise _, H' : getitem ?d ?c = Ok _ |- _ =>
      congruence
  | H : Ok ?s = Ok ?s' |- _ =>
      assert (s' = s) by congruence; subst s'; clear H
  | H : Raise _ = Ok _ |- _ => discriminate H
  end.

(** The same for a column read without arithmetic. *)
Ltac fe_case_any d c :=
  let Hm := fresh "Hm" in
  let s := fresh "s" in
  let Hs := fresh "Hs" in
  destruct (mem c (columns d)) eqn:Hm;
  [ destruct (mem_getitem _ _ Hm) as [s Hs]
  | pose proof (not_mem_getitem _ _ Hm) ].

Ltac fe_done :=
  eexists; split; [reflexivity|]; split; [reflexivity|].

Section FeatureEngineerSteps.
Import FeatureEngineer.

Lemma finite_building_age (year : series) :
  finite_series year = true ->
  finite_series (map (fun a => Num (fsub config.CURRENT_YEAR (val a))) year) = true.
Proof.
  unfold finite_series. induction year as [|a y IH]; cbn [forallb map];
    [reflexivity|].
  intros H. apply andb_true_iff in H. destruct H as [Ha H].
  rewrite IH by exact H. destruct a as [[| |]|]; try discriminate; reflexivity.
Qed.

Lemma building_age_spec (self : t) :
  finite_inputs (df self) ->
  exists self',
    _create_building_age_features self = Ok self' /\
    cfg self' = cfg self /\
    finite_inputs (df self') /\
    same_outside W_building_age (df self) (df self').
Proof.
  destruct self as [d cf]. intros Hfin.
  unfold _create_building_age_features. fe_norm.
  destruct (mem "year" (columns d)) eqn:Hyear.
  - fe_read Hfin Hyear year Hy. rewrite Hy. fe_norm.
    rewrite scalar_arith_l_numeric by assumption. fe_norm.
    assert (Hfin' : finite_inputs
                      (setitem d "building_age"
                         (map (fun a => Num (fsub config.CURRENT_YEAR (val a))) year))).
    { intros c s Hc. rewrite getitem_setitem.
      destruct (String.eqb c "building_age") eqn:E.
      - intros [= <-]. apply finite_building_age. assumption.
      - intros Hg. eapply Hfin; eassumption. }
    destruct (config_get cf "building_age_squared" true).
    + fe_norm. rewrite series_arith_numeric by fe_numeric. fe_norm.
      eexists. split; [reflexivity|]. split; [reflexivity|]. split.
      * eapply (finite_inputs_same_outside ["building_age_squared"]);
          [reflexivity|exact Hfin'|]. fe_outside.
      * fe_norm. fe_outside.
    + eexists. split; [reflexivity|]. split; [reflexivity|]. split.
      * exact Hfin'.
      * fe_norm. fe_outside.
  - eexists. split; [reflexivity|]. split; [reflexivity|]. split.
    + exact Hfin.
    + apply same_outside_refl.
Qed.

Lemma area_ratio_spec (self : t) :
  finite_inputs (df self) ->
  exists self',
    _create_area_ratio_features self = Ok self' /\
    cfg self' = cfg self /\
    same_outside W_area_ratio (df self) (df self') /\
    forall total, getitem (df self) "total_area" = Ok total ->
      (forall a, getitem (df self) "kitchen_area" = Ok a ->
         getitem (df self') "kitchen_ratio" =
         Ok (quotient a (replace_zero NaN total))) /\
      (forall a, getitem (df self) "bath_area" = Ok a ->
         getitem (df self') "bath_ratio" =
         Ok (quotient a (replace_zero NaN total))) /\
      (forall a, getitem (df self) "other_area" = Ok a ->
         getitem (df self') "living_ratio" =
         Ok (quotient a (replace_zero NaN total))) /\
      (forall r, getitem (df self) "rooms_count" = Ok r ->
         getitem (df self') "area_per_room" =
         Ok (quotient total (replace_zero (Fin 1) r))).
Proof.
  destruct self as [d cf]. cbn [df cfg]. intros Hfin.
  unfold _create_area_ratio_features.
  fe_case Hfin d "total_area";
    [ fe_case Hfin d "kitchen_area"; fe_case Hfin d "bath_area";
      fe_case Hfin d "other_area"; fe_case Hfin d "rooms_count" | ];
    fe_run;
    (eexists; split; [reflexivity|]; split; [reflexivity|]; split;
     [ fe_norm; fe_outside
     | intros total Htot; fe_same;
       repeat split; intros a Ha; fe_same; fe_norm; reflexivity ]).
Qed.

Lemma floor_spec (self : t) :
  finite_inputs (df self) ->
  exists self',
    _create_floor_features self = Ok self' /\
    cfg self' = cfg self /\
    same_outside W_floor (df self) (df self') /\
    forall f fmax, getitem (df self) "floor" = Ok f ->
      getitem (df self) "floor_max" = Ok fmax ->
      getitem (df self') "floor_ratio" =
      Ok (quotient f (replace_zero (Fin 1) fmax)).
Proof.
  destruct self as [d cf]. cbn [df cfg]. intros Hfin.
  unfold _create_floor_features.
  fe_case Hfin d "floor"; fe_case Hfin d "floor_max"; fe_run;
    (fe_done; split;
     [ fe_norm; fe_outside
     | intros f fmax Hfl Hmax; fe_same; fe_norm; reflexivity ]).
Qed.

Lemma amenities_spec (self : t) :
  exists self',
    _create_amenities_score self = Ok self' /\
    cfg self' = cfg self /\
    same_outside W_amenities (df self) (df self').
Proof.
  destruct self as [d cf]. cbn [df cfg].
  unfold _create_amenities_score, amenity_cols.
  cbn [forallb mapM foldM].
  fe_case_any d "gas"; fe_case_any d "hot_water";
    fe_case_any d "central_heating"; fe_run;
    (fe_done; fe_norm; fe_outside).
Qed.

Lemma volume_spec (self : t) :
  finite_inputs (df self) ->
  exists self',
    _create_volume_feature self = Ok self' /\
    cfg self' = cfg self /\
    same_outside W_volume (df self) (df self').
Proof.
  destruct self as [d cf]. cbn [df cfg]. intros Hfin.
  unfold _create_volume_feature.
  fe_case Hfin d "total_area"; fe_case Hfin d "ceil_height"; fe_run;
    (fe_done; fe_norm; fe_outside).
Qed.

Lemma extra_area_spec (self : t) :
  finite_inputs (df self) ->
  exists self',
    _create_extra_area_features self = Ok self' /\
    cfg self' = cfg self /\
    same_outside W_extra_area (df self) (df self') /\
    forall e total, getitem (df self) "extra_area" = Ok e ->
      getitem (df self) "total_area" = Ok total ->
      getitem (df self') "extra_area_ratio" =
      Ok (quotient e (replace_zero (Fin 1) total)).
Proof.
  destruct self as [d cf]. cbn [df cfg]. intros Hfin.
  unfold _create_extra_area_features.
  fe_case Hfin d "extra_area"; fe_case Hfin d "total_area"; fe_run;
    (fe_done; split;
     [ fe_norm; fe_outside
     | intros e total He Htot; fe_same; fe_norm; reflexivity ]).
Qed.

Lemma interaction_spec (self : t) :
  finite_inputs (df self) ->
  exists self',
    _create_interaction_features self = Ok self' /\
    cfg self' = cfg self /\
    same_outside W_interaction (df self) (df self').
Proof.
  destruct self as [d cf]. cbn [df cfg]. intros Hfin.
  unfold _create_interaction_features.
  fe_case Hfin d "rooms_count"; fe_case Hfin d "floor";
    fe_case Hfin d "total_area"; fe_case Hfin d "building_age"; fe_run;
    (fe_done; fe_norm; fe_outside).
Qed.

End FeatureEngineerSteps.

(* ====================================================================== *)
(** * [engineer_all] under the default configuration *)
(* ====================================================================== *)

Ltac default_flags :=
  repeat match goal with
  | |- context [FeatureEngineer.config_get
                  config.FEATURE_ENGINEERING_CONFIG ?k ?d] =>
      let r := eval vm_compute in
        (FeatureEngineer.config_get config.FEATURE_ENGINEERING_CONFIG k d) in
      change (FeatureEngineer.config_get
                config.FEATURE_ENGINEERING_CONFIG k d) with r
  end.

Ltac outside_of H :=
  rewrite H by reflexivity.

Section EngineerAll.
Import FeatureEngineer.

Lemma engineer_all_default (d : frame) :
  finite_inputs d ->
  exists self',
    engineer_all (__init__ d None) = Ok self' /\
    same_outside W_all d (df self') /\
    ratios_spec d (df self').
Proof.
  intros Hfin. unfold engineer_all, step.
  set (s0 := __init__ d None).
  assert (C0 : cfg s0 = config.FEATURE_ENGINEERING_CONFIG) by reflexivity.
  assert (F0 : finite_inputs (df s0)) by exact Hfin.
  destruct (building_age_spec s0 F0) as (s1 & E1 & C1 & F1 & O1).
  rewrite C0 in *. default_flags. rewrite E1. cbn [bind].
  destruct (area_ratio_spec s1 F1) as (s2 & E2 & C2 & O2 & P2).
  rewrite C1 in *. default_flags. rewrite E2. cbn [bind].
  assert (F2 : finite_inputs (df s2))
    by (eapply finite_inputs_same_outside; [|exact F1|exact O2]; reflexivity).
  destruct (floor_spec s2 F2) as (s3 & E3 & C3 & O3 & P3).
  rewrite C2 in *. default_flags. rewrite E3. cbn [bind].
  assert (F3 : finite_inputs (df s3))
    by (eapply finite_inputs_same_outside; [|exact F2|exact O3]; reflexivity).
  destruct (amenities_spec s3) as (s4 & E4 & C4 & O4).
  rewrite C3 in *. default_flags. rewrite E4. cbn [bind].
  assert (F4 : finite_inputs (df s4))
    by (eapply finite_inputs_same_outside; [|exact F3|exact O4]; reflexivity).
  destruct (volume_spec s4 F4) as (s5 & E5 & C5 & O5).
  rewrite C4 in *. default_flags. rewrite E5. cbn [bind].
  assert (F5 : finite_inputs (df s5))
    by (eapply finite_inputs_same_outside; [|exact F4|exact O5]; reflexivity).
  destruct (extra_area_spec s5 F5) as (s6 & E6 & C6 & O6 & P6).
  rewrite C5 in *. default_flags. rewrite E6. cbn [bind].
  assert (F6 : finite_inputs (df s6))
    by (eapply finite_inputs_same_outside; [|exact F5|exact O6]; reflexivity).
  destruct (interaction_spec s6 F6) as (s7 & E7 & C7 & O7).
  rewrite C6 in *. default_flags. rewrite E7.
  exists s7. split; [reflexivity|].
  change (df s0) with d in *.
  split.
  - unfold W_all.
    repeat (eapply same_outside_trans; [eassumption|]). exact O7.
  - split.
    + intros total r Ht Hr.
      outside_of O7. outside_of O6. outside_of O5. outside_of O4.
      outside_of O3.
      apply (P2 total); [|outside_of O1; exact Hr]. outside_of O1. exact Ht.
    + intros total a Ht Ha.
      outside_of O7. outside_of O6. outside_of O5. outside_of O4.
      outside_of O3.
      apply (P2 total); [|outside_of O1; exact Ha]. outside_of O1. exact Ht.
    + intros total a Ht Ha.
      outside_of O7. outside_of O6. outside_of O5. outside_of O4.
      outside_of O3.
      apply (P2 total); [|outside_of O1; exact Ha]. outside_of O1. exact Ht.
    + intros total a Ht Ha.
      outside_of O7. outside_of O6. outside_of O5. outside_of O4.
      outside_of O3.
      apply (P2 total); [|outside_of O1; exact Ha]. outside_of O1. exact Ht.
    + intros f fmax Hf Hm.
      outside_of O7. outside_of O6. outside_of O5. outside_of O4.
      apply P3; outside_of O2; outside_of O1; assumption.
    + intros e total He Ht.
      outside_of O7.
      apply P6; outside_of O5; outside_of O4; outside_of O3; outside_of O2;
        outside_of O1; assumption.
Qed.

End EngineerAll.

(* ====================================================================== *)
(** * Division guards of the feature engineering *)
(* ====================================================================== *)

Section DivisionGuards.
Import FeatureEngineer.

Lemma finite_inputsb_sound (d : frame) :
  finite_inputsb d = true -> finite_inputs d.
Proof.
  unfold finite_inputsb. rewrite forallb_forall.
  intros H c s Hc Hg. apply mem_In in Hc.
  specialize (H c Hc). rewrite Hg in H. exact H.
Qed.

Lemma quotient_nan_guarded (num total : series) :
  nan_guarded num total (quotient num (replace_zero NaN total)).
Proof.
  intros i v t Hv Ht. unfold quotient.
  erewrite nth_error_zip_with;
    [|exact Hv|apply nth_error_replace_zero; exact Ht].
  unfold qcell, cell_is_zero, cell_eqb, feqb. fold (Qzero t).
  destruct (Qzero t) eqn:Z; cbn [val fdiv]; [reflexivity|].
  rewrite Z. reflexivity.
Qed.

Lemma quotient_one_guarded (num den : series) :
  one_guarded num den (quotient num (replace_zero (Fin 1) den)).
Proof.
  intros i v t Hv Ht. unfold quotient.
  erewrite nth_error_zip_with;
    [|exact Hv|apply nth_error_replace_zero; exact Ht].
  unfold qcell, cell_is_zero, cell_eqb, feqb. fold (Qzero t).
  destruct (Qzero t) eqn:Z; cbn [val fdiv].
  - reflexivity.
  - rewrite Z. reflexivity.
Qed.

Lemma quotient_one_guarded_finite (num den : series) :
  finite_series num = true -> finite_series den = true ->
  finite_series (quotient num (replace_zero (Fin 1) den)) = true.
Proof.
  unfold finite_series, quotient, replace_zero. revert den.
  induction num as [|a num IH]; intros [|b den]; cbn [forallb map zip_with];
    try reflexivity.
  intros Ha Hb. apply andb_true_iff in Ha. apply andb_true_iff in Hb.
  destruct Ha as [Ha Hnum], Hb as [Hb Hden].
  rewrite IH by assumption. rewrite andb_true_r.
  destruct a as [[x| |]|]; try discriminate.
  destruct b as [[y| |]|]; try discriminate.
  unfold cell_is_zero, cell_eqb, feqb. fold (Qzero y).
  destruct (Qzero y) eqn:Z; cbn [val fdiv finite_cell].
  - reflexivity.
  - rewrite Z. reflexivity.
Qed.

End DivisionGuards.

(** C1, as stated, fails: on the test-suite record with [total_area = 0],
    [rooms_count = 0] and [floor_max = 0], [engineer_all] returns, and the
    derived [kitchen_ratio], [bath_ratio] and [living_ratio] of the row are
    NaN, which is not a finite value. *)
Lemma division_safety_counterexample :
  exists self',
    FeatureEngineer.engineer_all
      (FeatureEngineer.__init__ (sample_frame 0 0 0) None) = Ok self' /\
    getitem (FeatureEngineer.df self') "kitchen_ratio" = Ok [Num NaN] /\
    getitem (FeatureEngineer.df self') "bath_ratio" = Ok [Num NaN] /\
    getitem (FeatureEngineer.df self') "living_ratio" = Ok [Num NaN] /\
    finite_cell (Num NaN) = false.
Proof.
  eexists. split; [vm_compute; reflexivity|].
  repeat split; reflexivity.
Qed.

(** C1 (amended).  On every batch whose numeric input columns hold finite
    numbers, [engineer_all] (default configuration) completes without
    raising.  The derived [area_per_room], [floor_ratio] and
    [extra_area_ratio] are finite on every row, also where [rooms_count],
    [floor_max] or [total_area] is zero (the zero denominator is replaced by
    one).  The derived [kitchen_ratio], [bath_ratio] and [living_ratio] are
    the quotient by [total_area] on the rows where it is not zero and NaN,
    never an infinity, on the rows where it is zero. *)
Theorem division_safety (d : frame) :
  finite_inputs d ->
  exists self',
    FeatureEngineer.engineer_all (FeatureEngineer.__init__ d None) = Ok self' /\
    let d' := FeatureEngineer.df self' in
    (forall total rooms,
        getitem d "total_area" = Ok total ->
        getitem d "rooms_count" = Ok rooms ->
        exists s, getitem d' "area_per_room" = Ok s /\
                  finite_series s = true) /\
    (forall floor floor_max,
        getitem d "floor" = Ok floor ->
        getitem d "floor_max" = Ok floor_max ->
        exists s, getitem d' "floor_ratio" = Ok s /\
                  finite_series s = true) /\
    (forall extra total,
        getitem d "extra_area" = Ok extra ->
        getitem d "total_area" = Ok total ->
        exists s, getitem d' "extra_area_ratio" = Ok s /\
                  finite_series s = true) /\
    (forall total,
        getitem d "total_area" = Ok total ->
        (forall a, getitem d "kitchen_area" = Ok a ->
           exists s, getitem d' "kitchen_ratio" = Ok s /\
                     nan_guarded a total s) /\
        (forall a, getitem d "bath_area" = Ok a ->
           exists s, getitem d' "bath_ratio" = Ok s /\
                     nan_guarded a total s) /\
        (forall a, getitem d "other_area" = Ok a ->
           exists s, getitem d' "living_ratio" = Ok s /\
                     nan_guarded a total s)).
Proof.
  intros Hfin.
  destruct (engineer_all_default d Hfin) as (self' & E & _ & R).
  destruct R as [Rapr Rk Rb Rl Rf Re].
  exists self'. split; [exact E|]. cbv zeta.
  assert (fin : forall c s, mem c numeric_inputs = true ->
                            getitem d c = Ok s -> finite_series s = true)
    by exact Hfin.
  repeat split.
  - intros total rooms Ht Hr. eexists. split; [apply Rapr; eassumption|].
    apply quotient_one_guarded_finite;
      [apply (fin "total_area")|apply (fin "rooms_count")];
      solve [reflexivity|assumption].
  - intros floor floor_max Hf Hm. eexists. split; [apply Rf; eassumption|].
    apply quotient_one_guarded_finite;
      [apply (fin "floor")|apply (fin "floor_max")];
      solve [reflexivity|assumption].
  - intros extra total He Ht. eexists. split; [apply Re; eassumption|].
    apply quotient_one_guarded_finite;
      [apply (fin "extra_area")|apply (fin "total_area")];
      solve [reflexivity|assumption].
  - intros a Ha. eexists. split; [eapply Rk; eassumption|].
    apply quotient_nan_guarded.
  - intros a Ha. eexists. split; [eapply Rb; eassumption|].
    apply quotient_nan_guarded.
  - intros a Ha. eexists. split; [eapply Rl; eassumption|].
    apply quotient_nan_guarded.
Qed.

Lemma division_safety_witness :
  finite_inputs (sample_frame 0 0 0) /\
  exists self',
    FeatureEngineer.engineer_all
      (FeatureEngineer.__init__ (sample_frame 0 0 0) None) = Ok self'.
Proof.
  split.
  - apply finite_inputsb_sound. vm_compute. reflexivity.
  - destruct (division_safety (sample_frame 0 0 0)) as (self' & E & _).
    + apply finite_inputsb_sound. vm_compute. reflexivity.
    + exists self'. exact E.
Defined.

(** C2, as stated, fails: for the row with [rooms_count = 3] and
    [total_area = 65] the engineered [area_per_room] is 65/3, which is not
    65/(3+1). *)
Lemma area_per_room_counterexample :
  exists self',
    FeatureEngineer.engineer_all
      (FeatureEngineer.__init__ (sample_frame 65 3 10) None) = Ok self' /\
    getitem (FeatureEngineer.df self') "area_per_room" = Ok [qcell (65 / 3)] /\
    ~ (65 / 3 == 65 / (3 + 1))%Q.
Proof.
  eexists. split; [vm_compute; reflexivity|].
  split; [reflexivity|].
  intros H. vm_compute in H. discriminate H.
Qed.

(** C2 (amended).  For every row of a batch whose numeric input columns hold
    finite numbers, the engineered [area_per_room] equals [total_area]
    divided by [rooms_count], where a [rooms_count] of zero counts as one:
    65/3 for [rooms_count = 3] and [total_area = 65]. *)
Theorem area_per_room_spec (d : frame) (total rooms : series) :
  finite_inputs d ->
  getitem d "total_area" = Ok total ->
  getitem d "rooms_count" = Ok rooms ->
  exists self' s,
    FeatureEngineer.engineer_all (FeatureEngineer.__init__ d None) = Ok self' /\
    getitem (FeatureEngineer.df self') "area_per_room" = Ok s /\
    forall i t r,
      nth_error total i = Some (qcell t) ->
      nth_error rooms i = Some (qcell r) ->
      nth_error s i = Some (qcell (t / (if Qzero r then 1 else r))).
Proof.
  intros Hfin Ht Hr.
  destruct (engineer_all_default d Hfin) as (self' & E & _ & R).
  exists self', (quotient total (replace_zero (Fin 1) rooms)).
  split; [exact E|]. split.
  - apply (rs_area_per_room _ _ R); assumption.
  - apply quotient_one_guarded.
Qed.

Lemma area_per_room_witness :
  exists self' s,
    FeatureEngineer.engineer_all
      (FeatureEngineer.__init__ (sample_frame 65 3 10) None) = Ok self' /\
    getitem (FeatureEngineer.df self') "area_per_room" = Ok s /\
    nth_error s 0 = Some (qcell (65 / 3)).
Proof.
  destruct (area_per_room_spec (sample_frame 65 3 10) [qcell 65] [qcell 3])
    as (self' & s & E & G & Hrow).
  - apply finite_inputsb_sound. vm_compute. reflexivity.
  - reflexivity.
  - reflexivity.
  - exists self', s. split; [exact E|]. split; [exact G|].
    apply (Hrow 0%nat 65 3); reflexivity.
Defined.

(* ====================================================================== *)
(** * The store: objects that exist before a call are left alone *)
(* ====================================================================== *)

Local Open Scope nat_scope.

Lemma firstn_update {A : Type} (n i : nat) (a : A) (l : list A) :
  n <= i -> firstn n (update i a l) = firstn n l.
Proof.
  revert n i. induction l as [|x l IH]; intros n i H;
    [destruct i; reflexivity|].
  destruct i as [|i]; destruct n as [|n]; simpl; try reflexivity; try lia.
  f_equal. apply IH. lia.
Qed.

Lemma length_update {A : Type} (i : nat) (a : A) (l : list A) :
  length (update i a l) = length l.
Proof.
  revert i. induction l as [|x l IH]; intros [|i]; simpl; auto.
Qed.

Lemma firstn_app_le {A : Type} (n : nat) (l l' : list A) :
  n <= length l -> firstn n (l ++ l') = firstn n l.
Proof.
  intros H. rewrite firstn_app.
  replace (n - length l) with 0 by lia. simpl. apply app_nil_r.
Qed.

Section Triples.
Variable n : nat.

Lemma triple_weaken {A : Type} (m : M A) (Q R : A -> Prop) :
  triple n m Q -> (forall a, Q a -> R a) -> triple n m R.
Proof.
  intros H HQR w Hw r w' E. destruct (H w Hw r w' E) as (H1 & H2 & H3).
  repeat split; auto.
Qed.

Lemma triple_ret {A : Type} (a : A) : triple n (retM a) (fun x => x = a).
Proof.
  intros w Hw r w' E. injection E as <- <-.
  repeat split; auto. intros a' [= <-]. reflexivity.
Qed.

Lemma triple_raise {A : Type} (e : exn) (Q : A -> Prop) :
  triple n (raiseM e) Q.
Proof.
  intros w Hw r w' E. injection E as <- <-.
  repeat split; auto. intros a' [=].
Qed.

Lemma triple_lift {A : Type} (r : result A) :
  triple n (liftM r) (fun a => r = Ok a).
Proof.
  intros w Hw r' w' E. injection E as <- <-. repeat split; auto.
Qed.

Lemma triple_load (l : loc) : triple n (load l) (fun _ => True).
Proof.
  intros w Hw r w' E. unfold load in E.
  destruct (nth_error (frames w) l); injection E as <- <-;
    repeat split; auto.
Qed.

Lemma triple_get_self : triple n get_self (fun _ => True).
Proof.
  intros w Hw r w' E. injection E as <- <-. repeat split; auto.
Qed.

Lemma triple_set_self (p : preprocessor) : triple n (set_self p) (fun _ => True).
Proof.
  intros w Hw r w' E. injection E as <- <-. repeat split; auto.
Qed.

Lemma triple_alloc (f : frame) : triple n (alloc f) (fun l => n <= l).
Proof.
  intros w Hw r w' E. injection E as <- <-. cbn [frames].
  rewrite length_app. split; [lia|]. split.
  - apply firstn_app_le. exact Hw.
  - intros a [= <-]. exact Hw.
Qed.

Lemma triple_store (l : loc) (f : frame) :
  n <= l -> triple n (store l f) (fun _ => True).
Proof.
  intros Hl w Hw r w' E. injection E as <- <-. cbn [frames].
  rewrite length_update. split; [exact Hw|]. split; [|auto].
  apply firstn_update. exact Hl.
Qed.

Lemma triple_bind {A B : Type} (m : M A) (k : A -> M B)
      (Q : A -> Prop) (R : B -> Prop) :
  triple n m Q -> (forall a, Q a -> triple n (k a) R) ->
  triple n (bindM m k) R.
Proof.
  intros Hm Hk w Hw r w' E. unfold bindM in E.
  destruct (m w) as [[a|e] w1] eqn:E1.
  - destruct (Hm w Hw _ _ E1) as (L1 & F1 & Q1).
    destruct (Hk a (Q1 a eq_refl) w1 L1 _ _ E) as (L2 & F2 & Q2).
    repeat split; auto. congruence.
  - injection E as <- <-.
    destruct (Hm w Hw _ _ E1) as (L1 & F1 & Q1).
    repeat split; auto. intros a [=].
Qed.

Lemma triple_copy (l : loc) : triple n (copy l) (fun l' => n <= l').
Proof.
  unfold copy. eapply triple_bind; [apply triple_load|].
  intros f _. apply triple_alloc.
Qed.

Lemma triple_inplace (g : frame -> result frame) (l : loc) :
  n <= l -> triple n (inplace g l) (fun _ => True).
Proof.
  intros Hl. unfold inplace.
  eapply triple_bind; [apply triple_load|]. intros f _.
  eapply triple_bind; [apply triple_lift|]. intros f' _.
  apply triple_store. exact Hl.
Qed.

Lemma triple_forM_ {A : Type} (l : list A) (body : A -> M unit) :
  (forall a, triple n (body a) (fun _ => True)) ->
  triple n (forM_ l body) (fun _ => True).
Proof.
  intros Hb. induction l as [|a l IH]; cbn [forM_].
  - eapply triple_weaken; [apply triple_ret|auto].
  - eapply triple_bind; [apply Hb|]. intros _ _. exact IH.
Qed.

End Triples.

(** One step of a sequence: the usual rule for the first command, then the
    continuation under the fact it established. *)
Ltac tr_atom :=
  first [ apply triple_ret | apply triple_raise
        | apply triple_alloc | apply triple_copy | apply triple_load
        | apply triple_get_self | apply triple_set_self | apply triple_lift
        | apply triple_store; assumption
        | apply triple_inplace; assumption ].

Ltac tr_any :=
  eapply triple_weaken; [tr_atom | cbv beta; intros; subst; auto].

Ltac tr_seq :=
  repeat (eapply triple_bind; [tr_atom | intros ? ?; cbv beta in *]).

Section Privacy.
Variable lib : Pandas.
Variable py : Python.
Import DataPreprocessor.

Lemma triple_DataCleaner_clean (n : nat) (self : loc) :
  n <= self -> triple n (DataCleaner_clean lib self) (fun l => n <= l).
Proof.
  intros H. unfold DataCleaner_clean. tr_seq.
  eapply triple_weaken; [apply triple_ret|]. intros x ->. exact H.
Qed.

Lemma triple_engineer_all (n : nat) (self : loc) :
  n <= self -> triple n (FeatureEngineer_engineer_all self) (fun l => n <= l).
Proof.
  intros H. unfold FeatureEngineer_engineer_all. tr_seq.
  eapply triple_weaken; [apply triple_ret|]. intros x ->. exact H.
Qed.

Lemma triple_encode_categorical (n : nat) (df : loc) (fit : bool) :
  triple n (_encode_categorical lib df fit) (fun l => n <= l).
Proof.
  unfold _encode_categorical.
  eapply triple_bind; [apply triple_copy|]. intros l Hl.
  eapply triple_bind.
  - apply triple_forM_. intros col.
    eapply triple_bind; [apply triple_load|]. intros f _.
    destruct (negb (mem col (columns f))); [tr_any|].
    destruct fit.
    + tr_seq.
      match goal with
      | |- triple _ (let '(_, _) := ?r in _) _ => destruct r as [le codes]
      end.
      tr_seq. tr_any.
    + tr_seq.
      match goal with
      | |- context [dict_get ?d ?c] => destruct (dict_get d c)
      end; [|tr_any].
      tr_seq. tr_any.
  - intros _ _. eapply triple_weaken; [apply triple_ret|].
    intros x ->. exact Hl.
Qed.

Lemma triple_transform (n : nat) (df : loc) :
  triple n (transform lib py df) (fun l => n <= l).
Proof.
  unfold transform.
  eapply triple_bind; [apply triple_get_self|]. intros p _.
  destruct (negb (is_fitted p)); [apply triple_raise|].
  eapply triple_bind; [apply triple_copy|]. intros cleaner Hc.
  eapply triple_bind; [apply triple_DataCleaner_clean; exact Hc|].
  intros df_clean Hdc.
  eapply triple_bind; [apply triple_copy|]. intros engineer He.
  eapply triple_bind; [apply triple_engineer_all; exact He|].
  intros df_engineered Hde.
  eapply triple_bind; [apply triple_encode_categorical|].
  intros df_encoded Henc.
  tr_seq.
  eapply triple_bind.
  { apply triple_forM_. intros col. tr_any. }
  intros _ _. tr_seq.
  eapply (triple_bind _ _ _ (fun l => n <= l)).
  { destruct (set_order py _); [|tr_seq]; tr_any. }
  intros X' HX'. tr_seq. tr_any.
Qed.

Lemma triple_fit_transform (n : nat) (df : loc) (target_col : string) :
  triple n (fit_transform lib df target_col) (fun r => n <= fst r).
Proof.
  unfold fit_transform.
  tr_seq.
  eapply triple_bind; [apply triple_DataCleaner_clean; assumption|].
  intros df_clean Hdc.
  eapply triple_bind; [apply triple_copy|]. intros engineer He.
  eapply triple_bind; [apply triple_engineer_all; exact He|].
  intros df_engineered Hde.
  eapply triple_bind; [apply triple_encode_categorical|].
  intros df_encoded Henc.
  tr_seq.
  eapply (triple_bind _ _ _ (fun r => n <= fst r)).
  { match goal with
    | |- context [mem target_col ?cs] => destruct (mem target_col cs)
    end.
    - tr_seq. eapply triple_weaken; [apply triple_ret|].
      intros r ->. assumption.
    - eapply triple_weaken; [apply triple_ret|]. intros r ->. assumption. }
  intros [X y] HX. tr_seq.
  eapply triple_weaken; [apply triple_ret|]. intros r ->. assumption.
Qed.

End Privacy.

(* ====================================================================== *)
(** * The caller's frame *)
(* ====================================================================== *)

Lemma triple_keeps {A : Type} (m : M A) (Q : A -> Prop) (w : world)
      (r : result A) (w' : world) (l : loc) (g : frame) :
  triple (length (frames w)) m Q -> m w = (r, w') ->
  nth_error (frames w) l = Some g -> nth_error (frames w') l = Some g.
Proof.
  intros T E Hl.
  destruct (T w (le_n _) r w' E) as (_ & F & _).
  rewrite firstn_all in F.
  assert (Hlt : l < length (frames w))
    by (apply nth_error_Some; congruence).
  rewrite <- Hl, <- F, nth_error_firstn.
  apply Nat.ltb_lt in Hlt. rewrite Hlt. reflexivity.
Qed.

(** C9.  [fit_transform] and [transform] never mutate the caller's
    DataFrame: whatever the call does (return or raise), the frame passed in
    holds afterwards the columns and values it held before, as does every
    other frame that existed before the call.  The cleaner, the engineer and
    the encoder work on copies, which are new objects. *)
Theorem pipeline_keeps_caller_frame
        (lib : Pandas) (py : Python) (w : world) (df : loc) (f : frame) :
  nth_error (frames w) df = Some f ->
  (forall target_col r w',
      DataPreprocessor.fit_transform lib df target_col w = (r, w') ->
      nth_error (frames w') df = Some f /\
      forall l g, nth_error (frames w) l = Some g ->
                  nth_error (frames w') l = Some g) /\
  (forall r w',
      DataPreprocessor.transform lib py df w = (r, w') ->
      nth_error (frames w') df = Some f /\
      forall l g, nth_error (frames w) l = Some g ->
                  nth_error (frames w') l = Some g).
Proof.
  intros Hdf. split.
  - intros target_col r w' E.
    pose proof (triple_fit_transform lib (length (frames w)) df target_col)
      as T.
    split; [|intros l g Hl]; eapply triple_keeps; eassumption.
  - intros r w' E.
    pose proof (triple_transform lib py (length (frames w)) df) as T.
    split; [|intros l g Hl]; eapply triple_keeps; eassumption.
Qed.

Lemma pipeline_keeps_caller_frame_witness :
  let w := mk_world [training_frame] DataPreprocessor.__init__ in
  nth_error (frames w) 0 = Some training_frame /\
  forall r w',
    DataPreprocessor.fit_transform example_pandas 0 "price" w = (r, w') ->
    nth_error (frames w') 0 = Some training_frame.
Proof.
  intros w. split; [reflexivity|].
  intros r w' E.
  destruct (pipeline_keeps_caller_frame example_pandas example_python w 0
              training_frame eq_refl) as [Hfit _].
  destruct (Hfit "price" r w' E) as [H _]. exact H.
Defined.

(* ====================================================================== *)
(** * Running the pipeline on a given heap *)
(* ====================================================================== *)

Lemma bindM_Ok {A B : Type} (m : M A) (k : A -> M B) w a w1 :
  m w = (Ok a, w1) -> bindM m k w = k a w1.
Proof. intros E. unfold bindM. rewrite E. reflexivity. Qed.

Lemma bindM_Raise {A B : Type} (m : M A) (k : A -> M B) w e w1 :
  m w = (Raise e, w1) -> bindM m k w = (Raise e, w1).
Proof. intros E. unfold bindM. rewrite E. reflexivity. Qed.

Lemma nth_error_last {A : Type} (h : list A) (a : A) :
  nth_error (h ++ [a]) (length h) = Some a.
Proof. rewrite nth_error_app2, Nat.sub_diag by lia. reflexivity. Qed.

Lemma update_last {A : Type} (h : list A) (a b : A) :
  update (length h) b (h ++ [a]) = h ++ [b].
Proof. induction h as [|x h IH]; simpl; [reflexivity|]. now rewrite IH. Qed.

Lemma copy_run (h : list frame) (p : preprocessor) (l : loc) (f : frame) :
  nth_error h l = Some f ->
  copy l (mk_world h p) = (Ok (length h), mk_world (h ++ [f]) p).
Proof.
  intros E. unfold copy, bindM, load. cbn [frames]. rewrite E. reflexivity.
Qed.

Lemma load_last (h : list frame) (p : preprocessor) (f : frame) :
  load (length h) (mk_world (h ++ [f]) p) = (Ok f, mk_world (h ++ [f]) p).
Proof. unfold load. cbn [frames]. rewrite nth_error_last. reflexivity. Qed.

Lemma store_last (h : list frame) (p : preprocessor) (f f' : frame) :
  store (length h) f' (mk_world (h ++ [f]) p) = (Ok tt, mk_world (h ++ [f']) p).
Proof. unfold store. cbn [frames self_]. rewrite update_last. reflexivity. Qed.

Lemma inplace_last (g : frame -> result frame) (h : list frame)
      (p : preprocessor) (f : frame) :
  inplace g (length h) (mk_world (h ++ [f]) p) =
  match g f with
  | Ok f' => (Ok tt, mk_world (h ++ [f']) p)
  | Raise e => (Raise e, mk_world (h ++ [f]) p)
  end.
Proof.
  unfold inplace. rewrite (bindM_Ok _ _ _ _ _ (load_last h p f)).
  unfold bindM, liftM. destruct (g f); [apply store_last|reflexivity].
Qed.

Section EncodeRun.
Variable lib : Pandas.
Import DataPreprocessor.

Lemma encode_categorical_run (h : list frame) (p : preprocessor)
      (l : loc) (f : frame) :
  nth_error h l = Some f ->
  exists f',
    _encode_categorical lib l false (mk_world h p) =
    (match encode_fitted lib (label_encoders p) f with
     | Ok _ => Ok (length h)
     | Raise e => Raise e
     end, mk_world (h ++ [f']) p) /\
    forall g, encode_fitted lib (label_encoders p) f = Ok g -> f' = g.
Proof.
  intros Hl. unfold _encode_categorical, encode_fitted.
  rewrite (bindM_Ok _ _ _ _ _ (copy_run h p l f Hl)).
  match goal with |- context [forM_ _ ?b] => set (body := b) end.
  assert (Hbody : forall col f0, exists f',
             body col (mk_world (h ++ [f0]) p) =
             (match encode_column lib (label_encoders p) f0 col with
              | Ok _ => Ok tt
              | Raise e => Raise e
              end, mk_world (h ++ [f']) p) /\
             forall g, encode_column lib (label_encoders p) f0 col = Ok g ->
                       f' = g).
  { intros col f0. unfold encode_column, body.
    rewrite (bindM_Ok _ _ _ _ _ (load_last h p f0)).
    destruct (negb (mem col (columns f0))).
    { exists f0. split; [reflexivity|]. intros g [= <-]. reflexivity. }
    cbn [bind]. unfold bindM at 1. cbn [get_self self_].
    destruct (dict_get (label_encoders p) col) as [le|];
      [|exists f0; split; [reflexivity|]; intros g [= <-]; reflexivity].
    unfold bindM at 1. unfold liftM at 1.
    destruct (getitem f0 col) as [s|e]; cbn [bind];
      [|exists f0; split; [reflexivity|discriminate]].
    unfold bindM at 1. unfold liftM at 1.
    destruct (mapM (known_or_first le) (map (cell_str lib) s))
      as [mapped|e]; cbn [bind];
      [|exists f0; split; [reflexivity|discriminate]].
    rewrite (bindM_Ok _ _ _ _ _ (store_last h p f0 _)).
    rewrite (bindM_Ok _ _ _ _ _ (load_last h p _)).
    unfold bindM at 1. unfold liftM at 1.
    destruct (getitem (setitem f0 col (map Str mapped)) col)
      as [s'|e]; cbn [bind];
      [|eexists; split; [reflexivity|discriminate]].
    unfold bindM at 1. unfold liftM at 1.
    destruct (LabelEncoder.transform le (map (cell_str lib) s'))
      as [codes|e]; cbn [bind];
      [|eexists; split; [reflexivity|discriminate]].
    rewrite store_last. eexists. split; [reflexivity|].
    intros g [= <-]. reflexivity. }
  assert (Hloop : forall cols f0, exists f',
             forM_ cols body (mk_world (h ++ [f0]) p) =
             (match foldM (encode_column lib (label_encoders p)) cols f0 with
              | Ok _ => Ok tt
              | Raise e => Raise e
              end, mk_world (h ++ [f']) p) /\
             forall g, foldM (encode_column lib (label_encoders p)) cols f0
                       = Ok g -> f' = g).
  { induction cols as [|col cols IH]; intros f0; cbn [forM_ foldM].
    - exists f0. split; [reflexivity|]. intros g [= <-]. reflexivity.
    - destruct (Hbody col f0) as (f1 & E1 & H1).
      unfold bindM at 1. rewrite E1.
      destruct (encode_column lib (label_encoders p) f0 col) as [g1|e];
        cbn [bind].
      + rewrite (H1 g1 eq_refl). apply IH.
      + exists f1. split; [reflexivity|discriminate]. }
  destruct (Hloop config.CATEGORICAL_FEATURES f) as (f' & E & Hf').
  exists f'. split; [|exact Hf'].
  unfold bindM. rewrite E.
  destruct (foldM _ _ f); reflexivity.
Qed.

End EncodeRun.

(* ====================================================================== *)
(** * Column reconciliation *)
(* ====================================================================== *)

Section Reconcile.
Import DataPreprocessor.

Lemma mem_present (c : string) (cs : list string) (f : frame) :
  mem c (present cs f) = mem c cs && mem c (columns f).
Proof.
  unfold present, mem. induction cs as [|x cs IH]; cbn [filter existsb].
  - reflexivity.
  - destruct (existsb (String.eqb x) (columns f)) eqn:Ex; cbn [existsb].
    + rewrite IH. destruct (String.eqb c x) eqn:E; [|reflexivity].
      apply String.eqb_eq in E. subst x. cbn [orb andb]. now rewrite Ex.
    + rewrite IH. destruct (String.eqb c x) eqn:E; [|reflexivity].
      apply String.eqb_eq in E. subst x. cbn [orb andb]. rewrite Ex.
      apply andb_false_r.
Qed.

Lemma mem_fst_columns (q : string * series) (f : frame) :
  In q f -> mem (fst q) (columns f) = true.
Proof. intros H. apply mem_In. unfold columns. now apply in_map. Qed.

Lemma drop_subset (f : frame) (cs : list string) :
  (forall c, In c cs -> mem c (columns f) = true) ->
  drop f cs = Ok (filter (fun q => negb (mem (fst q) cs)) f).
Proof.
  intros H. unfold drop.
  destruct (find (fun c => negb (mem c (columns f))) cs) as [c|] eqn:E;
    [|reflexivity].
  apply find_some in E. destruct E as [Hin Hc].
  rewrite (H c Hin) in Hc. discriminate.
Qed.

Lemma drop_present (f : frame) (cs : list string) :
  drop f (present cs f) = Ok (filter (fun q => negb (mem (fst q) cs)) f).
Proof.
  rewrite drop_subset.
  - f_equal. apply filter_ext_in. intros q Hq.
    rewrite mem_present, (mem_fst_columns q f Hq), andb_true_r. reflexivity.
  - intros c Hc. apply mem_In in Hc. rewrite mem_present in Hc.
    apply andb_true_iff in Hc. tauto.
Qed.

Lemma getitem_filter_out (f : frame) (cs : list string) (c : string) :
  mem c cs = false ->
  getitem (filter (fun q => negb (mem (fst q) cs)) f) c = getitem f c.
Proof.
  intros Hc. induction f as [|[k v] f IH]; cbn [filter getitem fst];
    [reflexivity|].
  destruct (mem k cs) eqn:Hk; cbn [negb getitem].
  - destruct (String.eqb c k) eqn:E; [|exact IH].
    apply String.eqb_eq in E. congruence.
  - rewrite IH. reflexivity.
Qed.

Lemma n_rows_setitem_zeros (f : frame) (c : string) :
  n_rows (setitem f c (zeros (n_rows f))) = n_rows f.
Proof.
  destruct f as [|[k v] f]; cbn [setitem n_rows].
  - reflexivity.
  - destruct (String.eqb c k); cbn [n_rows]; [|reflexivity].
    unfold zeros. apply repeat_length.
Qed.

Lemma getitem_add_zeros (cols : list string) (f : frame) (c : string) :
  getitem (add_zeros f cols) c =
  if mem c cols then Ok (zeros (n_rows f)) else getitem f c.
Proof.
  unfold add_zeros. revert f.
  induction cols as [|col cols IH]; intros f; cbn [fold_left];
    [reflexivity|].
  rewrite IH, n_rows_setitem_zeros, getitem_setitem, mem_cons.
  destruct (mem c cols), (String.eqb c col); reflexivity.
Qed.

Lemma mem_columns_add_zeros (cols : list string) (f : frame) (c : string) :
  mem c (columns (add_zeros f cols)) = mem c cols || mem c (columns f).
Proof.
  unfold add_zeros. revert f.
  induction cols as [|col cols IH]; intros f; cbn [fold_left];
    [reflexivity|].
  rewrite IH, mem_columns_setitem, mem_cons.
  destruct (mem c cols), (String.eqb c col); reflexivity.
Qed.

Lemma select_map (f : frame) (names : list string) (g : string -> series) :
  (forall c, In c names -> getitem f c = Ok (g c)) ->
  select f names = Ok (map (fun c => (c, g c)) names).
Proof.
  unfold select. induction names as [|c names IH]; intros H;
    cbn [mapM map]; [reflexivity|].
  rewrite (H c) by (left; reflexivity). cbn [bind].
  rewrite IH by (intros c' Hc'; apply H; right; exact Hc').
  reflexivity.
Qed.

Lemma columns_aligned (names : list string) (f : frame) :
  columns (aligned names f) = names.
Proof.
  unfold columns, aligned. rewrite map_map. cbn [fst]. apply map_id.
Qed.

Variable py : Python.

Lemma in_set_difference (a b : list string) (c : string) :
  In c (set_order py (set_difference a b)) <-> In c a /\ mem c b = false.
Proof.
  split.
  - intros H. apply (Permutation_in _ (set_order_perm py _)) in H.
    unfold set_difference in H. apply nodup_In, filter_In in H.
    destruct H as [Ha Hb]. split; [exact Ha|].
    now apply negb_true_iff in Hb.
  - intros [Ha Hb].
    apply (Permutation_in _ (Permutation_sym (set_order_perm py _))).
    unfold set_difference. apply nodup_In, filter_In. split; [exact Ha|].
    now rewrite Hb.
Qed.

Lemma mem_set_difference (a b : list string) (c : string) :
  mem c (set_order py (set_difference a b)) = mem c a && negb (mem c b).
Proof.
  destruct (mem c (set_order py (set_difference a b))) eqn:E.
  - apply mem_In, in_set_difference in E. destruct E as [Ha Hb].
    apply mem_In in Ha. now rewrite Ha, Hb.
  - destruct (mem c a) eqn:Ha; [|reflexivity].
    destruct (mem c b) eqn:Hb; [reflexivity|].
    assert (H : In c (set_order py (set_difference a b))).
    { apply in_set_difference. split; [now apply mem_In|exact Hb]. }
    apply mem_In in H. congruence.
Qed.

(** The frame on which [X\[self.feature_names\]] is evaluated holds, for
    each frozen name, the kept column or zeros. *)
Lemma getitem_reconciled (names : list string) (k : frame) (c : string) :
  In c names ->
  let missing := set_order py (set_difference names (columns k)) in
  getitem (add_zeros k missing) c =
  Ok (match getitem k c with
      | Ok s => s
      | Raise _ => zeros (n_rows k)
      end).
Proof.
  intros Hc missing. rewrite getitem_add_zeros.
  unfold missing. rewrite mem_set_difference.
  apply mem_In in Hc. rewrite Hc. cbn [andb].
  destruct (mem c (columns k)) eqn:Hk; cbn [negb].
  - destruct (mem_getitem _ _ Hk) as [s Hs]. rewrite Hs. reflexivity.
  - rewrite (not_mem_getitem _ _ Hk). reflexivity.
Qed.

Lemma forM_zeros_run (h : list frame) (p : preprocessor)
      (cols : list string) (f : frame) :
  forM_ cols (fun col =>
                inplace (fun f => Ok (setitem f col (zeros (n_rows f))))
                        (length h))
        (mk_world (h ++ [f]) p) =
  (Ok tt, mk_world (h ++ [add_zeros f cols]) p).
Proof.
  unfold add_zeros. revert f.
  induction cols as [|col cols IH]; intros f; cbn [forM_ fold_left];
    [reflexivity|].
  unfold bindM at 1. rewrite inplace_last. apply IH.
Qed.

End Reconcile.

(* ====================================================================== *)
(** * [transform]: the schema frozen at fit time *)
(* ====================================================================== *)

Section TransformRun.
Variable lib : Pandas.
Variable py : Python.
Import DataPreprocessor.

Lemma DataCleaner_clean_run (h : list frame) (p : preprocessor) (f : frame) :
  DataCleaner_clean lib (length h) (mk_world (h ++ [f]) p) =
  match DataCleaner.clean lib f with
  | Ok f' => (Ok (length h), mk_world (h ++ [f']) p)
  | Raise e => (Raise e, mk_world (h ++ [f]) p)
  end.
Proof.
  unfold DataCleaner_clean, bindM. rewrite inplace_last.
  destruct (DataCleaner.clean lib f); reflexivity.
Qed.

Lemma engineer_all_run (h : list frame) (p : preprocessor) (f : frame) :
  FeatureEngineer_engineer_all (length h) (mk_world (h ++ [f]) p) =
  match FeatureEngineer.engineer_all (FeatureEngineer.__init__ f None) with
  | Ok e => (Ok (length h), mk_world (h ++ [FeatureEngineer.df e]) p)
  | Raise e => (Raise e, mk_world (h ++ [f]) p)
  end.
Proof.
  unfold FeatureEngineer_engineer_all, bindM. rewrite inplace_last.
  destruct (FeatureEngineer.engineer_all _); reflexivity.
Qed.

(** The statements of [transform] after the encoding. *)
Lemma reconcile_run (h : list frame) (p : preprocessor) (enc : frame)
      (k : loc -> M loc) :
  k = (fun X =>
         Xf <~ load X ;;
         p <~ get_self ;;
         d <~ liftM (select Xf (feature_names p)) ;;
         alloc d) ->
  exists X w',
    (let cols_to_drop := ["index"; "Unnamed: 0"; "price"] in
     e <~ load (length h) ;;
     d <~ liftM (drop e (present cols_to_drop e)) ;;
     X <~ alloc d ;;
     Xf <~ load X ;;
     p <~ get_self ;;
     let missing_features :=
       set_order py (set_difference (feature_names p) (columns Xf)) in
     _ <~ forM_ missing_features (fun col =>
            inplace (fun f => Ok (setitem f col (zeros (n_rows f)))) X) ;;
     Xf <~ load X ;;
     p <~ get_self ;;
     let extra_features :=
       set_order py (set_difference (columns Xf) (feature_names p)) in
     X <~ (match extra_features with
           | [] => retM X
           | _ :: _ =>
               Xf <~ load X ;;
               d <~ liftM (drop Xf extra_features) ;;
               alloc d
           end) ;;
     k X) (mk_world (h ++ [enc]) p) = (Ok X, w') /\
    self_ w' = p /\
    nth_error (frames w') X = Some (aligned (feature_names p) (kept enc)).
Proof.
  intros ->. cbv zeta.
  rewrite (bindM_Ok _ _ _ _ _ (load_last h p enc)).
  rewrite drop_present. fold (kept enc).
  unfold bindM at 1. unfold liftM at 1.
  unfold bindM at 1. unfold alloc at 1. cbn [frames self_].
  set (h1 := h ++ [enc]).
  rewrite (bindM_Ok _ _ _ _ _ (load_last h1 p (kept enc))).
  unfold bindM at 1. cbn [get_self self_].
  set (missing := set_order py (set_difference (feature_names p)
                                  (columns (kept enc)))).
  rewrite (bindM_Ok _ _ _ _ _ (forM_zeros_run h1 p missing (kept enc))).
  set (F1 := add_zeros (kept enc) missing).
  rewrite (bindM_Ok _ _ _ _ _ (load_last h1 p F1)).
  unfold bindM at 1. cbn [get_self self_].
  assert (HF1 : forall c, In c (feature_names p) ->
                  getitem F1 c =
                  Ok (match getitem (kept enc) c with
                      | Ok s => s
                      | Raise _ => zeros (n_rows (kept enc))
                      end))
    by (intros c Hc; apply (getitem_reconciled py); exact Hc).
  destruct (set_order py (set_difference (columns F1) (feature_names p)))
    as [|x extra] eqn:Eextra.
  - unfold bindM at 1. cbn [retM].
    rewrite (bindM_Ok _ _ _ _ _ (load_last h1 p F1)).
    unfold bindM at 1. cbn [get_self self_].
    rewrite (select_map F1 (feature_names p) _ HF1).
    unfold bindM, liftM, alloc. cbn [frames self_].
    eexists. eexists. split; [reflexivity|]. split; [reflexivity|].
    cbn [frames]. apply nth_error_last.
  - rewrite <- Eextra.
    set (extras := set_order py (set_difference (columns F1) (feature_names p))).
    unfold bindM at 1.
    rewrite (bindM_Ok _ _ _ _ _ (load_last h1 p F1)).
    rewrite drop_subset.
    2:{ intros c Hc. apply (in_set_difference py) in Hc.
        apply mem_In. tauto. }
    unfold bindM at 1. unfold liftM at 1. unfold alloc at 1.
    cbn [frames self_].
    set (F2 := filter (fun q => negb (mem (fst q) extras)) F1).
    set (h2 := h1 ++ [F1]).
    rewrite (bindM_Ok _ _ _ _ _ (load_last h2 p F2)).
    unfold bindM at 1. cbn [get_self self_].
    assert (HF2 : forall c, In c (feature_names p) ->
                    getitem F2 c =
                    Ok (match getitem (kept enc) c with
                        | Ok s => s
                        | Raise _ => zeros (n_rows (kept enc))
                        end)).
    { intros c Hc. unfold F2. rewrite getitem_filter_out; [apply HF1, Hc|].
      unfold extras. rewrite (mem_set_difference py).
      apply mem_In in Hc. rewrite Hc. apply andb_false_r. }
    rewrite (select_map F2 (feature_names p) _ HF2).
    unfold bindM, liftM, alloc. cbn [frames self_].
    eexists. eexists. split; [reflexivity|]. split; [reflexivity|].
    cbn [frames]. apply nth_error_last.
Qed.

End TransformRun.

(** C3.  On a fitted preprocessor, [transform] returns exactly when the
    cleaning, feature engineering and encoding of the batch complete, and
    the frame it returns has the feature names frozen at fit time as its
    column list, in the frozen order: a frozen column absent from the
    encoded batch is filled with zeros, a column outside the frozen list is
    dropped, whatever the order and the extra columns of the raw input.
    [self] is left as it was. *)
Theorem transform_schema (lib : Pandas) (py : Python)
        (h : list frame) (p : preprocessor) (df : loc) (raw : frame) :
  nth_error h df = Some raw ->
  is_fitted p = true ->
  exists w', self_ w' = p /\
    match encoded lib p raw with
    | Ok enc =>
        exists X F,
          DataPreprocessor.transform lib py df (mk_world h p) = (Ok X, w') /\
          nth_error (frames w') X = Some F /\
          columns F = feature_names p /\
          F = aligned (feature_names p) (kept enc)
    | Raise e =>
        DataPreprocessor.transform lib py df (mk_world h p) = (Raise e, w')
    end.
Proof.
  intros Hdf Hfit.
  remember (DataPreprocessor.transform lib py df (mk_world h p)) as T eqn:ET.
  unfold DataPreprocessor.transform in ET. unfold encoded.
  unfold bindM at 1 in ET. unfold get_self at 1 in ET. cbn [self_] in ET.
  rewrite Hfit in ET. cbn [negb] in ET.
  unfold DataPreprocessor.new_DataCleaner, DataPreprocessor.new_FeatureEngineer
    in ET.
  rewrite (bindM_Ok _ _ _ _ _ (copy_run h p df raw Hdf)) in ET.
  unfold bindM at 1 in ET. rewrite DataCleaner_clean_run in ET.
  destruct (DataCleaner.clean lib raw) as [f1|e]; cbn [bind];
    [|eexists; split; [|exact ET]; reflexivity].
  rewrite (bindM_Ok _ _ _ _ _ (copy_run (h ++ [f1]) p (length h) f1
                                  (nth_error_last h f1))) in ET.
  unfold bindM at 1 in ET. rewrite engineer_all_run in ET.
  destruct (FeatureEngineer.engineer_all (FeatureEngineer.__init__ f1 None))
    as [e2|e]; cbn [bind];
    [|eexists; split; [|exact ET]; reflexivity].
  set (h2 := h ++ [f1]) in *.
  destruct (encode_categorical_run lib (h2 ++ [FeatureEngineer.df e2]) p
              (length h2) (FeatureEngineer.df e2) (nth_error_last h2 _))
    as (f3 & Eenc & Hf3).
  unfold bindM at 1 in ET. rewrite Eenc in ET.
  destruct (encode_fitted lib (label_encoders p) (FeatureEngineer.df e2))
    as [enc|e];
    [|eexists; split; [|exact ET]; reflexivity].
  rewrite (Hf3 enc eq_refl) in ET.
  destruct (reconcile_run py (h2 ++ [FeatureEngineer.df e2]) p enc _ eq_refl)
    as (X & w' & Erun & Hself & HX).
  cbv zeta in Erun, ET. rewrite Erun in ET.
  exists w'. split; [exact Hself|].
  exists X, (aligned (feature_names p) (kept enc)).
  split; [exact ET|]. split; [exact HX|]. split; [|reflexivity].
  apply columns_aligned.
Qed.

Lemma transform_schema_witness :
  let p := mk_preprocessor [] ["total_area"; "district_code"; "floor"] true in
  let raw := ("zzz", [Str "a"]) :: sample_frame 65 3 10 in
  exists w' X F,
    DataPreprocessor.transform example_pandas example_python 0
      (mk_world [raw] p) = (Ok X, w') /\
    nth_error (frames w') X = Some F /\
    columns F = ["total_area"; "district_code"; "floor"] /\
    F = [("total_area", [qcell 65]); ("district_code", [qcell 0]);
         ("floor", [qcell 5])].
Proof.
  intros p raw.
  destruct (transform_schema example_pandas example_python [raw] p 0 raw
              eq_refl eq_refl) as (w' & _ & H).
  assert (E : exists enc, encoded example_pandas p raw = Ok enc /\
                          aligned (feature_names p) (kept enc) =
                          [("total_area", [qcell 65]);
                           ("district_code", [qcell 0]);
                           ("floor", [qcell 5])]).
  { eexists. split; [vm_compute; reflexivity|]. vm_compute. reflexivity. }
  destruct E as (enc & Eenc & Eal). rewrite Eenc in H.
  destruct H as (X & F & Erun & HX & Hcols & HF).
  exists w', X, F. split; [exact Erun|]. split; [exact HX|].
  split; [exact Hcols|]. rewrite HF. exact Eal.
Defined.

(* ====================================================================== *)
(** * Categories unseen at fit time *)
(* ====================================================================== *)

Section UnseenCategory.
Import DataPreprocessor.

Lemma insert_not_nil (x : string) (l : list string) : LabelEncoder.insert x l <> [].
Proof.
  destruct l as [|y l]; cbn [LabelEncoder.insert]; [discriminate|].
  destruct (String.compare x y); discriminate.
Qed.

Lemma unique_not_nil (ys : list string) :
  ys <> [] -> LabelEncoder.unique ys <> [].
Proof.
  destruct ys as [|y ys]; [congruence|]. intros _.
  unfold LabelEncoder.unique. cbn [fold_right]. apply insert_not_nil.
Qed.

Lemma index_mem (x : string) (l : list string) :
  mem x l = true ->
  exists i, LabelEncoder.index x l = Some i /\ i < length l.
Proof.
  induction l as [|y l IH]; [discriminate|].
  rewrite mem_cons. cbn [LabelEncoder.index length].
  destruct (String.eqb x y); cbn [orb].
  - intros _. exists 0. split; [reflexivity|lia].
  - intros H. destruct (IH H) as (i & Ei & Hi). rewrite Ei.
    exists (S i). split; [reflexivity|lia].
Qed.

Lemma index_head (x : string) (l : list string) :
  LabelEncoder.index x (x :: l) = Some 0.
Proof. cbn [LabelEncoder.index]. now rewrite String.eqb_refl. Qed.

Lemma map_cell_str_Str (lib : Pandas) (l : list string) :
  map (cell_str lib) (map Str l) = l.
Proof. rewrite map_map. cbn [cell_str]. apply map_id. Qed.

(** The two assignments of the [fit=False] branch, on the labels of a
    column: no exception, codes inside the vocabulary, and code 0 (the code
    of [classes_\[0\]]) for a label that is not in the vocabulary. *)
Lemma known_or_first_codes (first : string) (rest xs : list string) :
  let le := LabelEncoder.mk (first :: rest) in
  exists mapped codes,
    mapM (known_or_first le) xs = Ok mapped /\
    LabelEncoder.transform le mapped = Ok codes /\
    Forall (fun c => c < length (first :: rest)) codes /\
    forall i x, nth_error xs i = Some x -> mem x (first :: rest) = false ->
                nth_error codes i = Some 0.
Proof.
  cbv zeta. induction xs as [|x xs IH].
  - exists [], []. repeat split; try reflexivity; [constructor|].
    intros [|i] x; discriminate.
  - destruct IH as (mapped & codes & Em & Et & Hf & Hu).
    cbn [mapM]. unfold known_or_first at 1. cbn [LabelEncoder.classes_].
    destruct (mem x (first :: rest)) eqn:Hx; cbn [bind]; rewrite Em; cbn [bind].
    + destruct (index_mem x _ Hx) as (i & Ei & Hi).
      exists (x :: mapped), (i :: codes).
      split; [reflexivity|]. split.
      * unfold LabelEncoder.transform in *. cbn [mapM LabelEncoder.classes_].
        rewrite Ei. cbn [bind]. cbn [LabelEncoder.classes_] in Et.
        rewrite Et. reflexivity.
      * split; [constructor; assumption|].
        intros [|j] x' Hj Hx'; cbn [nth_error] in *.
        -- injection Hj as <-. congruence.
        -- eapply Hu; eassumption.
    + exists (first :: mapped), (0 :: codes).
      split; [reflexivity|]. split.
      * unfold LabelEncoder.transform in *. cbn [mapM LabelEncoder.classes_].
        rewrite index_head. cbn [bind].
        cbn [LabelEncoder.classes_] in Et. rewrite Et. reflexivity.
      * split; [constructor; [cbn [length]; lia|assumption]|].
        intros [|j] x' Hj Hx'; cbn [nth_error] in *.
        -- reflexivity.
        -- eapply Hu; eassumption.
Qed.

End UnseenCategory.

(** C7.  For an encoding fitted on a non-empty column, applying it at
    transform time to a column does not raise; every code it produces is a
    position of the fitted vocabulary, and a value absent from the
    vocabulary gets code 0, the code [transform] gives to the first class
    of the vocabulary. *)
Theorem unseen_category_code
        (lib : Pandas) (encoders : list (string * LabelEncoder.t))
        (f : frame) (col : string) (s : series) (ys : list string) :
  ys <> [] ->
  dict_get encoders col = Some (LabelEncoder.fit ys) ->
  getitem f col = Ok s ->
  exists f' codes first,
    encode_column lib encoders f col = Ok f' /\
    getitem f' col = Ok (map DataPreprocessor.code_cell codes) /\
    hd_error (LabelEncoder.classes_ (LabelEncoder.fit ys)) = Some first /\
    LabelEncoder.transform (LabelEncoder.fit ys) [first] = Ok [0] /\
    Forall (fun c => c < length (LabelEncoder.classes_ (LabelEncoder.fit ys)))
           codes /\
    forall i a,
      nth_error s i = Some a ->
      mem (cell_str lib a) (LabelEncoder.classes_ (LabelEncoder.fit ys)) = false ->
      nth_error codes i = Some 0.
Proof.
  intros Hys Henc Hs.
  unfold LabelEncoder.fit in *.
  pose proof (unique_not_nil ys Hys) as Hne.
  destruct (LabelEncoder.unique ys) as [|first rest] eqn:Eu; [congruence|].
  destruct (known_or_first_codes first rest (map (cell_str lib) s))
    as (mapped & codes & Em & Et & Hf & Hu).
  exists (setitem (setitem f col (map Str mapped)) col
            (map DataPreprocessor.code_cell codes)), codes, first.
  split.
  - unfold encode_column.
    rewrite (getitem_mem _ _ _ Hs). cbn [negb]. rewrite Henc, Hs. cbn [bind].
    rewrite Em. cbn [bind]. rewrite getitem_setitem, String.eqb_refl.
    cbn [bind]. rewrite map_cell_str_Str, Et. reflexivity.
  - split; [rewrite getitem_setitem, String.eqb_refl; reflexivity|].
    split; [reflexivity|]. split.
    + unfold LabelEncoder.transform. cbn [mapM LabelEncoder.classes_].
      rewrite index_head. reflexivity.
    + split; [exact Hf|].
      intros i a Hi Ha. apply (Hu i (cell_str lib a)); [|exact Ha].
      rewrite nth_error_map, Hi. reflexivity.
Qed.

Lemma unseen_category_code_witness :
  exists f' codes,
    encode_column example_pandas
      [("district_name", LabelEncoder.fit ["Kirovskij"; "Centralnyj"])]
      [("district_name", [Str "Kirovskij"; Str "Nowhere"; Str "Centralnyj"])]
      "district_name" = Ok f' /\
    getitem f' "district_name" = Ok (map DataPreprocessor.code_cell codes) /\
    nth_error codes 1 = Some 0.
Proof.
  destruct (unseen_category_code example_pandas
              [("district_name", LabelEncoder.fit ["Kirovskij"; "Centralnyj"])]
              [("district_name",
                [Str "Kirovskij"; Str "Nowhere"; Str "Centralnyj"])]
              "district_name"
              [Str "Kirovskij"; Str "Nowhere"; Str "Centralnyj"]
              ["Kirovskij"; "Centralnyj"])
    as (f' & codes & first & E & G & _ & _ & _ & Hu).
  - discriminate.
  - reflexivity.
  - reflexivity.
  - exists f', codes. split; [exact E|]. split; [exact G|].
    apply (Hu 1 (Str "Nowhere")); reflexivity.
Defined.

(* ====================================================================== *)
(** * [ModelTrainer]: where an unknown model type is rejected *)
(* ====================================================================== *)

Lemma build_model_unknown (lib : Regressors) (self : ModelTrainer.t lib) :
  mem (ModelTrainer.model_type lib self) known_model_types = false ->
  ModelTrainer.build_model lib self =
  Raise (ModelTrainer.unknown_model_type (ModelTrainer.model_type lib self)).
Proof.
  unfold known_model_types, ModelTrainer.build_model.
  rewrite !mem_cons. intros H.
  apply orb_false_iff in H. destruct H as [H1 H].
  apply orb_false_iff in H. destruct H as [H2 H].
  apply orb_false_iff in H. destruct H as [H3 _].
  rewrite H1, H2, H3. reflexivity.
Qed.

(** C4, as stated, fails: constructing a [ModelTrainer] for the unknown type
    [random_forest] gives a trainer (no model is built, nothing is raised);
    the configuration error is raised by [train]. *)
Lemma unknown_model_type_counterexample :
  let tr := ModelTrainer.__init__ example_regressors "random_forest" in
  ModelTrainer.model_type example_regressors tr = "random_forest" /\
  ModelTrainer.model example_regressors tr = None /\
  ModelTrainer.train example_regressors tr training_frame
    [Fin 6500000; Fin 4200000] None None =
  Raise (ValueError
           "Unknown model type: random_forest. Only xgboost, lightgbm, catboost are supported.").
Proof. repeat split. Qed.

(** C4 (amended).  Constructing a [ModelTrainer] never fails and builds no
    model.  For a model type outside xgboost, lightgbm and catboost, the
    ValueError "Unknown model type" is raised by [build_model], that is by
    the first [train] (or [cross_validate]) of the trainer, before the
    regressor library is called. *)
Theorem unknown_model_type_fails_in_train
        (lib : Regressors) (model_type : string) :
  mem model_type known_model_types = false ->
  let tr := ModelTrainer.__init__ lib model_type in
  ModelTrainer.model lib tr = None /\
  ModelTrainer.build_model lib tr =
    Raise (ModelTrainer.unknown_model_type model_type) /\
  (forall X_train y_train X_val y_val,
      ModelTrainer.train lib tr X_train y_train X_val y_val =
      Raise (ModelTrainer.unknown_model_type model_type)) /\
  (forall X y,
      ModelTrainer.cross_validate lib tr X y =
      Raise (ModelTrainer.unknown_model_type model_type)).
Proof.
  intros H tr.
  assert (B : ModelTrainer.build_model lib tr =
              Raise (ModelTrainer.unknown_model_type model_type))
    by (apply (build_model_unknown lib tr); exact H).
  split; [reflexivity|]. split; [exact B|]. split.
  - intros X_train y_train X_val y_val. unfold ModelTrainer.train.
    cbn [ModelTrainer.model tr ModelTrainer.__init__]. rewrite B. reflexivity.
  - intros X y. unfold ModelTrainer.cross_validate.
    cbn [ModelTrainer.model tr ModelTrainer.__init__]. rewrite B. reflexivity.
Qed.

Lemma unknown_model_type_fails_in_train_witness :
  mem "random_forest" known_model_types = false /\
  ModelTrainer.build_model example_regressors
    (ModelTrainer.__init__ example_regressors "random_forest") =
  Raise (ModelTrainer.unknown_model_type "random_forest").
Proof.
  split; [reflexivity|].
  destruct (unknown_model_type_fails_in_train example_regressors
              "random_forest" eq_refl) as (_ & B & _).
  exact B.
Defined.

(* ====================================================================== *)
(** * Dicts built by successive assignments *)
(* ====================================================================== *)

Lemma dict_get_dict_set {V : Type} (d : list (string * V)) k v k' :
  dict_get (dict_set d k v) k' =
  if String.eqb k' k then Some v else dict_get d k'.
Proof.
  induction d as [|[x y] d IH]; cbn [dict_set dict_get].
  - destruct (String.eqb k' k); reflexivity.
  - destruct (String.eqb k x) eqn:Ekx; cbn [dict_get].
    + apply String.eqb_eq in Ekx. subst x.
      destruct (String.eqb k' k); reflexivity.
    + destruct (String.eqb k' x) eqn:Ek'x.
      * apply String.eqb_eq in Ek'x. subst x.
        rewrite String.eqb_sym, Ekx. reflexivity.
      * exact IH.
Qed.

Lemma dict_set_fresh {V : Type} (d : list (string * V)) k v :
  dict_get d k = None -> dict_set d k v = d ++ [(k, v)].
Proof.
  induction d as [|[x y] d IH]; cbn [dict_set dict_get app]; [reflexivity|].
  destruct (String.eqb k x); [discriminate|].
  intros H. rewrite IH by exact H. reflexivity.
Qed.

Lemma fold_dict_set_distinct {V : Type} (kvs d : list (string * V)) :
  NoDup (map fst kvs) ->
  (forall kv, In kv kvs -> dict_get d (fst kv) = None) ->
  fold_left (fun d kv => dict_set d (fst kv) (snd kv)) kvs d = d ++ kvs.
Proof.
  revert d. induction kvs as [|[k v] kvs IH]; intros d Hnd Hfresh;
    cbn [fold_left map fst snd].
  - symmetry. apply app_nil_r.
  - cbn [map fst] in Hnd. inversion Hnd as [|? ? Hk Hnd']; subst.
    rewrite dict_set_fresh by (apply (Hfresh (k, v)); left; reflexivity).
    rewrite IH; [rewrite <- app_assoc; reflexivity|exact Hnd'|].
    intros [k' v'] Hin. cbn [fst].
    rewrite <- (dict_set_fresh d k v)
      by (apply (Hfresh (k, v)); left; reflexivity).
    rewrite dict_get_dict_set.
    destruct (String.eqb k' k) eqn:E.
    + apply String.eqb_eq in E. subst k'. exfalso. apply Hk.
      change k with (fst (k, v')). now apply in_map.
    + apply (Hfresh (k', v')). right. exact Hin.
Qed.

Lemma dict_of_distinct {V : Type} (kvs : list (string * V)) :
  NoDup (map fst kvs) ->
  fold_left (fun d kv => dict_set d (fst kv) (snd kv)) kvs [] = kvs.
Proof.
  intros H. rewrite fold_dict_set_distinct by (auto || exact H). reflexivity.
Qed.

(* ====================================================================== *)
(** * [EnsembleTrainer]: the sum of the weights *)
(* ====================================================================== *)

Lemma sums_to_one_of_eq (w : list (string * Q)) :
  (weights_sum w == 1)%Q -> sums_to_one w.
Proof. unfold sums_to_one. intros ->. vm_compute. discriminate. Qed.

Lemma fold_dict_set_keys {V : Type} (keys : list string) (v : string -> V)
      (d : list (string * V)) :
  fold_left (fun d k => dict_set d k (v k)) keys d =
  fold_left (fun d kv => dict_set d (fst kv) (snd kv))
            (map (fun k => (k, v k)) keys) d.
Proof.
  revert d. induction keys as [|k keys IH]; intros d; cbn [fold_left map];
    [reflexivity|apply IH].
Qed.

Lemma Qsum_const (c : Q) (keys : list string) :
  (weights_sum (map (fun k => (k, c)) keys) ==
   inject_Z (Z.of_nat (length keys)) * c)%Q.
Proof.
  unfold weights_sum. induction keys as [|k keys IH]; cbn [map snd Qsum fold_right length].
  - ring.
  - unfold Qsum in IH. rewrite IH, Nat2Z.inj_succ. unfold Z.succ.
    rewrite inject_Z_plus. ring.
Qed.

Section EnsembleWeights.
Variable lib : Regressors.
Import EnsembleTrainer.

Lemma equal_weights_distinct (types : list string) :
  NoDup types ->
  equal_weights types =
  map (fun k => (k, (1 / inject_Z (Z.of_nat (length types)))%Q)) types.
Proof.
  intros H. unfold equal_weights.
  rewrite (fold_dict_set_keys types
             (fun _ => (1 / inject_Z (Z.of_nat (length types)))%Q)).
  apply dict_of_distinct. rewrite map_map. cbn [fst]. rewrite map_id. exact H.
Qed.

Lemma equal_weights_sum (types : list string) :
  NoDup types -> types <> [] ->
  (weights_sum (equal_weights types) == 1)%Q.
Proof.
  intros Hnd Hne. rewrite equal_weights_distinct by exact Hnd.
  rewrite Qsum_const. field.
  intros E. unfold Qeq in E. cbn in E.
  destruct types; [congruence|]. cbn [length] in E. lia.
Qed.

Lemma in_grid (w1 w2 w3 : Q) :
  In (w1, w2, w3) grid -> w3 = (1 - w1 - w2)%Q.
Proof.
  unfold grid. intros H.
  apply in_flat_map in H. destruct H as (a & _ & H).
  apply in_flat_map in H. destruct H as (b & _ & H).
  destruct (Qltb (1 - a - b) (1 # 10) || Qltb (8 # 10) (1 - a - b));
    [destruct H|].
  destruct H as [H|[]]. injection H as <- <- <-. reflexivity.
Qed.

Lemma dict_zip_three (a b c : string) (w1 w2 w3 : Q) :
  NoDup [a; b; c] ->
  dict_zip [a; b; c] (triple_list (w1, w2, w3)) = [(a, w1); (b, w2); (c, w3)].
Proof.
  intros H. unfold dict_zip, triple_list. cbn [combine].
  apply dict_of_distinct. exact H.
Qed.

Lemma train_all_loop_types (body : string -> St (t lib) unit)
      (l : list string) :
  (forall mt s r s', body mt s = (r, s') ->
                     model_types lib s' = model_types lib s) ->
  forall s r s', forM_ l body s = (r, s') ->
                 model_types lib s' = model_types lib s.
Proof.
  intros Hb. induction l as [|mt l IH]; intros s r s'; cbn [forM_].
  - intros [= _ <-]. reflexivity.
  - unfold bindM. destruct (body mt s) as [[u|e] s1] eqn:E.
    + intros H. rewrite (IH _ _ _ H). eapply Hb. exact E.
    + intros [= _ <-]. eapply Hb. exact E.
Qed.

End EnsembleWeights.

(* ====================================================================== *)
(** * [EnsembleTrainer.optimize_weights]: the grid search *)
(* ====================================================================== *)

Lemma in_rangeb_sound (x : Q) : in_rangeb x = true -> in_range x.
Proof.
  unfold in_rangeb, in_range. intros H. apply andb_true_iff in H.
  destruct H as [H1 H2]. split; apply Qle_bool_iff; assumption.
Qed.

Lemma on_tenthsb_sound (x : Q) : on_tenthsb x = true -> on_tenths x.
Proof.
  unfold on_tenthsb, on_tenths. intros H. apply Qeq_bool_iff in H.
  exists (Qfloor (x * 10)). exact H.
Qed.

Lemma grid_triples : Forall grid_triple EnsembleTrainer.grid.
Proof.
  apply Forall_forall. intros [[w1 w2] w3] Hin.
  assert (Hb : forallb grid_tripleb EnsembleTrainer.grid = true)
    by (vm_compute; reflexivity).
  rewrite forallb_forall in Hb. specialize (Hb _ Hin).
  unfold grid_tripleb in Hb.
  repeat (apply andb_true_iff in Hb; destruct Hb as [Hb ?]).
  unfold grid_triple. split; [exact (in_grid _ _ _ Hin)|].
  repeat split;
    solve [ apply on_tenthsb_sound; assumption
          | apply in_rangeb_sound; assumption ].
Qed.

Lemma finite_values_length (v : vector) (l : list Q) :
  finite_values v = Some l -> length l = length v.
Proof.
  revert l. induction v as [|x v IH]; intros l; cbn [finite_values fold_right].
  - intros [= <-]. reflexivity.
  - fold (finite_values v). destruct x as [q| |]; try discriminate.
    destruct (finite_values v) as [l'|]; [|discriminate].
    intros [= <-]. cbn [length]. rewrite (IH l' eq_refl). reflexivity.
Qed.

(** R² is NaN below two samples and a finite number from two samples on. *)
Lemma r2_score_cases (y_true y_pred : vector) (x : float) :
  r2_score y_true y_pred = Ok x ->
  (length y_true < 2 /\ x = NaN) \/
  (2 <= length y_true /\ exists q, x = Fin q).
Proof.
  unfold r2_score, check_reg_targets.
  destruct (Nat.eqb (length y_true) (length y_pred)) eqn:El; cbn [negb bind];
    [|discriminate].
  apply Nat.eqb_eq in El.
  destruct y_true as [|a y_true]; [discriminate|].
  destruct (finite_values (a :: y_true)) as [t|] eqn:Et; [|discriminate].
  destruct (finite_values y_pred) as [p|] eqn:Ep; [|discriminate].
  cbn [bind]. apply finite_values_length in Ep.
  destruct (Nat.ltb (length p) 2) eqn:E2.
  - intros [= <-]. left. apply Nat.ltb_lt in E2. split; [lia|reflexivity].
  - intros [= <-]. right. apply Nat.ltb_ge in E2. split; [lia|eauto].
Qed.

Section GridSearch.
Variable types : list string.
Variable predictions : list (string * vector).
Variable y_val : vector.

Let step := EnsembleTrainer.try_weights types predictions y_val.
Let score := score_of types predictions y_val.
Let W (w : Q * Q * Q) :=
  EnsembleTrainer.dict_zip types (EnsembleTrainer.triple_list w).

Lemma step_score (best : float * option EnsembleTrainer.weights_t)
      (w : Q * Q * Q) :
  step best w =
  (sc <- score w ;;
   if fgtb sc (fst best) then Ok (sc, Some (W w)) else Ok best).
Proof.
  unfold step, score, score_of, EnsembleTrainer.try_weights, W.
  destruct (EnsembleTrainer._weighted_predict _ _); reflexivity.
Qed.

(** With fewer than two validation samples no triple is kept. *)
Lemma search_undefined (l : list (Q * Q * Q))
      (best best' : float * option EnsembleTrainer.weights_t) :
  length y_val < 2 ->
  foldM step l best = Ok best' -> best' = best.
Proof.
  intros Hlen. revert best. induction l as [|w l IH]; intros best;
    cbn [foldM].
  - intros [= <-]. reflexivity.
  - rewrite step_score. unfold score, score_of.
    destruct (EnsembleTrainer._weighted_predict _ _) as [p|e]; cbn [bind];
      [|discriminate].
    destruct (r2_score y_val p) as [sc|e] eqn:Er; cbn [bind]; [|discriminate].
    destruct (r2_score_cases _ _ _ Er) as [[_ ->]|[Hge _]]; [|lia].
    cbn [fgtb fltb]. destruct (fst best); apply IH.
Qed.

Lemma score_finite (w : Q * Q * Q) (x : float) :
  2 <= length y_val -> score w = Ok x -> exists q, x = Fin q.
Proof.
  intros Hlen. unfold score, score_of.
  destruct (EnsembleTrainer._weighted_predict _ _) as [p|e]; cbn [bind];
    [|discriminate].
  intros Er. destruct (r2_score_cases _ _ _ Er) as [[Hlt _]|[_ H]];
    [lia|exact H].
Qed.

Lemma fgtb_Fin (a b : Q) : fgtb (Fin a) (Fin b) = true <-> (b < a)%Q.
Proof.
  unfold fgtb, fltb, fleb. rewrite negb_true_iff.
  split.
  - intros H. apply Qnot_le_lt. intros Hle.
    apply Qle_bool_iff in Hle. congruence.
  - intros H. destruct (Qle_bool a b) eqn:E; [|reflexivity].
    apply Qle_bool_iff in E. exfalso. exact (Qlt_not_le _ _ H E).
Qed.

Lemma fgtb_Fin_false (a b : Q) : fgtb (Fin a) (Fin b) = false <-> (a <= b)%Q.
Proof.
  unfold fgtb, fltb, fleb. rewrite negb_false_iff. apply Qle_bool_iff.
Qed.

(** The search from a finite best score: the final best score bounds every
    score of the list, and it is either the initial one or the score of the
    first triple that reaches it. *)
Lemma search_from (l : list (Q * Q * Q)) (b : Q)
      (bw : option EnsembleTrainer.weights_t)
      (best' : float * option EnsembleTrainer.weights_t) :
  2 <= length y_val ->
  foldM step l (Fin b, bw) = Ok best' ->
  exists b',
    fst best' = Fin b' /\ (b <= b')%Q /\
    (forall w, In w l -> exists q, score w = Ok (Fin q) /\ (q <= b')%Q) /\
    (best' = (Fin b, bw) \/
     exists pre w post,
       l = pre ++ w :: post /\ score w = Ok (Fin b') /\
       snd best' = Some (W w) /\ (b < b')%Q /\
       forall w', In w' pre -> exists q, score w' = Ok (Fin q) /\ (q < b')%Q).
Proof.
  intros Hlen. revert b bw. induction l as [|w l IH]; intros b bw; cbn [foldM].
  - intros [= <-]. exists b. split; [reflexivity|]. split; [apply Qle_refl|].
    split; [intros w []|left; reflexivity].
  - rewrite step_score.
    destruct (score w) as [sc|e] eqn:Esc; cbn [bind]; [|discriminate].
    destruct (score_finite w sc Hlen Esc) as [q ->]. cbn [fst].
    destruct (fgtb (Fin q) (Fin b)) eqn:Egt.
    + apply fgtb_Fin in Egt. intros Hf.
      destruct (IH q (Some (W w)) Hf) as (b' & Hb' & Hle & Hall & Hcase).
      exists b'. split; [exact Hb'|].
      split; [apply Qlt_le_weak; eapply Qlt_le_trans; eassumption|].
      split.
      * intros w' [<-|Hin]; [exists q; split; [exact Esc|exact Hle]|].
        apply Hall. exact Hin.
      * right. destruct Hcase as [->|(pre & w2 & post & -> & Hs & Hw & Hlt & Hpre)].
        -- exists [], w, l. cbn [fst] in Hb'. injection Hb' as <-.
           repeat split; try reflexivity; [exact Esc|exact Egt|].
           intros w' [].
        -- exists (w :: pre), w2, post.
           repeat split; try assumption.
           ++ eapply Qlt_trans; eassumption.
           ++ intros w' [<-|Hin]; [exists q; split; [exact Esc|exact Hlt]|].
              apply Hpre. exact Hin.
    + apply fgtb_Fin_false in Egt. intros Hf.
      destruct (IH b bw Hf) as (b' & Hb' & Hle & Hall & Hcase).
      exists b'. split; [exact Hb'|]. split; [exact Hle|]. split.
      * intros w' [<-|Hin];
          [exists q; split; [exact Esc|eapply Qle_trans; eassumption]|].
        apply Hall. exact Hin.
      * destruct Hcase as [->|(pre & w2 & post & -> & Hs & Hw & Hlt & Hpre)];
          [left; reflexivity|].
        right. exists (w :: pre), w2, post.
        repeat split; try assumption.
        intros w' [<-|Hin];
          [exists q; split; [exact Esc|eapply Qle_lt_trans; eassumption]|].
        apply Hpre. exact Hin.
Qed.

(** The search from [best_score = -inf], [best_weights = None]. *)
Lemma search_first_max (l : list (Q * Q * Q))
      (best' : float * option EnsembleTrainer.weights_t) :
  2 <= length y_val -> l <> [] ->
  foldM step l (Inf true, None) = Ok best' ->
  exists pre w post q,
    l = pre ++ w :: post /\ score w = Ok (Fin q) /\
    snd best' = Some (W w) /\
    (forall w', In w' pre -> exists q', score w' = Ok (Fin q') /\ (q' < q)%Q) /\
    (forall w', In w' post -> exists q', score w' = Ok (Fin q') /\ (q' <= q)%Q).
Proof.
  intros Hlen Hne. destruct l as [|w l]; [congruence|]. cbn [foldM].
  rewrite step_score.
  destruct (score w) as [sc|e] eqn:Esc; cbn [bind]; [|discriminate].
  destruct (score_finite w sc Hlen Esc) as [q ->]. cbn [fst fgtb fltb fleb negb].
  intros Hf.
  destruct (search_from l q (Some (W w)) best' Hlen Hf)
    as (b' & Hb' & Hle & Hall & Hcase).
  destruct Hcase as [->|(pre & w2 & post & -> & Hs & Hw & Hlt & Hpre)].
  - exists [], w, l, q. cbn [fst] in Hb'. injection Hb' as <-.
    repeat split; try reflexivity; [exact Esc|intros w' []|exact Hall].
  - exists (w :: pre), w2, post, b'.
    repeat split; try assumption.
    + intros w' [<-|Hin]; [exists q; split; [exact Esc|exact Hlt]|].
      apply Hpre. exact Hin.
    + intros w' Hin. apply Hall. apply in_or_app. right. right. exact Hin.
Qed.

End GridSearch.






(* ====================================================================== *)
(** * [TrainingPipeline.train_all_models] *)
(* ====================================================================== *)

Lemma optimize_weights_fields (lib : Regressors)
      (self s' : EnsembleTrainer.t lib) X_val y_val method :
  EnsembleTrainer.optimize_weights lib self X_val y_val method = Ok s' ->
  EnsembleTrainer.model_types lib s' = EnsembleTrainer.model_types lib self /\
  EnsembleTrainer.models lib s' = EnsembleTrainer.models lib self.
Proof.
  unfold EnsembleTrainer.optimize_weights.
  destruct (String.eqb method "equal"); [intros [= <-]; split; reflexivity|].
  destruct (EnsembleTrainer.predictions_of lib self X_val); cbn [bind];
    [|discriminate].
  match goal with
  | |- context [bind ?m _] => destruct m as [best|e]
  end; cbn [bind]; [|discriminate].
  destruct (snd best); intros [= <-]; split; reflexivity.
Qed.

Lemma dict_get_map_keys {V : Type} (f : string -> V) (l : list string) k :
  dict_get (map (fun m => (m, f m)) l) k = if mem k l then Some (f k) else None.
Proof.
  induction l as [|m l IH]; cbn [map dict_get]; [reflexivity|].
  rewrite mem_cons. destruct (String.eqb k m) eqn:E; cbn [orb].
  - apply String.eqb_eq in E. subst m. reflexivity.
  - exact IH.
Qed.

Lemma NoDup_filter {A : Type} (f : A -> bool) (l : list A) :
  NoDup l -> NoDup (filter f l).
Proof.
  induction 1 as [|x l Hx Hnd IH]; cbn [filter]; [constructor|].
  destruct (f x); [|exact IH].
  constructor; [|exact IH]. intros Hin. apply filter_In in Hin. tauto.
Qed.

Section TrainAllModels.
Variable lib : Regressors.
Variable X_train : frame.
Variable y_train : vector.
Variable X_val : option frame.
Variable y_val : option vector.
Variable perform_cv : bool.
Import TrainingPipeline.

Local Abbreviation member_ := (member lib X_train y_train X_val y_val perform_cv).
Local Abbreviation members_after_ :=
  (members_after lib X_train y_train X_val y_val perform_cv).
Local Abbreviation available_ :=
  (available lib X_train y_train X_val y_val perform_cv).
Local Abbreviation trainer_of_ :=
  (trainer_of lib X_train y_train X_val y_val perform_cv).

Lemma member_loop_run (body : string -> St (t lib) unit) (types : list string) :
  body = (fun model_type =>
            if String.eqb model_type "ensemble" then retM tt
            else
              try_except
                (trainer <~ liftM (train_member lib model_type X_train y_train
                                     X_val y_val perform_cv) ;;
                 modifyS (fun s => set_trained lib s model_type
                                     (Single lib trainer)))
                (fun _ => retM tt)) ->
  forall s,
    forM_ types body s =
    (Ok tt, mk lib (models_to_train lib s)
               (members_after_ types (trained_models lib s))).
Proof.
  intros ->. induction types as [|mt types IH]; intros s;
    cbn [forM_ members_after fold_left].
  - destruct s. reflexivity.
  - unfold bindM at 1.
    destruct (String.eqb mt "ensemble").
    + cbn [retM]. rewrite IH. reflexivity.
    + unfold try_except, bindM, liftM, modifyS, retM. fold (member_ mt).
      destruct (member_ mt) as [tr|e].
      * rewrite IH. reflexivity.
      * rewrite IH. reflexivity.
Qed.

Lemma dict_get_members_after (types : list string)
      (tm : list (string * trained lib)) (k : string) :
  dict_get (members_after_ types tm) k =
  if mem k types && negb (String.eqb k "ensemble") then
    match member_ k with
    | Ok tr => Some (Single lib tr)
    | Raise _ => dict_get tm k
    end
  else dict_get tm k.
Proof.
  unfold members_after. revert tm.
  induction types as [|mt types IH]; intros tm; cbn [fold_left];
    [reflexivity|].
  rewrite IH, mem_cons. clear IH.
  destruct (String.eqb k mt) eqn:Ek.
  - apply String.eqb_eq in Ek. subst mt. cbn [orb].
    destruct (String.eqb k "ensemble"); cbn [negb andb].
    + rewrite andb_false_r. reflexivity.
    + rewrite andb_true_r.
      destruct (member_ k) as [tr|e];
        [|destruct (mem k types); reflexivity].
      destruct (mem k types); [reflexivity|].
      rewrite dict_get_dict_set, String.eqb_refl. reflexivity.
  - cbn [orb].
    assert (Hk : dict_get
                   (if String.eqb mt "ensemble" then tm
                    else match member_ mt with
                         | Ok tr => dict_set tm mt (Single lib tr)
                         | Raise _ => tm
                         end) k = dict_get tm k).
    { destruct (String.eqb mt "ensemble"); [reflexivity|].
      destruct (member_ mt); [|reflexivity].
      rewrite dict_get_dict_set, Ek. reflexivity. }
    rewrite Hk. reflexivity.
Qed.

Lemma available_after (types : list string) :
  filter (fun m => has_key lib m (members_after_ types [])) ensemble_models =
  available_ types.
Proof.
  unfold available. apply filter_ext_in. intros m Hm.
  unfold has_key. rewrite dict_get_members_after. cbn [dict_get].
  assert (Hne : String.eqb m "ensemble" = false).
  { unfold ensemble_models in Hm. cbn [In] in Hm.
    destruct Hm as [<-|[<-|[<-|[]]]]; reflexivity. }
  rewrite Hne. cbn [negb]. rewrite andb_true_r.
  destruct (mem m types); cbn [andb]; [|reflexivity].
  destruct (member_ m); reflexivity.
Qed.

Lemma members_of_available (types : list string) (l : list string) :
  (forall m, In m l -> In m (available_ types)) ->
  mapM (fun m => match dict_get (members_after_ types []) m with
                 | Some (Single _ tr) => Ok (m, tr)
                 | Some (Ensemble _ _) => Raise (TypeError "not a ModelTrainer")
                 | None => Raise (KeyError m)
                 end) l =
  Ok (map (fun m => (m, trainer_of_ m)) l).
Proof.
  induction l as [|m l IH]; intros H; cbn [mapM map]; [reflexivity|].
  assert (Hm : In m (available_ types)) by (apply H; left; reflexivity).
  unfold available in Hm. apply filter_In in Hm. destruct Hm as [Hin Hok].
  apply andb_true_iff in Hok. destruct Hok as [Hmem Hok].
  assert (Hne : String.eqb m "ensemble" = false).
  { unfold ensemble_models in Hin. cbn [In] in Hin.
    destruct Hin as [<-|[<-|[<-|[]]]]; reflexivity. }
  rewrite dict_get_members_after, Hmem, Hne. cbn [negb andb].
  unfold trainer_of at 1.
  destruct (member_ m) as [tr|e]; [|discriminate]. cbn [bind].
  rewrite IH by (intros m' Hm'; apply H; right; exact Hm').
  reflexivity.
Qed.

End TrainAllModels.

Section TrainAllModelsRun.
Variable lib : Regressors.
Variable X_train : frame.
Variable y_train : vector.
Variable X_val : option frame.
Variable y_val : option vector.
Variable perform_cv : bool.
Variable types : list string.
Import TrainingPipeline.

Let run :=
  train_all_models lib X_train y_train X_val y_val perform_cv
                   (__init__ lib types).
Let tm1 := members_after lib X_train y_train X_val y_val perform_cv types [].
Let avail := available lib X_train y_train X_val y_val perform_cv types.
Let with_ensemble (ens : EnsembleTrainer.t lib) :=
  dict_set tm1 "ensemble" (Ensemble lib ens).

(** The three ways the call can end. *)
Lemma train_all_models_cases :
  ((mem "ensemble" types = false \/ length avail < 2) /\
   run = (Ok tm1, mk lib types tm1)) \/
  (mem "ensemble" types = true /\ 2 <= length avail /\
   exists e, run = (Raise e, mk lib types tm1)) \/
  (mem "ensemble" types = true /\ 2 <= length avail /\
   exists ens,
     EnsembleTrainer.model_types lib ens = avail /\
     EnsembleTrainer.models lib ens =
       map (fun m => (m, trainer_of lib X_train y_train X_val y_val
                           perform_cv m)) avail /\
     run = (Ok (with_ensemble ens), mk lib types (with_ensemble ens))).
Proof.
  remember run as R eqn:ER. unfold run, train_all_models in ER.
  unfold bindM at 1 in ER. cbn [getS __init__ models_to_train] in ER.
  unfold bindM at 1 in ER.
  rewrite (member_loop_run lib X_train y_train X_val y_val perform_cv _ types
             eq_refl) in ER.
  cbn [models_to_train trained_models __init__] in ER.
  destruct (mem "ensemble" types) eqn:Hens.
  2:{ left. split; [left; reflexivity|]. exact ER. }
  unfold bindM at 1 in ER. unfold bindM at 1 in ER.
  cbn [getS trained_models] in ER.
  rewrite available_after in ER. fold avail in ER.
  destruct (Nat.leb 2 (length avail)) eqn:Hlen.
  2:{ apply Nat.leb_gt in Hlen. left. split; [right; exact Hlen|].
      exact ER. }
  apply Nat.leb_le in Hlen. right.
  unfold bindM at 1 in ER. unfold liftM at 1 in ER.
  rewrite (members_of_available lib X_train y_train X_val y_val perform_cv
             types avail) in ER by (intros m Hm; exact Hm).
  rewrite dict_of_distinct in ER.
  2:{ rewrite map_map. cbn [fst]. rewrite map_id. unfold avail, available.
      apply NoDup_filter. unfold ensemble_models.
      repeat constructor; cbn [In]; intuition discriminate. }
  cbn [EnsembleTrainer.weights EnsembleTrainer.__init__] in ER.
  unfold bindM at 1 in ER.
  destruct X_val as [Xv|]; [destruct y_val as [yv|]|].
  - unfold liftM at 1 in ER.
    destruct (EnsembleTrainer.optimize_weights lib _ Xv yv "grid_search")
      as [ens|e] eqn:Eopt.
    + right. split; [reflexivity|]. split; [exact Hlen|].
      destruct (optimize_weights_fields _ _ _ _ _ _ Eopt) as [Ht Hm].
      exists ens. split; [exact Ht|]. split; [exact Hm|]. exact ER.
    + left. split; [reflexivity|]. split; [exact Hlen|].
      exists e. exact ER.
  - right. split; [reflexivity|]. split; [exact Hlen|].
    eexists. split; [|split; [|exact ER]]; reflexivity.
  - right. split; [reflexivity|]. split; [exact Hlen|].
    eexists. split; [|split; [|exact ER]]; reflexivity.
Qed.

End TrainAllModelsRun.

(** C10.  In [train_all_models] on a new pipeline, a model type other than
    "ensemble" has an entry in [trained_models] exactly when it was requested
    and its own training completed; a member whose training raised is
    skipped and the others are kept.  The "ensemble" entry exists only when
    "ensemble" was requested and at least two of xgboost, lightgbm, catboost
    trained; it is built from exactly those members.  With fewer than two
    of them, or without the request, the call returns without an ensemble
    and without raising; the only exception that can leave the call comes
    from the construction of the ensemble of two or more members. *)
Theorem train_all_models_degrades
        (lib : Regressors) (X_train : frame) (y_train : vector)
        (X_val : option frame) (y_val : option vector) (perform_cv : bool)
        (types : list string) :
  let run :=
    TrainingPipeline.train_all_models lib X_train y_train X_val y_val
      perform_cv (TrainingPipeline.__init__ lib types) in
  let tm := TrainingPipeline.trained_models lib (snd run) in
  let trained_alone := member lib X_train y_train X_val y_val perform_cv in
  let avail := available lib X_train y_train X_val y_val perform_cv types in
  (forall mt, mt <> "ensemble" ->
     dict_get tm mt =
     if mem mt types then
       match trained_alone mt with
       | Ok tr => Some (TrainingPipeline.Single lib tr)
       | Raise _ => None
       end
     else None) /\
  (mem "ensemble" types = false \/ length avail < 2 ->
     fst run = Ok tm /\ dict_get tm "ensemble" = None) /\
  (forall v, dict_get tm "ensemble" = Some v ->
     mem "ensemble" types = true /\ 2 <= length avail /\ fst run = Ok tm /\
     exists ens,
       v = TrainingPipeline.Ensemble lib ens /\
       EnsembleTrainer.model_types lib ens = avail /\
       forall m,
         dict_get (EnsembleTrainer.models lib ens) m =
         if mem m avail then
           match trained_alone m with
           | Ok tr => Some tr
           | Raise _ => None
           end
         else None) /\
  (forall e, fst run = Raise e ->
     mem "ensemble" types = true /\ 2 <= length avail /\
     dict_get tm "ensemble" = None).
Proof.
  intros run tm trained_alone avail.
  set (tm1 := members_after lib X_train y_train X_val y_val perform_cv types []).
  assert (Hmember : forall mt, mt <> "ensemble" ->
            dict_get tm1 mt =
            if mem mt types then
              match trained_alone mt with
              | Ok tr => Some (TrainingPipeline.Single lib tr)
              | Raise _ => None
              end
            else None).
  { intros mt Hmt. unfold tm1. rewrite dict_get_members_after.
    apply String.eqb_neq in Hmt. rewrite Hmt. cbn [negb dict_get].
    rewrite andb_true_r. fold (trained_alone mt).
    destruct (mem mt types); [|reflexivity].
    destruct (trained_alone mt); reflexivity. }
  assert (Hnone : dict_get tm1 "ensemble" = None).
  { unfold tm1. rewrite dict_get_members_after.
    rewrite String.eqb_refl. cbn [negb]. rewrite andb_false_r. reflexivity. }
  destruct (train_all_models_cases lib X_train y_train X_val y_val perform_cv
              types)
    as [[Hfew E]|[(Hens & Hlen & e & E)|(Hens & Hlen & ens & Ht & Hm & E)]];
    fold run in E; fold tm1 in E; fold avail in Hlen || fold avail in Hfew.
  - assert (Etm : tm = tm1) by (unfold tm; rewrite E; reflexivity).
    rewrite Etm. split; [exact Hmember|]. split; [|split].
    + intros _. rewrite E. split; [reflexivity|exact Hnone].
    + intros v Hv. congruence.
    + intros e He. rewrite E in He. discriminate.
  - assert (Etm : tm = tm1) by (unfold tm; rewrite E; reflexivity).
    rewrite Etm. split; [exact Hmember|]. split; [|split].
    + intros [Hno|Hlt]; [congruence|lia].
    + intros v Hv. congruence.
    + intros e' _. repeat split; assumption.
  - assert (Etm : tm = dict_set tm1 "ensemble" (TrainingPipeline.Ensemble lib ens))
      by (unfold tm; rewrite E; reflexivity).
    rewrite Etm. split; [|split; [|split]].
    + intros mt Hmt. rewrite dict_get_dict_set.
      apply String.eqb_neq in Hmt. rewrite Hmt.
      apply Hmember. apply String.eqb_neq. exact Hmt.
    + intros [Hno|Hlt]; [congruence|lia].
    + intros v Hv. rewrite dict_get_dict_set, String.eqb_refl in Hv.
      injection Hv as <-.
      split; [exact Hens|]. split; [exact Hlen|].
      split; [rewrite E; reflexivity|].
      exists ens. split; [reflexivity|]. split; [exact Ht|].
      intros m. rewrite Hm, dict_get_map_keys. fold avail.
      destruct (mem m avail) eqn:Hin; [|reflexivity].
      apply mem_In in Hin. unfold avail, available in Hin.
      apply filter_In in Hin. destruct Hin as [_ Hok].
      apply andb_true_iff in Hok. destruct Hok as [_ Hok].
      unfold trainer_of. fold (trained_alone m).
      unfold trained_alone in *.
      destruct (member lib X_train y_train X_val y_val perform_cv m);
        [reflexivity|discriminate].
    + intros e He. rewrite E in He. discriminate.
Qed.

(* ====================================================================== *)
(** * [ModelEvaluator.evaluate]: the accuracy buckets *)
(* ====================================================================== *)

Lemma length_filter_le {A : Type} (f : A -> bool) (l : list A) :
  length (filter f l) <= length l.
Proof.
  induction l as [|x l IH]; cbn [filter length]; [lia|].
  destruct (f x); cbn [length]; lia.
Qed.

Lemma length_filter_mono {A : Type} (f g : A -> bool) (l : list A) :
  (forall x, f x = true -> g x = true) ->
  length (filter f l) <= length (filter g l).
Proof.
  intros H. induction l as [|x l IH]; cbn [filter length]; [lia|].
  destruct (f x) eqn:Ef.
  - rewrite (H x Ef). cbn [length]. lia.
  - destruct (g x); cbn [length]; lia.
Qed.

Lemma length_zip_with_le {A B C : Type} (f : A -> B -> C) l l' :
  length (zip_with f l l') <= length l'.
Proof.
  revert l'. induction l as [|x l IH]; intros [|y l']; cbn [zip_with length];
    try lia.
  specialize (IH l'). lia.
Qed.

Lemma fleb_bound_mono (x : float) (a b : Q) :
  (a <= b)%Q -> fleb x (Fin a) = true -> fleb x (Fin b) = true.
Proof.
  intros Hab. destruct x as [q|s|]; cbn [fleb]; try (intros H; exact H).
  intros H. apply Qle_bool_iff. apply Qle_bool_iff in H.
  eapply Qle_trans; eassumption.
Qed.

Lemma percentage_bounds (c c' n : nat) :
  c <= c' -> c' <= n -> 0 < n ->
  (0 <= percentage c n /\ percentage c n <= percentage c' n /\
   percentage c' n <= 100)%Q.
Proof.
  intros Hcc Hcn Hn. unfold percentage.
  assert (HN : (0 < inject_Z (Z.of_nat n))%Q).
  { change 0%Q with (inject_Z 0). rewrite <- Zlt_Qlt. lia. }
  assert (HC : (0 <= inject_Z (Z.of_nat c))%Q).
  { change 0%Q with (inject_Z 0). rewrite <- Zle_Qle. lia. }
  assert (HCC : (inject_Z (Z.of_nat c) <= inject_Z (Z.of_nat c'))%Q).
  { rewrite <- Zle_Qle. lia. }
  assert (HCN : (inject_Z (Z.of_nat c') <= inject_Z (Z.of_nat n))%Q).
  { rewrite <- Zle_Qle. lia. }
  assert (Hinv : (0 <= / inject_Z (Z.of_nat n))%Q).
  { apply Qinv_le_0_compat. apply Qlt_le_weak. exact HN. }
  split; [|split].
  - apply Qmult_le_0_compat; [|discriminate].
    unfold Qdiv. apply Qmult_le_0_compat; assumption.
  - apply Qmult_le_compat_r; [|discriminate].
    unfold Qdiv. apply Qmult_le_compat_r; assumption.
  - setoid_replace 100%Q with (1 * 100)%Q at 2 by ring.
    apply Qmult_le_compat_r; [|discriminate].
    apply Qle_shift_div_r; [exact HN|].
    rewrite Qmult_1_l. exact HCN.
Qed.

Lemma within_percentage (rel : vector) (bound : Q) (n : nat) :
  0 < n ->
  ModelEvaluator.within rel bound n =
  Fin (percentage (length (filter (fun x => fleb x (Fin bound)) rel)) n).
Proof.
  intros Hn. unfold ModelEvaluator.within, percentage, of_nat.
  cbn [fdiv fmul].
  destruct (Qzero (inject_Z (Z.of_nat n))) eqn:Z; [|reflexivity].
  unfold Qzero in Z. apply Qeq_bool_iff in Z.
  unfold Qeq in Z. cbn in Z. lia.
Qed.

(** C8.  For vectors of equal length, [evaluate] returns its metrics
    unless the vectors are empty or hold a NaN or an infinity (scikit-learn
    rejects them), or hold exactly two samples while [r2_score] is a Python
    float (the adjusted R² then divides by the integer zero); the metrics it
    returns satisfy [0 <= within_5_pct <= within_10_pct <= 100]. *)
Theorem metric_bounds (np : Numerics) (y_true y_pred : vector) :
  length y_true = length y_pred ->
  match ModelEvaluator.evaluate np y_true y_pred with
  | Ok m =>
      exists a b,
        ModelEvaluator.within_5_pct m = Fin a /\
        ModelEvaluator.within_10_pct m = Fin b /\
        (0 <= a /\ a <= b /\ b <= 100)%Q
  | Raise _ =>
      y_true = [] \/ finite_values y_true = None \/
      finite_values y_pred = None \/
      (r2_is_python_float np = true /\ length y_true = 2)
  end.
Proof.
  intros Hlen.
  unfold ModelEvaluator.evaluate, r2_score, mean_squared_error,
    mean_absolute_error, mean_absolute_percentage_error.
  destruct (check_reg_targets y_true y_pred) as [[t p]|e] eqn:Echeck;
    cbn [bind].
  - assert (Hn : 0 < length y_true).
    { unfold check_reg_targets in Echeck.
      destruct (negb (Nat.eqb (length y_true) (length y_pred)));
        [discriminate|].
      destruct y_true; [discriminate|cbn [length]; lia]. }
    destruct (Nat.ltb (length p) 2); cbn [bind];
      unfold ModelEvaluator.div_by_int;
      (destruct (r2_is_python_float np &&
                 Z.eqb (Z.of_nat (length y_true) - 1 - 1) 0) eqn:Ez;
       cbn [bind];
       [ right; right; right; apply andb_true_iff in Ez;
         destruct Ez as [Hp Hz]; apply Z.eqb_eq in Hz;
         split; [exact Hp|lia]
       | cbn [ModelEvaluator.within_5_pct ModelEvaluator.within_10_pct];
         rewrite !within_percentage by exact Hn;
         eexists; eexists; split; [reflexivity|]; split; [reflexivity|];
         apply percentage_bounds;
         [ apply length_filter_mono; intros x; apply fleb_bound_mono;
           discriminate
         | etransitivity; [apply length_filter_le|];
           apply length_zip_with_le
         | exact Hn ] ]).
  - unfold check_reg_targets in Echeck.
    rewrite Hlen, Nat.eqb_refl in Echeck. cbn [negb] in Echeck.
    destruct y_true as [|a y_true]; [left; reflexivity|].
    right.
    destruct (finite_values (a :: y_true)); [|left; reflexivity].
    destruct (finite_values y_pred); [discriminate|].
    right. left. reflexivity.
Qed.

Lemma metric_bounds_witness :
  exists m,
    ModelEvaluator.evaluate example_numerics
      [Fin 100; Fin 200; Fin 300]%Q [Fin 104; Fin 215; Fin 400]%Q = Ok m /\
    exists a b,
      ModelEvaluator.within_5_pct m = Fin a /\
      ModelEvaluator.within_10_pct m = Fin b /\
      (0 <= a /\ a <= b /\ b <= 100)%Q.
Proof.
  pose proof (metric_bounds example_numerics
                [Fin 100; Fin 200; Fin 300]%Q [Fin 104; Fin 215; Fin 400]%Q
                eq_refl) as H.
  destruct (ModelEvaluator.evaluate example_numerics
              [Fin 100; Fin 200; Fin 300]%Q [Fin 104; Fin 215; Fin 400]%Q)
    as [m|e] eqn:E.
  - exists m. split; [reflexivity|exact H].
  - exfalso. vm_compute in E. discriminate E.
Defined.

Lemma train_all_models_degrades_witness :
  let types := ["xgboost"; "lightgbm"; "catboost"; "ensemble"] in
  let run :=
    TrainingPipeline.train_all_models flaky_regressors training_frame
      [Fin 6500000; Fin 4200000]%Q None None false
      (TrainingPipeline.__init__ flaky_regressors types) in
  let tm := TrainingPipeline.trained_models flaky_regressors (snd run) in
  fst run = Ok tm /\
  dict_get tm "lightgbm" = None /\
  exists ens,
    dict_get tm "ensemble" = Some (TrainingPipeline.Ensemble flaky_regressors ens) /\
    EnsembleTrainer.model_types flaky_regressors ens = ["xgboost"; "catboost"].
Proof.
  intros types run tm.
  destruct (train_all_models_degrades flaky_regressors training_frame
              [Fin 6500000; Fin 4200000]%Q None None false types)
    as (Hmember & _ & Hens & _).
  fold run in Hmember, Hens. fold tm in Hmember, Hens.
  destruct (dict_get tm "ensemble") as [v|] eqn:Ev;
    [|exfalso; vm_compute in Ev; discriminate Ev].
  destruct (Hens v eq_refl) as (_ & _ & Hrun & ens & -> & Htypes & _).
  split; [exact Hrun|]. split.
  - rewrite Hmember by discriminate. reflexivity.
  - exists ens. split; [reflexivity|]. rewrite Htypes. reflexivity.
Defined.

(* ====================================================================== *)
(** * Feature engineering on numeric columns *)
(* ====================================================================== *)

Lemma number_inputs_same_outside (W : list string) (df df' : frame) :
  forallb (fun r => negb (mem r W)) numeric_inputs = true ->
  number_inputs df -> same_outside W df df' -> number_inputs df'.
Proof.
  intros HW Hnum Hsame c s Hc Hget.
  rewrite forallb_forall in HW.
  assert (Hn : mem c W = false).
  { apply mem_In in Hc. specialize (HW c Hc).
    now apply negb_true_iff in HW. }
  rewrite Hsame in Hget by exact Hn. eapply Hnum; eassumption.
Qed.

Lemma finite_number_inputs (d : frame) : finite_inputs d -> number_inputs d.
Proof.
  intros H c s Hc Hs. apply finite_numeric. eapply H; eassumption.
Qed.

(** Case analysis on the presence of the numeric input column [c] of [d]. *)
Ltac fn_case Hnum d c :=
  let Hm := fresh "Hm" in
  let s := fresh "s" in
  let Hs := fresh "Hs" in
  let Hn := fresh "Hn" in
  destruct (mem c (columns d)) eqn:Hm;
  [ destruct (mem_getitem _ _ Hm) as [s Hs];
    pose proof (fun E => Hnum _ s E Hs) as Hn; specialize (Hn eq_refl)
  | pose proof (not_mem_getitem _ _ Hm) ].

Ltac fn_formula := intros; fe_same; fe_norm; try reflexivity.

Section NumericSteps.
Import FeatureEngineer.

Lemma building_age_numbers (self : t) :
  number_inputs (df self) ->
  exists self',
    _create_building_age_features self = Ok self' /\
    cfg self' = cfg self /\
    number_inputs (df self') /\
    same_outside W_building_age (df self) (df self') /\
    forall year, getitem (df self) "year" = Ok year ->
      getitem (df self') "building_age" = Ok (ages year) /\
      (config_get (cfg self) "building_age_squared" true = true ->
       getitem (df self') "building_age_squared" =
       Ok (product (ages year) (ages year))).
Proof.
  destruct self as [d cf]. cbn [df cfg]. intros Hnum.
  unfold _create_building_age_features. fe_norm.
  fn_case Hnum d "year".
  - rewrite Hs. fe_norm.
    rewrite scalar_arith_l_numeric by assumption. fe_norm.
    assert (Hnum' : number_inputs (setitem d "building_age" (ages s))).
    { intros c s' Hc. rewrite getitem_setitem.
      destruct (String.eqb c "building_age") eqn:E.
      - intros [= <-]. apply numeric_map.
      - intros Hg. eapply Hnum; eassumption. }
    destruct (config_get cf "building_age_squared" true).
    + fe_norm. rewrite series_arith_numeric by apply numeric_map. fe_norm.
      eexists. split; [reflexivity|]. split; [reflexivity|]. split; [|split].
      * eapply (number_inputs_same_outside ["building_age_squared"]);
          [reflexivity|exact Hnum'|]. fe_outside.
      * fe_norm. fe_outside.
      * intros year Hy. fe_same. fe_norm. split; [reflexivity|].
        intros _. reflexivity.
    + eexists. split; [reflexivity|]. split; [reflexivity|]. split; [|split].
      * exact Hnum'.
      * fe_norm. fe_outside.
      * intros year Hy. fe_same. fe_norm. split; [reflexivity|].
        discriminate.
  - eexists. split; [reflexivity|]. split; [reflexivity|]. split; [|split].
    + exact Hnum.
    + apply same_outside_refl.
    + intros year Hy. congruence.
Qed.

Lemma area_ratio_numbers (self : t) :
  number_inputs (df self) ->
  exists self',
    _create_area_ratio_features self = Ok self' /\
    cfg self' = cfg self /\
    same_outside W_area_ratio (df self) (df self') /\
    forall total a, getitem (df self) "total_area" = Ok total ->
      getitem (df self) "other_area" = Ok a ->
      getitem (df self') "living_area" = Ok a.
Proof.
  destruct self as [d cf]. cbn [df cfg]. intros Hnum.
  unfold _create_area_ratio_features.
  fn_case Hnum d "total_area";
    [ fn_case Hnum d "kitchen_area"; fn_case Hnum d "bath_area";
      fn_case Hnum d "other_area"; fn_case Hnum d "rooms_count" | ];
    fe_run;
    (eexists; split; [reflexivity|]; split; [reflexivity|]; split;
     [ fe_norm; fe_outside | fn_formula ]).
Qed.

Lemma floor_numbers (self : t) :
  number_inputs (df self) ->
  exists self',
    _create_floor_features self = Ok self' /\
    cfg self' = cfg self /\
    same_outside W_floor (df self) (df self') /\
    forall f fmax, getitem (df self) "floor" = Ok f ->
      getitem (df self) "floor_max" = Ok fmax ->
      getitem (df self') "is_first_floor" =
      Ok (series_eq_scalar f (Num (Fin 1))) /\
      getitem (df self') "is_last_floor" = Ok (series_eq f fmax).
Proof.
  destruct self as [d cf]. cbn [df cfg]. intros Hnum.
  unfold _create_floor_features.
  fn_case Hnum d "floor"; fn_case Hnum d "floor_max"; fe_run;
    (fe_done; split;
     [ fe_norm; fe_outside | fn_formula; split; reflexivity ]).
Qed.

Lemma amenities_numbers (self : t) :
  exists self',
    _create_amenities_score self = Ok self' /\
    cfg self' = cfg self /\
    same_outside W_amenities (df self) (df self') /\
    forall g h c, getitem (df self) "gas" = Ok g ->
      getitem (df self) "hot_water" = Ok h ->
      getitem (df self) "central_heating" = Ok c ->
      getitem (df self') "amenities_score" =
      Ok (flags_sum (yes_flags g) (yes_flags h) (yes_flags c)).
Proof.
  destruct self as [d cf]. cbn [df cfg].
  unfold _create_amenities_score, amenity_cols.
  cbn [forallb mapM foldM].
  fe_case_any d "gas"; fe_case_any d "hot_water";
    fe_case_any d "central_heating"; fe_run;
    (fe_done; split; [ fe_norm; fe_outside | fn_formula ]).
Qed.

Lemma volume_numbers (self : t) :
  number_inputs (df self) ->
  exists self',
    _create_volume_feature self = Ok self' /\
    cfg self' = cfg self /\
    same_outside W_volume (df self) (df self') /\
    forall total h, getitem (df self) "total_area" = Ok total ->
      getitem (df self) "ceil_height" = Ok h ->
      getitem (df self') "volume" = Ok (product total h).
Proof.
  destruct self as [d cf]. cbn [df cfg]. intros Hnum.
  unfold _create_volume_feature.
  fn_case Hnum d "total_area"; fn_case Hnum d "ceil_height"; fe_run;
    (fe_done; split; [ fe_norm; fe_outside | fn_formula ]).
Qed.

Lemma extra_area_numbers (self : t) :
  number_inputs (df self) ->
  exists self',
    _create_extra_area_features self = Ok self' /\
    cfg self' = cfg self /\
    same_outside W_extra_area (df self) (df self') /\
    forall e, getitem (df self) "extra_area" = Ok e ->
      getitem (df self') "has_extra_area" = Ok (positive_flags e).
Proof.
  destruct self as [d cf]. cbn [df cfg]. intros Hnum.
  unfold _create_extra_area_features.
  fn_case Hnum d "extra_area"; fn_case Hnum d "total_area"; fe_run;
    (fe_done; split; [ fe_norm; fe_outside | fn_formula ]).
Qed.

Lemma interaction_numbers (self : t) :
  number_inputs (df self) ->
  exists self',
    _create_interaction_features self = Ok self' /\
    cfg self' = cfg self /\
    same_outside W_interaction (df self) (df self') /\
    (forall r f, getitem (df self) "rooms_count" = Ok r ->
       getitem (df self) "floor" = Ok f ->
       getitem (df self') "rooms_floor_interaction" = Ok (product r f)) /\
    (forall total b, getitem (df self) "total_area" = Ok total ->
       getitem (df self) "building_age" = Ok b ->
       getitem (df self') "area_age_interaction" = Ok (product total b)).
Proof.
  destruct self as [d cf]. cbn [df cfg]. intros Hnum.
  unfold _create_interaction_features.
  fn_case Hnum d "rooms_count"; fn_case Hnum d "floor";
    fn_case Hnum d "total_area"; fn_case Hnum d "building_age"; fe_run;
    (fe_done; split; [ fe_norm; fe_outside | split; fn_formula ]).
Qed.

End NumericSteps.

Section EngineerAllNumbers.
Import FeatureEngineer.

Lemma engineer_all_numbers (d : frame) :
  number_inputs d ->
  exists self',
    engineer_all (__init__ d None) = Ok self' /\
    same_outside W_all d (df self') /\
    derived_spec d (df self').
Proof.
  intros Hnum. unfold engineer_all, step.
  set (s0 := __init__ d None).
  assert (C0 : cfg s0 = config.FEATURE_ENGINEERING_CONFIG) by reflexivity.
  assert (F0 : number_inputs (df s0)) by exact Hnum.
  destruct (building_age_numbers s0 F0) as (s1 & E1 & C1 & F1 & O1 & P1).
  rewrite C0 in *. default_flags. rewrite E1. cbn [bind].
  destruct (area_ratio_numbers s1 F1) as (s2 & E2 & C2 & O2 & P2).
  rewrite C1 in *. default_flags. rewrite E2. cbn [bind].
  assert (F2 : number_inputs (df s2))
    by (eapply number_inputs_same_outside; [|exact F1|exact O2]; reflexivity).
  destruct (floor_numbers s2 F2) as (s3 & E3 & C3 & O3 & P3).
  rewrite C2 in *. default_flags. rewrite E3. cbn [bind].
  assert (F3 : number_inputs (df s3))
    by (eapply number_inputs_same_outside; [|exact F2|exact O3]; reflexivity).
  destruct (amenities_numbers s3) as (s4 & E4 & C4 & O4 & P4).
  rewrite C3 in *. default_flags. rewrite E4. cbn [bind].
  assert (F4 : number_inputs (df s4))
    by (eapply number_inputs_same_outside; [|exact F3|exact O4]; reflexivity).
  destruct (volume_numbers s4 F4) as (s5 & E5 & C5 & O5 & P5).
  rewrite C4 in *. default_flags. rewrite E5. cbn [bind].
  assert (F5 : number_inputs (df s5))
    by (eapply number_inputs_same_outside; [|exact F4|exact O5]; reflexivity).
  destruct (extra_area_numbers s5 F5) as (s6 & E6 & C6 & O6 & P6).
  rewrite C5 in *. default_flags. rewrite E6. cbn [bind].
  assert (F6 : number_inputs (df s6))
    by (eapply number_inputs_same_outside; [|exact F5|exact O6]; reflexivity).
  destruct (interaction_numbers s6 F6) as (s7 & E7 & C7 & O7 & P7 & P7').
  rewrite C6 in *. default_flags. rewrite E7.
  exists s7. split; [reflexivity|].
  change (df s0) with d in *.
  split.
  - unfold W_all.
    repeat (eapply same_outside_trans; [eassumption|]). exact O7.
  - split.
    + intros year Hy. destruct (P1 year Hy) as [Pa Psq].
      split.
      * outside_of O7. outside_of O6. outside_of O5. outside_of O4.
        outside_of O3. outside_of O2. exact Pa.
      * outside_of O7. outside_of O6. outside_of O5. outside_of O4.
        outside_of O3. outside_of O2. apply Psq. reflexivity.
    + intros total a Ht Ha.
      outside_of O7. outside_of O6. outside_of O5. outside_of O4.
      outside_of O3.
      apply (P2 total); outside_of O1; assumption.
    + intros f fmax Hf Hm.
      destruct (P3 f fmax) as [Pf Pl];
        [outside_of O2; outside_of O1; assumption
        |outside_of O2; outside_of O1; assumption|].
      split; outside_of O7; outside_of O6; outside_of O5; outside_of O4;
        assumption.
    + intros g h c Hg Hh Hc.
      outside_of O7. outside_of O6. outside_of O5.
      apply P4; outside_of O3; outside_of O2; outside_of O1; assumption.
    + intros total h Ht Hh.
      outside_of O7. outside_of O6.
      apply P5; outside_of O4; outside_of O3; outside_of O2; outside_of O1;
        assumption.
    + intros e He.
      outside_of O7.
      apply P6; outside_of O5; outside_of O4; outside_of O3; outside_of O2;
        outside_of O1; assumption.
    + intros r f Hr Hf.
      apply P7; outside_of O6; outside_of O5; outside_of O4; outside_of O3;
        outside_of O2; outside_of O1; assumption.
    + intros total year Ht Hy.
      apply P7'.
      * outside_of O6; outside_of O5; outside_of O4; outside_of O3;
          outside_of O2; outside_of O1; assumption.
      * outside_of O6. outside_of O5. outside_of O4. outside_of O3.
        outside_of O2. apply (P1 year Hy).
Qed.

End EngineerAllNumbers.

Lemma nth_error_product (s1 s2 : series) i x y :
  nth_error s1 i = Some (Num x) -> nth_error s2 i = Some (Num y) ->
  nth_error (product s1 s2) i = Some (Num (fmul x y)).
Proof.
  intros H1 H2. unfold product.
  rewrite (nth_error_zip_with _ _ _ _ _ _ H1 H2). reflexivity.
Qed.

Lemma nth_error_ages (year : series) i y :
  nth_error year i = Some (Num y) ->
  nth_error (ages year) i = Some (Num (fsub config.CURRENT_YEAR y)).
Proof.
  intros H. unfold ages. rewrite nth_error_map, H. reflexivity.
Qed.

Lemma length_zip_with {A B C : Type} (f : A -> B -> C) l l' :
  length (zip_with f l l') = Nat.min (length l) (length l').
Proof.
  revert l'. induction l as [|a l IH]; intros [|b l']; cbn; auto.
Qed.

(** X1.  On a frame whose numeric input columns hold numbers (NaN and the
    infinities included; any column may be absent), [engineer_all] with the
    default configuration returns; every column whose label is not a
    derived label is returned as it was, and the only labels it adds are
    derived labels. *)
Theorem engineer_all_keeps_inputs (d : frame) :
  number_inputs d ->
  exists self',
    FeatureEngineer.engineer_all (FeatureEngineer.__init__ d None) = Ok self' /\
    (forall c, mem c derived_labels = false ->
               getitem (FeatureEngineer.df self') c = getitem d c) /\
    (forall c, mem c (columns (FeatureEngineer.df self')) = true ->
               mem c (columns d) = true \/ mem c derived_labels = true).
Proof.
  intros Hnum.
  destruct (engineer_all_numbers d Hnum) as (self' & E & O & _).
  exists self'. split; [exact E|]. split; [exact O|].
  intros c Hc. destruct (mem c derived_labels) eqn:Ew; [right; reflexivity|].
  left. destruct (mem_getitem _ _ Hc) as [s Hs].
  rewrite (O c Ew) in Hs. eapply getitem_mem. exact Hs.
Qed.

Lemma engineer_all_keeps_inputs_witness :
  exists self',
    FeatureEngineer.engineer_all
      (FeatureEngineer.__init__ (sample_frame 0 0 0) None) = Ok self' /\
    getitem (FeatureEngineer.df self') "total_area" = Ok [qcell 0].
Proof.
  destruct (engineer_all_keeps_inputs (sample_frame 0 0 0))
    as (self' & E & O & _).
  - apply finite_number_inputs, finite_inputsb_sound. vm_compute. reflexivity.
  - exists self'. split; [exact E|]. rewrite O; reflexivity.
Defined.

(** X2.  With a numeric [year] column, [engineer_all] returns a frame in
    which, row by row, [building_age] is [CURRENT_YEAR - year] (2024 -
    year), [building_age_squared] is its square and, when [total_area] is
    present, [area_age_interaction] is [total_area * (CURRENT_YEAR -
    year)]. *)
Theorem building_age_rows (d : frame) (year : series) :
  number_inputs d ->
  getitem d "year" = Ok year ->
  exists self' age sq,
    FeatureEngineer.engineer_all (FeatureEngineer.__init__ d None) = Ok self' /\
    getitem (FeatureEngineer.df self') "building_age" = Ok age /\
    getitem (FeatureEngineer.df self') "building_age_squared" = Ok sq /\
    length age = length year /\ length sq = length year /\
    (forall i y, nth_error year i = Some (Num y) ->
       nth_error age i = Some (Num (fsub config.CURRENT_YEAR y)) /\
       nth_error sq i =
       Some (Num (fmul (fsub config.CURRENT_YEAR y)
                       (fsub config.CURRENT_YEAR y)))) /\
    (forall total, getitem d "total_area" = Ok total ->
       exists prod,
         getitem (FeatureEngineer.df self') "area_age_interaction" = Ok prod /\
         forall i a y, nth_error total i = Some (Num a) ->
           nth_error year i = Some (Num y) ->
           nth_error prod i =
           Some (Num (fmul a (fsub config.CURRENT_YEAR y)))).
Proof.
  intros Hnum Hy.
  destruct (engineer_all_numbers d Hnum) as (self' & E & _ & D).
  destruct (ds_building_age _ _ D year Hy) as [Ha Hs].
  exists self', (ages year), (product (ages year) (ages year)).
  split; [exact E|]. split; [exact Ha|]. split; [exact Hs|].
  split; [unfold ages; apply length_map|].
  split.
  { unfold product. rewrite length_zip_with. unfold ages.
    rewrite length_map. apply Nat.min_id. }
  split.
  - intros i y Hi. pose proof (nth_error_ages _ _ _ Hi) as Hage.
    split; [exact Hage|]. apply nth_error_product; exact Hage.
  - intros total Ht. exists (product total (ages year)).
    split; [apply (ds_area_age _ _ D); assumption|].
    intros i a y Hi Hyi. apply nth_error_product; [exact Hi|].
    apply nth_error_ages. exact Hyi.
Qed.

Lemma building_age_rows_witness :
  exists self' age,
    FeatureEngineer.engineer_all
      (FeatureEngineer.__init__ (sample_frame 65 3 10) None) = Ok self' /\
    getitem (FeatureEngineer.df self') "building_age" = Ok age /\
    nth_error age 0 = Some (Num (fsub config.CURRENT_YEAR (Fin 2010))).
Proof.
  destruct (building_age_rows (sample_frame 65 3 10) [qcell 2010])
    as (self' & age & sq & E & Ha & _ & _ & _ & Hrow & _).
  - apply finite_number_inputs, finite_inputsb_sound. vm_compute. reflexivity.
  - reflexivity.
  - exists self', age. split; [exact E|]. split; [exact Ha|].
    apply (Hrow 0%nat (Fin 2010)). reflexivity.
Defined.

(** X3.  The indicator columns of [engineer_all] hold 0 or 1:
    [is_first_floor] is 1 exactly on the rows whose [floor] equals 1,
    [is_last_floor] exactly on the rows whose [floor] equals [floor_max],
    and [has_extra_area] exactly on the rows whose [extra_area] is above 0;
    a missing value (NaN) gives 0. *)
Theorem indicator_rows (d : frame) :
  number_inputs d ->
  exists self',
    FeatureEngineer.engineer_all (FeatureEngineer.__init__ d None) = Ok self' /\
    let d' := FeatureEngineer.df self' in
    (forall floor floor_max,
        getitem d "floor" = Ok floor ->
        getitem d "floor_max" = Ok floor_max ->
        exists first last,
          getitem d' "is_first_floor" = Ok first /\
          getitem d' "is_last_floor" = Ok last /\
          forall i a b,
            nth_error floor i = Some (Num a) ->
            nth_error floor_max i = Some (Num b) ->
            nth_error first i = Some (Num (of_bool (feqb a (Fin 1)))) /\
            nth_error last i = Some (Num (of_bool (feqb a b)))) /\
    (forall extra,
        getitem d "extra_area" = Ok extra ->
        exists flag,
          getitem d' "has_extra_area" = Ok flag /\
          forall i a,
            nth_error extra i = Some (Num a) ->
            nth_error flag i = Some (Num (of_bool (fgtb a (Fin 0))))).
Proof.
  intros Hnum.
  destruct (engineer_all_numbers d Hnum) as (self' & E & _ & D).
  exists self'. split; [exact E|]. cbv zeta. split.
  - intros floor floor_max Hf Hm.
    destruct (ds_floor_flags _ _ D floor floor_max Hf Hm) as [H1 H2].
    eexists. eexists. split; [exact H1|]. split; [exact H2|].
    intros i a b Ha Hb. split.
    + unfold series_eq_scalar. rewrite nth_error_map, Ha. reflexivity.
    + unfold series_eq.
      rewrite (nth_error_zip_with _ _ _ _ _ _ Ha Hb). reflexivity.
  - intros extra He. eexists. split; [apply (ds_has_extra_area _ _ D); exact He|].
    intros i a Ha. unfold positive_flags. rewrite nth_error_map, Ha.
    reflexivity.
Qed.

Lemma indicator_rows_witness :
  exists self' last,
    FeatureEngineer.engineer_all
      (FeatureEngineer.__init__ (sample_frame 65 3 5) None) = Ok self' /\
    getitem (FeatureEngineer.df self') "is_last_floor" = Ok last /\
    nth_error last 0 = Some (Num (of_bool (feqb (Fin 5) (Fin 5)))).
Proof.
  destruct (indicator_rows (sample_frame 65 3 5)) as (self' & E & Hfl & _).
  - apply finite_number_inputs, finite_inputsb_sound. vm_compute. reflexivity.
  - destruct (Hfl [qcell 5] [qcell 5] eq_refl eq_refl)
      as (first & last & _ & Hl & Hrow).
    exists self', last. split; [exact E|]. split; [exact Hl|].
    apply (Hrow 0%nat (Fin 5) (Fin 5)); reflexivity.
Defined.

(** X4.  When the three amenity columns are present, [amenities_score]
    counts, row by row, how many of [gas], [hot_water] and
    [central_heating] are the string ['Yes'] (any other value, a number or
    a missing value counts for nothing): an integer from 0 to 3. *)
Theorem amenities_score_rows (d : frame) (gas hot_water central_heating : series) :
  number_inputs d ->
  getitem d "gas" = Ok gas ->
  getitem d "hot_water" = Ok hot_water ->
  getitem d "central_heating" = Ok central_heating ->
  exists self' score,
    FeatureEngineer.engineer_all (FeatureEngineer.__init__ d None) = Ok self' /\
    getitem (FeatureEngineer.df self') "amenities_score" = Ok score /\
    forall i g h c,
      nth_error gas i = Some g ->
      nth_error hot_water i = Some h ->
      nth_error central_heating i = Some c ->
      exists q,
        nth_error score i = Some (Num (Fin q)) /\
        (q == inject_Z (Z.of_nat (yes_count [g; h; c])))%Q /\
        (yes_count [g; h; c] <= 3)%nat.
Proof.
  intros Hnum Hg Hh Hc.
  destruct (engineer_all_numbers d Hnum) as (self' & E & _ & D).
  exists self', (flags_sum (yes_flags gas) (yes_flags hot_water)
                   (yes_flags central_heating)).
  split; [exact E|].
  split; [apply (ds_amenities_score _ _ D); assumption|].
  intros i g h c Hig Hih Hic.
  assert (Y : forall s a, nth_error s i = Some a ->
            nth_error (yes_flags s) i =
            Some (Num (of_bool (cell_eqb a (Str "Yes"))))).
  { intros s a Ha. unfold yes_flags, series_eq_scalar.
    rewrite nth_error_map, Ha. reflexivity. }
  unfold flags_sum.
  assert (G0 : nth_error (map (fun a => Num (fadd (Fin 0) (val a)))
                            (yes_flags gas)) i =
               Some (Num (fadd (Fin 0) (of_bool (cell_eqb g (Str "Yes")))))).
  { rewrite nth_error_map, (Y _ _ Hig). reflexivity. }
  pose proof (nth_error_zip_with
                (fun a b => Num (fadd (val a) (val b))) _ _ _ _ _
                G0 (Y _ _ Hih)) as G1.
  pose proof (nth_error_zip_with
                (fun a b => Num (fadd (val a) (val b))) _ _ _ _ _
                G1 (Y _ _ Hic)) as G2.
  rewrite G2. unfold yes_count. cbn [filter val].
  destruct (cell_eqb g (Str "Yes")), (cell_eqb h (Str "Yes")),
    (cell_eqb c (Str "Yes")); cbn [of_bool fadd length];
    eexists; (split; [reflexivity|]); split; try reflexivity; lia.
Qed.

Lemma amenities_score_rows_witness :
  exists self' score q,
    FeatureEngineer.engineer_all
      (FeatureEngineer.__init__ training_frame None) = Ok self' /\
    getitem (FeatureEngineer.df self') "amenities_score" = Ok score /\
    nth_error score 1 = Some (Num (Fin q)) /\ (q == 1)%Q.
Proof.
  destruct (amenities_score_rows training_frame
              [Str "Yes"; Str "No"] [Str "Yes"; Str "Yes"]
              [Str "Yes"; Str "No"])
    as (self' & score & E & Hs & Hrow).
  - apply finite_number_inputs, finite_inputsb_sound. vm_compute. reflexivity.
  - reflexivity.
  - reflexivity.
  - reflexivity.
  - destruct (Hrow 1%nat (Str "No") (Str "Yes") (Str "No")
                eq_refl eq_refl eq_refl) as (q & Hq & Hv & _).
    exists self', score, q. split; [exact E|]. split; [exact Hs|].
    split; [exact Hq|exact Hv].
Defined.

(** X5.  [engineer_all] computes, row by row, [volume] as [total_area *
    ceil_height] and [rooms_floor_interaction] as [rooms_count * floor],
    and copies [other_area] to [living_area] when [total_area] is present. *)
Theorem product_rows (d : frame) :
  number_inputs d ->
  exists self',
    FeatureEngineer.engineer_all (FeatureEngineer.__init__ d None) = Ok self' /\
    let d' := FeatureEngineer.df self' in
    (forall total height,
        getitem d "total_area" = Ok total ->
        getitem d "ceil_height" = Ok height ->
        exists volume,
          getitem d' "volume" = Ok volume /\
          forall i a h,
            nth_error total i = Some (Num a) ->
            nth_error height i = Some (Num h) ->
            nth_error volume i = Some (Num (fmul a h))) /\
    (forall rooms floor,
        getitem d "rooms_count" = Ok rooms ->
        getitem d "floor" = Ok floor ->
        exists prod,
          getitem d' "rooms_floor_interaction" = Ok prod /\
          forall i r f,
            nth_error rooms i = Some (Num r) ->
            nth_error floor i = Some (Num f) ->
            nth_error prod i = Some (Num (fmul r f))) /\
    (forall total other,
        getitem d "total_area" = Ok total ->
        getitem d "other_area" = Ok other ->
        getitem d' "living_area" = Ok other).
Proof.
  intros Hnum.
  destruct (engineer_all_numbers d Hnum) as (self' & E & _ & D).
  exists self'. split; [exact E|]. cbv zeta. split; [|split].
  - intros total height Ht Hh. eexists.
    split; [apply (ds_volume _ _ D); eassumption|].
    intros i a h Ha Hhi. apply nth_error_product; assumption.
  - intros rooms floor Hr Hf. eexists.
    split; [apply (ds_rooms_floor _ _ D); eassumption|].
    intros i r f Hri Hfi. apply nth_error_product; assumption.
  - intros total other Ht Ho. apply (ds_living_area _ _ D total); assumption.
Qed.

Lemma product_rows_witness :
  exists self' volume,
    FeatureEngineer.engineer_all
      (FeatureEngineer.__init__ (sample_frame 65 3 10) None) = Ok self' /\
    getitem (FeatureEngineer.df self') "volume" = Ok volume /\
    nth_error volume 0 = Some (Num (fmul (Fin 65) (Fin (27 # 10)))).
Proof.
  destruct (product_rows (sample_frame 65 3 10)) as (self' & E & Hv & _).
  - apply finite_number_inputs, finite_inputsb_sound. vm_compute. reflexivity.
  - destruct (Hv [qcell 65] [qcell (27 # 10)] eq_refl eq_refl)
      as (volume & Hvol & Hrow).
    exists self', volume. split; [exact E|]. split; [exact Hvol|].
    apply (Hrow 0%nat (Fin 65) (Fin (27 # 10))); reflexivity.
Defined.

(* ====================================================================== *)
(** * [DataValidator] *)
(* ====================================================================== *)

Section Validator.
Import DataValidator.

(** A loop whose body only appends to the list of issues. *)
Lemma foldM_appends {A : Type} (step : list issue -> A -> result (list issue))
      (l : list A) :
  (forall issues x,
      step issues x = match step [] x with
                      | Ok new => Ok (issues ++ new)
                      | Raise e => Raise e
                      end) ->
  forall issues,
    foldM step l issues = match foldM step l [] with
                          | Ok new => Ok (issues ++ new)
                          | Raise e => Raise e
                          end.
Proof.
  intros Hstep. induction l as [|x l IH]; intros issues; cbn [foldM].
  - rewrite app_nil_r. reflexivity.
  - rewrite (Hstep issues x).
    destruct (step [] x) as [new|e]; cbn [bind]; [|reflexivity].
    rewrite (IH (issues ++ new)), (IH new).
    destruct (foldM step l []) as [new'|e]; [|reflexivity].
    rewrite app_assoc. reflexivity.
Qed.

Lemma check_data_types_appends (df : frame) (issues : list issue) :
  _check_data_types df issues =
  match _check_data_types df [] with
  | Ok new => Ok (issues ++ new)
  | Raise e => Raise e
  end.
Proof.
  unfold _check_data_types.
  match goal with
  | |- context [foldM ?f config.NUMERICAL_FEATURES issues] =>
      rewrite (foldM_appends f config.NUMERICAL_FEATURES) with (issues := issues)
  end.
  2:{ intros acc x. destruct (mem x (columns df)); [|rewrite app_nil_r; reflexivity].
      destruct (getitem df x) as [s|e]; cbn [bind]; [|reflexivity].
      destruct (negb (is_numeric_dtype s)); [reflexivity|].
      rewrite app_nil_r. reflexivity. }
  match goal with
  | |- context [foldM ?f config.NUMERICAL_FEATURES []] =>
      destruct (foldM f config.NUMERICAL_FEATURES []) as [n1|e]; cbn [bind];
        [|reflexivity]
  end.
  match goal with
  | |- foldM ?f ?l (issues ++ n1) = _ =>
      assert (H : forall acc, foldM f l acc =
                             match foldM f l [] with
                             | Ok new => Ok (acc ++ new)
                             | Raise e => Raise e
                             end)
  end.
  { apply foldM_appends.
    intros acc x. destruct (mem x (columns df)); [|rewrite app_nil_r; reflexivity].
    destruct (getitem df x) as [s|e]; cbn [bind]; [|reflexivity].
    destruct (is_numeric_dtype s); [reflexivity|].
    rewrite app_nil_r. reflexivity. }
  rewrite (H (issues ++ n1)), (H n1).
  match goal with
  | |- context [foldM ?f config.CATEGORICAL_FEATURES []] =>
      destruct (foldM f config.CATEGORICAL_FEATURES []) as [n2|e];
        [|reflexivity]
  end.
  rewrite app_assoc. reflexivity.
Qed.

Lemma check_value_ranges_appends (df : frame) (issues : list issue) :
  _check_value_ranges df issues =
  match _check_value_ranges df [] with
  | Ok new => Ok (issues ++ new)
  | Raise e => Raise e
  end.
Proof.
  unfold _check_value_ranges. apply foldM_appends.
  intros acc [[[col lo] hi] required].
  destruct (negb (mem col (columns df))).
  - destruct required; [reflexivity|rewrite app_nil_r; reflexivity].
  - destruct (getitem df col) as [s|e]; cbn [bind]; [|reflexivity].
    destruct (count_where _ s) as [below|e]; cbn [bind]; [|reflexivity].
    destruct (count_where _ s) as [above|e]; cbn [bind]; [|reflexivity].
    destruct (Nat.ltb 0 below), (Nat.ltb 0 above); cbn [app];
      rewrite ?app_nil_r, <- ?app_assoc; reflexivity.
Qed.

Lemma foldM_appends_parts {A : Type}
      (step : list issue -> A -> result (list issue)) (l : list A) :
  (forall issues x,
      step issues x = match step [] x with
                      | Ok new => Ok (issues ++ new)
                      | Raise e => Raise e
                      end) ->
  forall out, foldM step l [] = Ok out ->
  forall x, In x l -> exists new, step [] x = Ok new /\ incl new out.
Proof.
  intros Hstep. induction l as [|y l IH]; intros out E x Hx; [destruct Hx|].
  cbn [foldM] in E.
  destruct (step [] y) as [n|e] eqn:Ey; cbn [bind] in E; [|discriminate].
  rewrite (foldM_appends step l Hstep n) in E.
  destruct (foldM step l []) as [n'|e] eqn:El; [|discriminate].
  injection E as <-.
  destruct Hx as [<-|Hx].
  - exists n. split; [exact Ey|]. apply incl_appl, incl_refl.
  - destruct (IH n' eq_refl x Hx) as (new & Hn & Hi).
    exists new. split; [exact Hn|]. apply incl_appr. exact Hi.
Qed.

Lemma rules_required (col : string) (lo hi : Q) (required : bool) :
  In (col, lo, hi, required) config.VALIDATION_RULES -> required = true.
Proof.
  unfold config.VALIDATION_RULES. cbn [In].
  intros H. repeat (destruct H as [H|H]; [injection H as _ _ _ <-; reflexivity|]).
  destruct H.
Qed.

Lemma getitem_In (df : frame) (c : string) (s : series) :
  getitem df c = Ok s -> In (c, s) df.
Proof.
  induction df as [|[k v] df IH]; cbn [getitem]; [discriminate|].
  destruct (String.eqb c k) eqn:E.
  - apply String.eqb_eq in E. subst k. intros [= ->]. left. reflexivity.
  - intros H. right. apply IH. exact H.
Qed.

Lemma count_true_zero (l : list bool) :
  count_true l = 0%nat -> forall b, In b l -> b = false.
Proof.
  unfold count_true. induction l as [|x l IH]; cbn [filter]; intros H b Hb;
    [destruct Hb|].
  destruct x; cbn [length] in H; [discriminate|].
  destruct Hb as [<-|Hb]; [reflexivity|]. apply IH; assumption.
Qed.

Lemma count_where_zero (f : cell -> result bool) (s : series) :
  count_where f s = Ok 0%nat -> forall a, In a s -> f a = Ok false.
Proof.
  unfold count_where.
  destruct (mapM f s) as [flags|e] eqn:E; cbn [bind]; [|discriminate].
  intros [= H] a Ha.
  pose proof (count_true_zero flags H) as Hall. clear H.
  revert flags E Hall. induction s as [|x s IH]; intros flags E Hall;
    [destruct Ha|].
  cbn [mapM] in E.
  destruct (f x) as [b|e] eqn:Ex; cbn [bind] in E; [|discriminate].
  destruct (mapM f s) as [bs|e]; cbn [bind] in E; [|discriminate].
  injection E as <-.
  destruct Ha as [<-|Ha].
  - rewrite Ex. f_equal. apply Hall. left. reflexivity.
  - apply (IH Ha bs eq_refl). intros b' Hb'. apply Hall. right. exact Hb'.
Qed.

Lemma count_null_zero (s : series) :
  count_null s = 0%nat -> forall a, In a s -> isnull a = false.
Proof.
  unfold count_null. induction s as [|x s IH]; cbn [filter]; intros H a Ha;
    [destruct Ha|].
  destruct (isnull x) eqn:Ex; cbn [length] in H; [discriminate|].
  destruct Ha as [<-|Ha]; [exact Ex|]. apply IH; assumption.
Qed.

Lemma ltb_zero_false (n : nat) : Nat.ltb 0 n = false -> n = 0%nat.
Proof. destruct n; [reflexivity|discriminate]. Qed.

Lemma range_step_appends (df : frame) (acc : list issue)
      (rule : string * Q * Q * bool) :
  (let '(col, lo, hi, required) := rule in
   if negb (mem col (columns df)) then
     if (required : bool)
     then Ok (acc ++ [RequiredColumnMissing col]) else Ok acc
   else
     s <- getitem df col ;;
     below <- count_where (fun a => cell_lt a (Num (Fin lo))) s ;;
     let issues :=
       if Nat.ltb 0 below
       then acc ++ [BelowMinimum col below] else acc in
     s <- getitem df col ;;
     above <- count_where (fun a => cell_gt a (Num (Fin hi))) s ;;
     Ok (if Nat.ltb 0 above
         then issues ++ [AboveMaximum col above] else issues)) =
  match (let '(col, lo, hi, required) := rule in
   if negb (mem col (columns df)) then
     if (required : bool)
     then Ok ([] ++ [RequiredColumnMissing col]) else Ok []
   else
     s <- getitem df col ;;
     below <- count_where (fun a => cell_lt a (Num (Fin lo))) s ;;
     let issues :=
       if Nat.ltb 0 below
       then [] ++ [BelowMinimum col below] else [] in
     s <- getitem df col ;;
     above <- count_where (fun a => cell_gt a (Num (Fin hi))) s ;;
     Ok (if Nat.ltb 0 above
         then issues ++ [AboveMaximum col above] else issues)) with
  | Ok new => Ok (acc ++ new)
  | Raise e => Raise e
  end.
Proof.
  destruct rule as [[[col lo] hi] required].
  destruct (negb (mem col (columns df))).
  - destruct required; [reflexivity|rewrite app_nil_r; reflexivity].
  - destruct (getitem df col) as [s|e]; cbn [bind]; [|reflexivity].
    destruct (count_where _ s) as [below|e]; cbn [bind]; [|reflexivity].
    destruct (count_where _ s) as [above|e]; cbn [bind]; [|reflexivity].
    destruct (Nat.ltb 0 below), (Nat.ltb 0 above); cbn [app];
      rewrite ?app_nil_r, <- ?app_assoc; reflexivity.
Qed.

(** The issues of a fresh validator, check by check. *)
Lemma validate_all_parts (df : frame) (valid : bool) (issues : list issue) :
  validate_all df [] = Ok (valid, issues) ->
  exists n1 n2,
    _check_data_types df [] = Ok n1 /\
    _check_value_ranges df [] = Ok n2 /\
    valid = Nat.eqb (length issues) 0 /\
    issues = _check_missing_values df [] ++ n1 ++ n2 ++
             _check_duplicates df [].
Proof.
  unfold validate_all. intros E.
  rewrite (check_data_types_appends df (_check_missing_values df [])) in E.
  destruct (_check_data_types df []) as [n1|e]; cbn [bind] in E;
    [|discriminate].
  rewrite (check_value_ranges_appends df _) in E.
  destruct (_check_value_ranges df []) as [n2|e]; cbn [bind] in E;
    [|discriminate].
  exists n1, n2. split; [reflexivity|]. split; [reflexivity|].
  injection E as <- <-. split; [reflexivity|].
  unfold _check_duplicates.
  destruct (Nat.ltb 0 (count_true (duplicated df))); cbn [app];
    rewrite <- ?app_assoc, ?app_nil_r; reflexivity.
Qed.

End Validator.

(** X6.  [validate_all] never resets [validation_issues]: on a validator
    that already holds issues it returns them followed by the issues a
    fresh validator finds on the same frame, and reports the frame valid
    only when both lists are empty. *)
Theorem validate_all_appends (df : frame) (issues : list DataValidator.issue) :
  DataValidator.validate_all df issues =
  match DataValidator.validate_all df [] with
  | Ok (valid, new) => Ok (valid && Nat.eqb (length issues) 0, issues ++ new)
  | Raise e => Raise e
  end.
Proof.
  unfold DataValidator.validate_all.
  unfold DataValidator._check_missing_values at 1 2. cbn [app].
  set (m := flat_map _ df).
  rewrite (check_data_types_appends df (issues ++ m)).
  rewrite (check_data_types_appends df m).
  destruct (DataValidator._check_data_types df []) as [n1|e]; cbn [bind];
    [|reflexivity].
  rewrite (check_value_ranges_appends df ((issues ++ m) ++ n1)).
  rewrite (check_value_ranges_appends df (m ++ n1)).
  destruct (DataValidator._check_value_ranges df []) as [n2|e]; cbn [bind];
    [|reflexivity].
  unfold DataValidator._check_duplicates.
  destruct (Nat.ltb 0 (count_true (duplicated df))).
  - f_equal. f_equal.
    + rewrite <- !app_assoc. rewrite !length_app. cbn [length].
      destruct issues; cbn [length]; [|rewrite andb_false_r; reflexivity].
      rewrite andb_true_r. reflexivity.
    + rewrite <- !app_assoc. reflexivity.
  - f_equal. f_equal.
    + rewrite <- !app_assoc. rewrite !length_app.
      destruct issues; cbn [length Nat.add Nat.eqb];
        [rewrite andb_true_r; reflexivity|rewrite andb_false_r; reflexivity].
    + rewrite <- !app_assoc. reflexivity.
Qed.

(** X7.  Each column named by [VALIDATION_RULES] (price, total_area,
    rooms_count, year, floor, ceil_height) is required: when one is absent
    from the frame, a [validate_all] that returns reports the frame invalid
    and lists the missing column among the issues. *)
Theorem missing_required_column
        (df : frame) (col : string) (valid : bool)
        (issues : list DataValidator.issue) :
  In col rule_columns ->
  mem col (columns df) = false ->
  DataValidator.validate_all df [] = Ok (valid, issues) ->
  valid = false /\ In (DataValidator.RequiredColumnMissing col) issues.
Proof.
  intros Hcol Hmem E.
  destruct (validate_all_parts df valid issues E) as (n1 & n2 & _ & E2 & Hv & Hi).
  assert (Hin : In (DataValidator.RequiredColumnMissing col) issues).
  { unfold rule_columns in Hcol. apply in_map_iff in Hcol.
    destruct Hcol as ([[[c lo] hi] required] & Hc & Hrule).
    cbn [fst] in Hc. subst c.
    pose proof (rules_required _ _ _ _ Hrule) as ->.
    unfold DataValidator._check_value_ranges in E2.
    destruct (foldM_appends_parts _ _ (range_step_appends df) n2 E2 _ Hrule)
      as (new & Hnew & Hincl).
    cbv beta iota in Hnew. rewrite Hmem in Hnew. cbn [negb app] in Hnew.
    injection Hnew as <-.
    rewrite Hi. apply in_or_app. right. apply in_or_app. right.
    apply in_or_app. left. apply Hincl. left. reflexivity. }
  split; [|exact Hin].
  rewrite Hv. destruct issues; [destruct Hin|reflexivity].
Qed.

Lemma missing_required_column_witness :
  exists issues,
    DataValidator.validate_all (sample_frame 65 3 10) [] = Ok (false, issues) /\
    In (DataValidator.RequiredColumnMissing "price") issues.
Proof.
  eexists. split; [vm_compute; reflexivity|].
  apply (missing_required_column (sample_frame 65 3 10) "price" false).
  - vm_compute. left. reflexivity.
  - reflexivity.
  - vm_compute. reflexivity.
Defined.

(** X8.  When [validate_all] on a fresh validator reports the frame valid,
    no issue is listed, each of the six columns of [VALIDATION_RULES] is
    present and holds only finite numbers between its minimum and its
    maximum (both included), no column has a missing value and no row
    repeats an earlier one. *)
Theorem valid_frame_in_range (df : frame) (issues : list DataValidator.issue) :
  DataValidator.validate_all df [] = Ok (true, issues) ->
  issues = [] /\
  (forall col lo hi required,
      In (col, lo, hi, required) config.VALIDATION_RULES ->
      exists s, getitem df col = Ok s /\
                forall a, In a s ->
                          exists q, a = Num (Fin q) /\ (lo <= q /\ q <= hi)%Q) /\
  (forall c s, In (c, s) df -> count_null s = 0%nat) /\
  count_true (duplicated df) = 0%nat.
Proof.
  intros E.
  destruct (validate_all_parts df true issues E) as (n1 & n2 & _ & E2 & Hv & Hi).
  assert (Hnil : issues = []).
  { destruct issues; [reflexivity|discriminate Hv]. }
  rewrite Hnil in Hi. symmetry in Hi.
  apply app_eq_nil in Hi. destruct Hi as [Hm Hi].
  apply app_eq_nil in Hi. destruct Hi as [_ Hi].
  apply app_eq_nil in Hi. destruct Hi as [Hn2 Hd]. subst n2.
  assert (Hnull : forall c s, In (c, s) df -> count_null s = 0%nat).
  { intros c s Hin.
    destruct (count_null s) as [|k] eqn:Ek; [reflexivity|].
    exfalso.
    assert (Hx : In (DataValidator.MissingValues c (S k))
                   (DataValidator._check_missing_values df [])).
    { unfold DataValidator._check_missing_values. cbn [app].
      apply in_flat_map. exists (c, s). split; [exact Hin|].
      cbn [fst snd]. rewrite Ek. left. reflexivity. }
    rewrite Hm in Hx. destruct Hx. }
  split; [exact Hnil|]. split; [|split; [exact Hnull|]].
  - intros col lo hi required Hrule.
    pose proof (rules_required _ _ _ _ Hrule) as ->.
    unfold DataValidator._check_value_ranges in E2.
    destruct (foldM_appends_parts _ _ (range_step_appends df) [] E2 _ Hrule)
      as (new & Hnew & Hincl).
    assert (new = []) as ->.
    { destruct new as [|x new]; [reflexivity|].
      destruct (Hincl x (or_introl eq_refl)). }
    cbv beta iota in Hnew.
    destruct (mem col (columns df)) eqn:Hmem; cbn [negb] in Hnew;
      [|discriminate Hnew].
    destruct (getitem df col) as [s|e] eqn:Hs; cbn [bind] in Hnew;
      [|discriminate].
    destruct (DataValidator.count_where _ s) as [below|e] eqn:Eb;
      cbn [bind] in Hnew; [|discriminate].
    destruct (DataValidator.count_where _ s) as [above|e] eqn:Ea in Hnew;
      cbn [bind] in Hnew; [|discriminate].
    destruct (Nat.ltb 0 below) eqn:Lb;
      [destruct (Nat.ltb 0 above); discriminate Hnew|].
    destruct (Nat.ltb 0 above) eqn:La; [discriminate Hnew|].
    apply ltb_zero_false in Lb. apply ltb_zero_false in La. subst below above.
    exists s. split; [reflexivity|].
    intros a Ha.
    pose proof (count_where_zero _ _ Eb a Ha) as Hlt.
    pose proof (count_where_zero _ _ Ea a Ha) as Hgt.
    pose proof (count_null_zero s (Hnull col s (getitem_In _ _ _ Hs)) a Ha)
      as Hnn.
    destruct a as [[q|neg|]|t]; try discriminate.
    + exists q. split; [reflexivity|].
      cbn [cell_lt cell_gt fgtb fltb fleb] in Hlt, Hgt.
      injection Hlt as Hlt. injection Hgt as Hgt.
      apply negb_false_iff in Hlt. apply negb_false_iff in Hgt.
      split; apply Qle_bool_iff; assumption.
    + cbn [cell_lt cell_gt fgtb fltb fleb] in Hlt, Hgt.
      destruct neg; cbn in Hlt, Hgt; discriminate.
  - unfold DataValidator._check_duplicates in Hd. cbn [app] in Hd.
    destruct (Nat.ltb 0 (count_true (duplicated df))) eqn:L; [discriminate|].
    apply ltb_zero_false. exact L.
Qed.

Lemma valid_frame_in_range_witness :
  DataValidator.validate_all training_frame [] = Ok (true, []) /\
  count_true (duplicated training_frame) = 0%nat.
Proof.
  assert (E : DataValidator.validate_all training_frame [] = Ok (true, []))
    by (vm_compute; reflexivity).
  split; [exact E|].
  apply (valid_frame_in_range training_frame [] E).
Defined.

(* ====================================================================== *)
(** * [DataCleaner] *)
(* ====================================================================== *)

Lemma foldM_preserves {A S : Type} (R : S -> S -> Prop)
      (step : S -> A -> result S) (l : list A) :
  (forall s, R s s) ->
  (forall s1 s2 s3, R s1 s2 -> R s2 s3 -> R s1 s3) ->
  (forall s x s', step s x = Ok s' -> R s s') ->
  forall s s', foldM step l s = Ok s' -> R s s'.
Proof.
  intros Hrefl Htrans Hstep. induction l as [|x l IH]; intros s s';
    cbn [foldM].
  - intros [= <-]. apply Hrefl.
  - destruct (step s x) as [s1|e] eqn:E; cbn [bind]; [|discriminate].
    intros H. eapply Htrans; [eapply Hstep; exact E|apply IH; exact H].
Qed.

Lemma shape_columns (f g : frame) : shape f = shape g -> columns f = columns g.
Proof.
  unfold shape, columns. intros H.
  apply (f_equal (map fst)) in H. rewrite !map_map in H. exact H.
Qed.

Lemma shape_n_rows (f g : frame) : shape f = shape g -> n_rows f = n_rows g.
Proof.
  unfold shape. destruct f as [|[c s] f], g as [|[c' s'] g]; cbn;
    congruence.
Qed.

Lemma shape_setitem (df : frame) (c : string) (s s0 : series) :
  getitem df c = Ok s0 -> length s = length s0 ->
  shape (setitem df c s) = shape df.
Proof.
  unfold shape. induction df as [|[k v] df IH]; cbn [getitem setitem];
    [discriminate|].
  destruct (String.eqb c k).
  - intros [= <-] Hl. cbn [map fst snd]. rewrite Hl. reflexivity.
  - intros H Hl. cbn [map fst snd]. rewrite (IH H Hl). reflexivity.
Qed.

Lemma getitem_setitem_other (df : frame) (c c' : string) (s : series) :
  String.eqb c' c = false -> getitem (setitem df c s) c' = getitem df c'.
Proof. intros H. rewrite getitem_setitem, H. reflexivity. Qed.

Lemma getitem_filter_rows (keep : list bool) (df : frame) (c : string) :
  getitem (filter_rows keep df) c =
  match getitem df c with
  | Ok s => Ok (filter_by keep s)
  | Raise e => Raise e
  end.
Proof.
  unfold filter_rows. induction df as [|[k v] df IH]; cbn [map getitem fst snd];
    [reflexivity|].
  destruct (String.eqb c k); [reflexivity|exact IH].
Qed.

Lemma columns_filter_rows (keep : list bool) (df : frame) :
  columns (filter_rows keep df) = columns df.
Proof.
  unfold filter_rows, columns. rewrite map_map. reflexivity.
Qed.

Lemma length_filter_by {A : Type} (keep : list bool) (l : list A) :
  length (filter_by keep l) <= length l.
Proof.
  revert l. induction keep as [|k keep IH]; intros [|a l]; cbn; try lia.
  destruct k; cbn; specialize (IH l); lia.
Qed.

Lemma n_rows_filter_rows (keep : list bool) (df : frame) :
  n_rows (filter_rows keep df) <= n_rows df.
Proof.
  destruct df as [|[c s] df]; cbn; [lia|apply length_filter_by].
Qed.

Lemma mem_neq (c col : string) (l : list string) :
  mem c l = false -> mem col l = true -> String.eqb c col = false.
Proof.
  intros Hc Hcol. destruct (String.eqb c col) eqn:E; [|reflexivity].
  apply String.eqb_eq in E. subst. congruence.
Qed.

Lemma mem_feature_labels (c : string) :
  mem c feature_labels =
  mem c config.NUMERICAL_FEATURES || mem c config.CATEGORICAL_FEATURES.
Proof. apply mem_app. Qed.

Section Cleaner.
Variable lib : Pandas.
Import DataCleaner.

Lemma kept_by_refl (f : frame) : kept_by f f.
Proof. split; reflexivity. Qed.

Lemma kept_by_trans (f g h : frame) : kept_by f g -> kept_by g h -> kept_by f h.
Proof.
  intros [S1 G1] [S2 G2]. split; [congruence|].
  intros c Hc. rewrite G2, G1 by exact Hc. reflexivity.
Qed.

Lemma fill_column_kept (df : frame) (col : string) (v : cell) (df' : frame) :
  mem col feature_labels = true ->
  fill_column df col v = Ok df' -> kept_by df df'.
Proof.
  unfold fill_column. intros Hcol.
  destruct (getitem df col) as [s|e] eqn:Hs; cbn [bind]; [|discriminate].
  intros [= <-]. split.
  - apply (shape_setitem _ _ _ s Hs). unfold fillna. apply length_map.
  - intros c Hc. apply getitem_setitem_other. eapply mem_neq; eassumption.
Qed.

Lemma handle_missing_values_kept (df df' : frame) :
  _handle_missing_values lib df = Ok df' -> kept_by df df'.
Proof.
  unfold _handle_missing_values.
  destruct (Nat.eqb (length (cols_with_missing df)) 0).
  { intros [= <-]. apply kept_by_refl. }
  apply foldM_preserves; [apply kept_by_refl|apply kept_by_trans|].
  intros f col f'.
  destruct (mem col config.NUMERICAL_FEATURES) eqn:Hn.
  - unfold config.MISSING_VALUE_STRATEGY_numerical. eqb_strings.
    destruct (getitem f col) as [s|e]; cbn [bind]; [|discriminate].
    destruct (series_median lib s) as [m|e]; cbn [bind]; [|discriminate].
    apply fill_column_kept. rewrite mem_feature_labels, Hn. reflexivity.
  - destruct (mem col config.CATEGORICAL_FEATURES) eqn:Hc.
    + unfold config.MISSING_VALUE_STRATEGY_categorical. eqb_strings.
      destruct (getitem f col) as [s|e]; cbn [bind]; [|discriminate].
      destruct (series_mode lib s) as [|v vs]; [discriminate|].
      apply fill_column_kept. rewrite mem_feature_labels, Hn, Hc. reflexivity.
    + intros [= <-]. apply kept_by_refl.
Qed.

(** The loops of [_fix_data_types]: each converts the listed columns that
    are present and never raises. *)
Lemma convert_loop (g : series -> series) (l : list string) :
  (forall s, length (g s) = length s) ->
  NoDup l ->
  forall df, exists df',
    foldM (fun df col =>
             if mem col (columns df) then
               s <- getitem df col ;; Ok (setitem df col (g s))
             else Ok df) l df = Ok df' /\
    shape df' = shape df /\
    forall c, getitem df' c =
              match getitem df c with
              | Ok s => Ok (if mem c l then g s else s)
              | Raise e => Raise e
              end.
Proof.
  intros Hg. induction l as [|col l IH]; intros Hnd df; cbn [foldM].
  - exists df. split; [reflexivity|]. split; [reflexivity|].
    intros c. destruct (getitem df c); reflexivity.
  - inversion Hnd as [|? ? Hnot Hnd']; subst.
    destruct (mem col (columns df)) eqn:Hm.
    + destruct (mem_getitem _ _ Hm) as [s Hs]. rewrite Hs. cbn [bind].
      destruct (IH Hnd' (setitem df col (g s))) as (df' & E & Sh & G).
      exists df'. split; [exact E|]. split.
      * rewrite Sh. apply (shape_setitem _ _ _ s Hs). apply Hg.
      * intros c. rewrite G, getitem_setitem, mem_cons.
        destruct (String.eqb c col) eqn:Ec.
        -- apply String.eqb_eq in Ec. subst c. rewrite Hs.
           assert (mem col l = false) as ->.
           { destruct (mem col l) eqn:Em; [|reflexivity].
             apply mem_In in Em. contradiction. }
           reflexivity.
        -- cbn [orb]. reflexivity.
    + destruct (IH Hnd' df) as (df' & E & Sh & G).
      exists df'. split; [exact E|]. split; [exact Sh|].
      intros c. rewrite G, mem_cons.
      destruct (String.eqb c col) eqn:Ec; [|reflexivity].
      apply String.eqb_eq in Ec. subst c.
      rewrite (not_mem_getitem _ _ Hm). reflexivity.
Qed.

Lemma NoDup_numerical : NoDup config.NUMERICAL_FEATURES.
Proof.
  unfold config.NUMERICAL_FEATURES.
  repeat (constructor; [cbn; intuition discriminate|]). constructor.
Qed.

Lemma NoDup_categorical : NoDup config.CATEGORICAL_FEATURES.
Proof.
  unfold config.CATEGORICAL_FEATURES.
  repeat (constructor; [cbn; intuition discriminate|]). constructor.
Qed.

Lemma numerical_not_categorical (c : string) :
  mem c config.NUMERICAL_FEATURES = true ->
  mem c config.CATEGORICAL_FEATURES = false.
Proof.
  intros H. apply mem_In in H. unfold config.NUMERICAL_FEATURES in H.
  cbn [In] in H.
  repeat (destruct H as [<-|H]; [reflexivity|]). destruct H.
Qed.

Lemma fix_data_types_spec (df : frame) :
  exists df',
    _fix_data_types lib df = Ok df' /\
    shape df' = shape df /\
    forall c, getitem df' c =
              match getitem df c with
              | Ok s =>
                  Ok (if mem c config.NUMERICAL_FEATURES then to_numeric lib s
                      else if mem c config.CATEGORICAL_FEATURES
                           then astype_str lib s else s)
              | Raise e => Raise e
              end.
Proof.
  unfold _fix_data_types.
  destruct (convert_loop (to_numeric lib) config.NUMERICAL_FEATURES
              (fun s => length_map _ s) NoDup_numerical df)
    as (d1 & E1 & S1 & G1).
  rewrite E1. cbn [bind].
  destruct (convert_loop (astype_str lib) config.CATEGORICAL_FEATURES
              (fun s => length_map _ s) NoDup_categorical d1)
    as (d2 & E2 & S2 & G2).
  exists d2. split; [exact E2|]. split; [congruence|].
  intros c. rewrite G2, G1.
  destruct (getitem df c) as [s|e]; [|reflexivity].
  destruct (mem c config.NUMERICAL_FEATURES) eqn:Hn.
  - rewrite (numerical_not_categorical c Hn). reflexivity.
  - reflexivity.
Qed.

Lemma remove_duplicates_spec (df : frame) :
  _remove_duplicates df = df \/
  _remove_duplicates df = filter_rows (map negb (duplicated df)) df.
Proof.
  unfold _remove_duplicates, drop_duplicates.
  destruct (Nat.ltb 0 (count_true (duplicated df))); [right|left]; reflexivity.
Qed.

Lemma handle_outliers_off (df : frame) : _handle_outliers lib df = Ok df.
Proof. reflexivity. Qed.

End Cleaner.

(** X9.  [DataCleaner.clean] keeps the schema: the frame it returns has the
    columns of its input, with the same labels in the same order, and no
    more rows. *)
Theorem clean_keeps_schema (lib : Pandas) (df f : frame) :
  DataCleaner.clean lib df = Ok f ->
  columns f = columns df /\ n_rows f <= n_rows df.
Proof.
  unfold DataCleaner.clean. intros E.
  destruct (DataCleaner._handle_missing_values lib df) as [d1|e] eqn:E1;
    cbn [bind] in E; [|discriminate].
  rewrite handle_outliers_off in E. cbn [bind] in E.
  destruct (handle_missing_values_kept lib _ _ E1) as [S1 _].
  destruct (fix_data_types_spec lib (DataCleaner._remove_duplicates d1))
    as (d3 & E3 & S3 & _).
  rewrite E3 in E. injection E as <-.
  rewrite (shape_columns _ _ S3), (shape_n_rows _ _ S3).
  rewrite <- (shape_columns _ _ S1), <- (shape_n_rows _ _ S1).
  destruct (remove_duplicates_spec d1) as [->| ->].
  - split; [reflexivity|lia].
  - split; [apply columns_filter_rows|apply n_rows_filter_rows].
Qed.

Lemma clean_keeps_schema_witness :
  exists f,
    DataCleaner.clean example_pandas training_frame = Ok f /\
    columns f = columns training_frame.
Proof.
  eexists. split; [vm_compute; reflexivity|].
  apply (clean_keeps_schema example_pandas training_frame).
  vm_compute. reflexivity.
Defined.

Lemma numeric_to_numeric (lib : Pandas) (s : series) :
  numeric (to_numeric lib s) = true.
Proof.
  unfold numeric, to_numeric. induction s as [|a s IH]; cbn [map forallb];
    [reflexivity|].
  rewrite IH. destruct a; reflexivity.
Qed.

Lemma strings_astype_str (lib : Pandas) (s : series) :
  forallb string_cell (astype_str lib s) = true.
Proof.
  unfold astype_str. induction s as [|a s IH]; cbn [map forallb];
    [reflexivity|exact IH].
Qed.

(** The frame [clean] returns, read through its last step. *)
Lemma clean_last_step (lib : Pandas) (df f : frame) :
  DataCleaner.clean lib df = Ok f ->
  exists d1,
    DataCleaner._handle_missing_values lib df = Ok d1 /\
    shape f = shape (DataCleaner._remove_duplicates d1) /\
    forall c, getitem f c =
              match getitem (DataCleaner._remove_duplicates d1) c with
              | Ok s =>
                  Ok (if mem c config.NUMERICAL_FEATURES then to_numeric lib s
                      else if mem c config.CATEGORICAL_FEATURES
                           then astype_str lib s else s)
              | Raise e => Raise e
              end.
Proof.
  unfold DataCleaner.clean. intros E.
  destruct (DataCleaner._handle_missing_values lib df) as [d1|e] eqn:E1;
    cbn [bind] in E; [|discriminate].
  rewrite handle_outliers_off in E. cbn [bind] in E.
  destruct (fix_data_types_spec lib (DataCleaner._remove_duplicates d1))
    as (d3 & E3 & S3 & G3).
  rewrite E3 in E. injection E as <-.
  exists d1. split; [reflexivity|]. split; [exact S3|exact G3].
Qed.

(** X10.  In the frame [DataCleaner.clean] returns, every numerical feature
    column holds only numbers (what could not be read as a number is NaN)
    and every categorical feature column holds only strings. *)
Theorem clean_fixes_types (lib : Pandas) (df f : frame) :
  DataCleaner.clean lib df = Ok f ->
  (forall c s, mem c config.NUMERICAL_FEATURES = true ->
               getitem f c = Ok s -> numeric s = true) /\
  (forall c s, mem c config.CATEGORICAL_FEATURES = true ->
               getitem f c = Ok s -> forallb string_cell s = true).
Proof.
  intros E. destruct (clean_last_step lib df f E) as (d1 & _ & _ & G).
  split; intros c s Hc Hs; rewrite G in Hs;
    destruct (getitem (DataCleaner._remove_duplicates d1) c) as [s0|e];
    try discriminate.
  - rewrite Hc in Hs. injection Hs as <-. apply numeric_to_numeric.
  - destruct (mem c config.NUMERICAL_FEATURES) eqn:Hn.
    + rewrite (numerical_not_categorical c Hn) in Hc. discriminate.
    + rewrite Hc in Hs. injection Hs as <-. apply strings_astype_str.
Qed.

Lemma clean_fixes_types_witness :
  exists f s,
    DataCleaner.clean example_pandas training_frame = Ok f /\
    getitem f "year" = Ok s /\ numeric s = true.
Proof.
  assert (E : exists f s,
             DataCleaner.clean example_pandas training_frame = Ok f /\
             getitem f "year" = Ok s)
    by (eexists; eexists; split; vm_compute; reflexivity).
  destruct E as (f & s & E & Hs).
  exists f, s. split; [exact E|]. split; [exact Hs|].
  destruct (clean_fixes_types example_pandas training_frame f E) as [Hn _].
  apply (Hn "year" s eq_refl Hs).
Defined.

(** X11.  Cleaning makes the feature engineering safe: on the frame
    [DataCleaner.clean] returns, [engineer_all] returns as well (no
    TypeError from a numeric column read as text, no KeyError from an
    absent column), provided the raw frame has no column that is already
    called [building_age]. *)
Theorem clean_then_engineer (lib : Pandas) (df f : frame) :
  DataCleaner.clean lib df = Ok f ->
  mem "building_age" (columns df) = false ->
  exists self',
    FeatureEngineer.engineer_all (FeatureEngineer.__init__ f None) = Ok self'.
Proof.
  intros E Hage.
  destruct (clean_last_step lib df f E) as (d1 & E1 & S & G).
  assert (Hcols : columns f = columns df).
  { rewrite (shape_columns _ _ S).
    destruct (handle_missing_values_kept lib _ _ E1) as [S1 _].
    rewrite <- (shape_columns _ _ S1).
    destruct (remove_duplicates_spec d1) as [->| ->];
      [reflexivity|apply columns_filter_rows]. }
  assert (Hnum : number_inputs f).
  { intros c s Hc Hs. unfold numeric_inputs in Hc. rewrite mem_app in Hc.
    destruct (mem c config.NUMERICAL_FEATURES) eqn:Hn.
    - rewrite G in Hs.
      destruct (getitem (DataCleaner._remove_duplicates d1) c) as [s0|e];
        [|discriminate].
      rewrite Hn in Hs. injection Hs as <-. apply numeric_to_numeric.
    - cbn [orb mem existsb] in Hc. rewrite orb_false_r in Hc.
      apply String.eqb_eq in Hc. subst c.
      apply getitem_mem in Hs. rewrite Hcols in Hs. congruence. }
  destruct (engineer_all_numbers f Hnum) as (self' & Ee & _).
  exists self'. exact Ee.
Qed.

Lemma clean_then_engineer_witness :
  exists f self',
    DataCleaner.clean example_pandas training_frame = Ok f /\
    FeatureEngineer.engineer_all (FeatureEngineer.__init__ f None) = Ok self'.
Proof.
  assert (E : exists f, DataCleaner.clean example_pandas training_frame = Ok f)
    by (eexists; vm_compute; reflexivity).
  destruct E as (f & E).
  destruct (clean_then_engineer example_pandas training_frame f E eq_refl)
    as (self' & Ee).
  exists f, self'. split; [exact E|exact Ee].
Defined.

(** X12.  [DataCleaner.clean] imputes and converts feature columns only: a
    column that is neither a numerical nor a categorical feature (the
    target [price] among them) comes back as it was, or with some of its
    rows removed (the same rows in every such column, when duplicated
    records are dropped); its cells are never imputed or converted. *)
Theorem clean_leaves_other_columns (lib : Pandas) (df f : frame) :
  DataCleaner.clean lib df = Ok f ->
  (forall c, mem c feature_labels = false -> getitem f c = getitem df c) \/
  (exists keep,
      forall c, mem c feature_labels = false ->
                getitem f c = match getitem df c with
                              | Ok s => Ok (filter_by keep s)
                              | Raise e => Raise e
                              end).
Proof.
  intros E.
  destruct (clean_last_step lib df f E) as (d1 & E1 & _ & G).
  destruct (handle_missing_values_kept lib _ _ E1) as [_ G1].
  assert (Hother : forall c, mem c feature_labels = false ->
            getitem f c = getitem (DataCleaner._remove_duplicates d1) c).
  { intros c Hc. rewrite G. rewrite mem_feature_labels in Hc.
    apply orb_false_iff in Hc. destruct Hc as [-> ->].
    destruct (getitem _ c); reflexivity. }
  destruct (remove_duplicates_spec d1) as [Hd|Hd]; rewrite Hd in Hother.
  - left. intros c Hc. rewrite (Hother c Hc). apply G1. exact Hc.
  - right. exists (map negb (duplicated d1)). intros c Hc.
    rewrite (Hother c Hc), getitem_filter_rows, (G1 c Hc). reflexivity.
Qed.

Lemma clean_leaves_other_columns_witness :
  exists f,
    DataCleaner.clean example_pandas
      (setitem training_frame "price" [Num NaN; qcell 4200000]) = Ok f /\
    ((forall c, mem c feature_labels = false ->
                getitem f c =
                getitem (setitem training_frame "price"
                           [Num NaN; qcell 4200000]) c) \/
     (exists keep,
         forall c, mem c feature_labels = false ->
                   getitem f c =
                   match getitem (setitem training_frame "price"
                                    [Num NaN; qcell 4200000]) c with
                   | Ok s => Ok (filter_by keep s)
                   | Raise e => Raise e
                   end)).
Proof.
  eexists. split; [vm_compute; reflexivity|].
  apply (clean_leaves_other_columns example_pandas).
  vm_compute. reflexivity.
Defined.

(* ====================================================================== *)
(** * Fitting the categorical encoders *)
(* ====================================================================== *)

Section FitEncoders.
Variable lib : Pandas.
Import DataPreprocessor.

Lemma mem_insert (x y : string) (l : list string) :
  mem x (LabelEncoder.insert y l) = String.eqb x y || mem x l.
Proof.
  induction l as [|z l IH]; cbn [LabelEncoder.insert]; [reflexivity|].
  destruct (String.compare y z) eqn:E.
  - apply String.compare_eq_iff in E. subst z. rewrite mem_cons.
    destruct (String.eqb x y); reflexivity.
  - reflexivity.
  - rewrite !mem_cons, IH.
    destruct (String.eqb x y), (String.eqb x z); reflexivity.
Qed.

Lemma mem_unique (x : string) (ys : list string) :
  mem x (LabelEncoder.unique ys) = mem x ys.
Proof.
  unfold LabelEncoder.unique. induction ys as [|y ys IH]; cbn [fold_right];
    [reflexivity|].
  rewrite mem_insert, mem_cons, IH. reflexivity.
Qed.

Lemma index_nth (x : string) (l : list string) (k : nat) :
  LabelEncoder.index x l = Some k -> nth_error l k = Some x.
Proof.
  revert k. induction l as [|y l IH]; intros k; cbn [LabelEncoder.index];
    [discriminate|].
  destruct (String.eqb x y) eqn:E.
  - intros [= <-]. apply String.eqb_eq in E. subst y. reflexivity.
  - destruct (LabelEncoder.index x l) as [i|]; [|discriminate].
    intros [= <-]. cbn [nth_error]. apply IH. reflexivity.
Qed.

(** [transform] on labels of the vocabulary. *)
Lemma transform_known (le : LabelEncoder.t) (s : series) :
  (forall a, In a s ->
             mem (cell_str lib a) (LabelEncoder.classes_ le) = true) ->
  exists codes,
    LabelEncoder.transform le (labels lib s) = Ok codes /\
    decodes lib s le codes.
Proof.
  unfold LabelEncoder.transform, labels, decodes.
  induction s as [|a s IH]; intros Hall.
  - exists []. split; [reflexivity|]. split; [reflexivity|].
    intros [|i] a; discriminate.
  - destruct IH as (codes & E & Hlen & Hdec).
    { intros b Hb. apply Hall. right. exact Hb. }
    destruct (index_mem _ _ (Hall a (or_introl eq_refl))) as (k & Ek & _).
    exists (k :: codes). cbn [map mapM]. rewrite Ek. cbn [bind].
    rewrite E. split; [reflexivity|]. split; [cbn [length]; congruence|].
    intros [|i] b; cbn [nth_error].
    + intros [= <-]. exists k. split; [reflexivity|].
      split; [exact Ek|apply index_nth; exact Ek].
    + apply Hdec.
Qed.

(** [fit_transform] never raises. *)
Lemma fit_transform_decodes (s : series) :
  exists codes,
    LabelEncoder.fit_transform (labels lib s) =
    Ok (LabelEncoder.fit (labels lib s), codes) /\
    decodes lib s (LabelEncoder.fit (labels lib s)) codes.
Proof.
  destruct (transform_known (LabelEncoder.fit (labels lib s)) s)
    as (codes & E & H).
  { intros a Ha. unfold LabelEncoder.fit. cbn [LabelEncoder.classes_].
    rewrite mem_unique. apply mem_In. unfold labels. apply in_map. exact Ha. }
  exists codes. split; [|exact H].
  unfold LabelEncoder.fit_transform. rewrite E. reflexivity.
Qed.

Lemma fit_encoded_nil (f : frame) (encs : list (string * LabelEncoder.t)) :
  fit_encoded lib [] f encs f encs.
Proof.
  split; [reflexivity|]. intros c. destruct (getitem f c); split; reflexivity.
Qed.

Lemma fit_encoded_nil_col (col : string) (f : frame)
      (encs : list (string * LabelEncoder.t)) :
  mem col (columns f) = false -> fit_encoded lib [col] f encs f encs.
Proof.
  intros Hm. split; [reflexivity|]. intros c.
  destruct (getitem f c) as [s|e] eqn:Hs; [|split; reflexivity].
  cbn [mem existsb]. rewrite orb_false_r.
  destruct (String.eqb c col) eqn:Ec; [|split; reflexivity].
  apply String.eqb_eq in Ec. subst c.
  apply getitem_mem in Hs. congruence.
Qed.

(** One more column. *)
Lemma fit_encoded_cons (col : string) (cols : list string)
      (f f1 f' : frame) (encs encs1 encs' : list (string * LabelEncoder.t)) :
  ~ In col cols ->
  fit_encoded lib [col] f encs f1 encs1 ->
  fit_encoded lib cols f1 encs1 f' encs' ->
  fit_encoded lib (col :: cols) f encs f' encs'.
Proof.
  intros Hnot [S1 G1] [S2 G2]. split; [congruence|].
  intros c. specialize (G1 c). specialize (G2 c).
  rewrite mem_cons. cbn [mem existsb] in G1. rewrite orb_false_r in G1.
  destruct (String.eqb c col) eqn:Ec.
  - apply String.eqb_eq in Ec. subst c.
    assert (Hm : mem col cols = false).
    { destruct (mem col cols) eqn:Em; [|reflexivity].
      apply mem_In in Em. contradiction. }
    rewrite Hm in G2.
    destruct (getitem f col) as [s|e]; cbn [orb].
    + destruct G1 as (codes & Ed & Eg & Hdec). rewrite Eg in G2.
      destruct G2 as [G2 D2]. exists codes.
      split; [congruence|]. split; [exact G2|exact Hdec].
    + destruct G1 as [G1 D1]. rewrite G1 in G2. destruct G2 as [G2 D2].
      split; [exact G2|congruence].
  - cbn [orb].
    destruct (getitem f c) as [s|e].
    + destruct G1 as [G1 D1]. rewrite G1 in G2.
      destruct (mem c cols).
      * destruct G2 as (codes & Ed & Eg & Hdec). exists codes. auto.
      * destruct G2 as [G2 D2]. split; [exact G2|congruence].
    + destruct G1 as [G1 D1]. rewrite G1 in G2. destruct G2 as [G2 D2].
      split; [exact G2|congruence].
Qed.

Lemma encode_fit_body (h : list frame) (p0 : preprocessor) (f0 : frame)
      (col : string) :
  exists f1 encs1,
    (f <~ load (length h) ;;
     if negb (mem col (columns f)) then retM tt
     else
       s <~ liftM (getitem f col) ;;
       r <~ liftM (LabelEncoder.fit_transform (map (cell_str lib) s)) ;;
       let '(le, codes) := r in
       _ <~ store (length h) (setitem f col (map code_cell codes)) ;;
       p <~ get_self ;;
       set_self (mk_preprocessor (dict_set (label_encoders p) col le)
                   (feature_names p) (is_fitted p)))
      (mk_world (h ++ [f0]) p0) =
    (Ok tt, mk_world (h ++ [f1])
              (mk_preprocessor encs1 (feature_names p0) (is_fitted p0))) /\
    fit_encoded lib [col] f0 (label_encoders p0) f1 encs1.
Proof.
  rewrite (bindM_Ok _ _ _ _ _ (load_last h p0 f0)).
  destruct (mem col (columns f0)) eqn:Hm; cbn [negb].
  - destruct (mem_getitem _ _ Hm) as [s Hs].
    unfold bindM at 1. unfold liftM at 1. rewrite Hs.
    destruct (fit_transform_decodes s) as (codes & Eft & Hdec).
    unfold labels in Eft. unfold bindM at 1. unfold liftM at 1. rewrite Eft.
    rewrite (bindM_Ok _ _ _ _ _ (store_last h p0 f0 _)).
    unfold bindM, get_self, set_self. cbn [self_ frames].
    eexists. eexists. split; [reflexivity|].
    split.
    + apply (shape_setitem _ _ _ s Hs). rewrite length_map.
      apply (proj1 Hdec).
    + intros c. rewrite getitem_setitem, dict_get_dict_set.
      cbn [mem existsb]. rewrite orb_false_r.
      destruct (String.eqb c col) eqn:Ec.
      * apply String.eqb_eq in Ec. subst c. rewrite Hs.
        exists codes. split; [reflexivity|]. split; [reflexivity|exact Hdec].
      * destruct (getitem f0 c); split; reflexivity.
  - destruct p0 as [encs names fitted]. exists f0, encs.
    split; [reflexivity|]. apply fit_encoded_nil_col. exact Hm.
Qed.

Lemma encode_categorical_fit_run (h : list frame) (p : preprocessor)
      (l : loc) (f : frame) :
  nth_error h l = Some f ->
  exists f' encs',
    _encode_categorical lib l true (mk_world h p) =
    (Ok (length h),
     mk_world (h ++ [f'])
       (mk_preprocessor encs' (feature_names p) (is_fitted p))) /\
    fit_encoded lib config.CATEGORICAL_FEATURES f (label_encoders p) f' encs'.
Proof.
  intros Hl. unfold _encode_categorical.
  rewrite (bindM_Ok _ _ _ _ _ (copy_run h p l f Hl)).
  match goal with |- context [forM_ _ ?b] => set (body := b) end.
  assert (Hbody : forall col f0 p0, exists f1 encs1,
             body col (mk_world (h ++ [f0]) p0) =
             (Ok tt, mk_world (h ++ [f1])
                       (mk_preprocessor encs1 (feature_names p0)
                          (is_fitted p0))) /\
             fit_encoded lib [col] f0 (label_encoders p0) f1 encs1).
  { intros col f0 p0. exact (encode_fit_body h p0 f0 col). }
  assert (Hloop : forall cols, NoDup cols -> forall f0 p0, exists f1 encs1,
             forM_ cols body (mk_world (h ++ [f0]) p0) =
             (Ok tt, mk_world (h ++ [f1])
                       (mk_preprocessor encs1 (feature_names p0)
                          (is_fitted p0))) /\
             fit_encoded lib cols f0 (label_encoders p0) f1 encs1).
  { induction cols as [|col cols IH]; intros Hnd f0 p0; cbn [forM_].
    - destruct p0 as [encs names fitted]. exists f0, encs.
      split; [reflexivity|apply fit_encoded_nil].
    - inversion Hnd as [|? ? Hnot Hnd']; subst.
      destruct (Hbody col f0 p0) as (f1 & encs1 & E1 & H1).
      unfold bindM at 1. rewrite E1.
      destruct (IH Hnd' f1 (mk_preprocessor encs1 (feature_names p0)
                              (is_fitted p0)))
        as (f2 & encs2 & E2 & H2).
      cbn [feature_names is_fitted label_encoders] in E2, H2.
      exists f2, encs2. split; [exact E2|].
      eapply fit_encoded_cons; eassumption. }
  destruct (Hloop config.CATEGORICAL_FEATURES NoDup_categorical f p)
    as (f' & encs' & E & H).
  exists f', encs'. split; [|exact H].
  unfold bindM. rewrite E. reflexivity.
Qed.

End FitEncoders.

(** X13.  Fitting the categorical encoders never raises.
    [_encode_categorical] with [fit=True] works on a copy; the columns keep
    their labels, order and lengths; every categorical feature column that
    is present is replaced by integer codes and its encoder, fitted on the
    text of its values, is stored; decoding a code through the encoder's
    [classes_] gives the text of the original value; every other column,
    and the encoder of an absent column, is left as it was. *)
Theorem fit_encoding_decodes
        (lib : Pandas) (h : list frame) (p : preprocessor) (l : loc) (f : frame) :
  nth_error h l = Some f ->
  exists f' p',
    DataPreprocessor._encode_categorical lib l true (mk_world h p) =
    (Ok (length h), mk_world (h ++ [f']) p') /\
    feature_names p' = feature_names p /\
    is_fitted p' = is_fitted p /\
    columns f' = columns f /\
    (forall c, mem c config.CATEGORICAL_FEATURES = false ->
               getitem f' c = getitem f c) /\
    (forall c, mem c (columns f) = false ->
               dict_get (label_encoders p') c = dict_get (label_encoders p) c) /\
    (forall c s, mem c config.CATEGORICAL_FEATURES = true ->
                 getitem f c = Ok s ->
                 exists codes,
                   dict_get (label_encoders p') c =
                   Some (LabelEncoder.fit (labels lib s)) /\
                   getitem f' c = Ok (map DataPreprocessor.code_cell codes) /\
                   decodes lib s (LabelEncoder.fit (labels lib s)) codes).
Proof.
  intros Hl.
  destruct (encode_categorical_fit_run lib h p l f Hl) as (f' & encs' & E & S & G).
  exists f', (mk_preprocessor encs' (feature_names p) (is_fitted p)).
  split; [exact E|]. split; [reflexivity|]. split; [reflexivity|].
  split; [apply shape_columns; exact S|]. cbn [label_encoders].
  split; [|split].
  - intros c Hc. specialize (G c). rewrite Hc in G.
    destruct (getitem f c); destruct G as [G _]; exact G.
  - intros c Hc. specialize (G c). rewrite (not_mem_getitem _ _ Hc) in G.
    apply G.
  - intros c s Hc Hs. specialize (G c). rewrite Hs, Hc in G. exact G.
Qed.

Lemma fit_encoding_decodes_witness :
  exists f' p' codes,
    DataPreprocessor._encode_categorical example_pandas 0 true
      (mk_world [training_frame] DataPreprocessor.__init__) =
    (Ok 1, mk_world ([training_frame] ++ [f']) p') /\
    getitem f' "gas" = Ok (map DataPreprocessor.code_cell codes) /\
    decodes example_pandas [Str "Yes"; Str "No"]
      (LabelEncoder.fit (labels example_pandas [Str "Yes"; Str "No"])) codes.
Proof.
  destruct (fit_encoding_decodes example_pandas [training_frame]
              DataPreprocessor.__init__ 0 training_frame eq_refl)
    as (f' & p' & E & _ & _ & _ & _ & _ & H).
  destruct (H "gas" [Str "Yes"; Str "No"] eq_refl eq_refl)
    as (codes & _ & Hg & Hd).
  exists f', p', codes. split; [exact E|]. split; [exact Hg|exact Hd].
Defined.


(** The two assignments of the [fit=False] branch, on the labels of a
    column: a label of the vocabulary is encoded by its position. *)
Lemma known_or_first_positions (first : string) (rest xs : list string) :
  let le := LabelEncoder.mk (first :: rest) in
  exists mapped codes,
    mapM (DataPreprocessor.known_or_first le) xs = Ok mapped /\
    LabelEncoder.transform le mapped = Ok codes /\
    length codes = length xs /\
    forall i x, nth_error xs i = Some x -> mem x (first :: rest) = true ->
                nth_error codes i = LabelEncoder.index x (first :: rest).
Proof.
  cbv zeta. induction xs as [|x xs IH].
  - exists [], []. repeat split; try reflexivity.
    intros [|i] x; discriminate.
  - destruct IH as (mapped & codes & Em & Et & Hlen & Hs).
    cbn [mapM]. unfold DataPreprocessor.known_or_first at 1.
    cbn [LabelEncoder.classes_].
    destruct (mem x (first :: rest)) eqn:Hx; cbn [bind]; rewrite Em; cbn [bind].
    + destruct (index_mem x _ Hx) as (i & Ei & Hi).
      exists (x :: mapped), (i :: codes).
      split; [reflexivity|]. split.
      * unfold LabelEncoder.transform in *. cbn [mapM LabelEncoder.classes_].
        rewrite Ei. cbn [bind]. cbn [LabelEncoder.classes_] in Et.
        rewrite Et. reflexivity.
      * split; [cbn [length]; congruence|].
        intros [|j] x' Hj Hx'; cbn [nth_error] in *.
        -- injection Hj as <-. symmetry. exact Ei.
        -- eapply Hs; eassumption.
    + exists (first :: mapped), (0 :: codes).
      split; [reflexivity|]. split.
      * unfold LabelEncoder.transform in *. cbn [mapM LabelEncoder.classes_].
        rewrite index_head. cbn [bind].
        cbn [LabelEncoder.classes_] in Et. rewrite Et. reflexivity.
      * split; [cbn [length]; congruence|].
        intros [|j] x' Hj Hx'; cbn [nth_error] in *.
        -- injection Hj as <-. congruence.
        -- eapply Hs; eassumption.
Qed.

(** X14.  At transform time a value that was seen when the encoder was
    fitted gets the code it got at fit time: its position in the encoder's
    [classes_], from which the value can be read back. *)
Theorem seen_category_code
        (lib : Pandas) (encoders : list (string * LabelEncoder.t))
        (f : frame) (col : string) (s : series) (ys : list string) :
  ys <> [] ->
  dict_get encoders col = Some (LabelEncoder.fit ys) ->
  getitem f col = Ok s ->
  exists f' codes,
    encode_column lib encoders f col = Ok f' /\
    getitem f' col = Ok (map DataPreprocessor.code_cell codes) /\
    length codes = length s /\
    forall i a,
      nth_error s i = Some a ->
      In (cell_str lib a) ys ->
      exists k,
        nth_error codes i = Some k /\
        LabelEncoder.index (cell_str lib a)
          (LabelEncoder.classes_ (LabelEncoder.fit ys)) = Some k /\
        nth_error (LabelEncoder.classes_ (LabelEncoder.fit ys)) k =
        Some (cell_str lib a).
Proof.
  intros Hys Henc Hs.
  assert (Hseen : forall x, In x ys ->
            mem x (LabelEncoder.classes_ (LabelEncoder.fit ys)) = true).
  { intros x Hx. unfold LabelEncoder.fit. cbn [LabelEncoder.classes_].
    rewrite mem_unique. apply mem_In. exact Hx. }
  unfold LabelEncoder.fit in *. cbn [LabelEncoder.classes_] in *.
  pose proof (unique_not_nil ys Hys) as Hne.
  destruct (LabelEncoder.unique ys) as [|first rest] eqn:Eu; [congruence|].
  destruct (known_or_first_positions first rest (map (cell_str lib) s))
    as (mapped & codes & Em & Et & Hlen & Hpos).
  exists (setitem (setitem f col (map Str mapped)) col
            (map DataPreprocessor.code_cell codes)), codes.
  split.
  - unfold encode_column.
    rewrite (getitem_mem _ _ _ Hs). cbn [negb]. rewrite Henc, Hs. cbn [bind].
    rewrite Em. cbn [bind]. rewrite getitem_setitem, String.eqb_refl.
    cbn [bind]. rewrite map_cell_str_Str, Et. reflexivity.
  - split; [rewrite getitem_setitem, String.eqb_refl; reflexivity|].
    split; [rewrite Hlen; apply length_map|].
    intros i a Hi Ha.
    pose proof (Hseen _ Ha) as Hm.
    destruct (index_mem _ _ Hm) as (k & Ek & _).
    exists k. split; [|split; [exact Ek|apply index_nth; exact Ek]].
    rewrite <- Ek. apply Hpos; [|exact Hm].
    rewrite nth_error_map, Hi. reflexivity.
Qed.

Lemma seen_category_code_witness :
  exists f' codes,
    encode_column example_pandas
      [("district_name", LabelEncoder.fit ["Kirovskij"; "Centralnyj"])]
      [("district_name", [Str "Kirovskij"; Str "Nowhere"; Str "Centralnyj"])]
      "district_name" = Ok f' /\
    getitem f' "district_name" = Ok (map DataPreprocessor.code_cell codes) /\
    nth_error codes 0 = Some 1.
Proof.
  destruct (seen_category_code example_pandas
              [("district_name", LabelEncoder.fit ["Kirovskij"; "Centralnyj"])]
              [("district_name",
                [Str "Kirovskij"; Str "Nowhere"; Str "Centralnyj"])]
              "district_name"
              [Str "Kirovskij"; Str "Nowhere"; Str "Centralnyj"]
              ["Kirovskij"; "Centralnyj"])
    as (f' & codes & E & G & _ & Hs).
  - discriminate.
  - reflexivity.
  - reflexivity.
  - exists f', codes. split; [exact E|]. split; [exact G|].
    destruct (Hs 0 (Str "Kirovskij") eq_refl (or_introl eq_refl))
      as (k & Hk & Hi & _).
    rewrite Hk. vm_compute in Hi. symmetry. exact Hi.
Defined.

(* ====================================================================== *)
(** * [DataPreprocessor.fit_transform] *)
(* ====================================================================== *)

Lemma alloc_run (h : list frame) (p : preprocessor) (f : frame) :
  alloc f (mk_world h p) = (Ok (length h), mk_world (h ++ [f]) p).
Proof. reflexivity. Qed.

Lemma columns_filter (cs : list string) (f : frame) :
  columns (filter (fun q => negb (mem (fst q) cs)) f) =
  filter (fun c => negb (mem c cs)) (columns f).
Proof.
  unfold columns. induction f as [|[k v] f IH]; cbn [filter map fst];
    [reflexivity|].
  destruct (negb (mem k cs)); cbn [map fst]; rewrite IH; reflexivity.
Qed.

Lemma filter_filter {A : Type} (f g : A -> bool) (l : list A) :
  filter f (filter g l) = filter (fun x => g x && f x) l.
Proof.
  induction l as [|a l IH]; cbn [filter]; [reflexivity|].
  destruct (g a); cbn [filter andb]; [destruct (f a)|]; rewrite IH;
    reflexivity.
Qed.



Section FitTransformRun.
Variable lib : Pandas.

Lemma fit_transform_run (h : list frame) (p : preprocessor) (df : loc)
      (raw : frame) (target_col : string) :
  nth_error h df = Some raw ->
  match engineered_for_fit lib raw with
  | Ok eng =>
      exists X y F enc encs w',
        DataPreprocessor.fit_transform lib df target_col (mk_world h p) =
        (Ok (X, y), w') /\
        nth_error (frames w') X = Some F /\
        self_ w' = mk_preprocessor encs (columns F) true /\
        fit_encoded lib config.CATEGORICAL_FEATURES eng (label_encoders p)
          enc encs /\
        F = filter (fun q => negb (mem (fst q) [target_col; "index";
                                               "Unnamed: 0"])) enc /\
        y = match getitem enc target_col with
            | Ok s => Some s
            | Raise _ => None
            end
  | Raise e =>
      DataPreprocessor.fit_transform lib df target_col (mk_world h p) =
      (Raise e, mk_world h p) \/
      exists f, DataPreprocessor.fit_transform lib df target_col (mk_world h p) =
                (Raise e, mk_world (h ++ [f]) p) \/
                exists g, DataPreprocessor.fit_transform lib df target_col
                            (mk_world h p) =
                          (Raise e, mk_world ((h ++ [f]) ++ [g]) p)
  end.
Proof.
  intros Hdf.
  remember (DataPreprocessor.fit_transform lib df target_col (mk_world h p))
    as T eqn:ET.
  unfold DataPreprocessor.fit_transform in ET. unfold engineered_for_fit.
  unfold bindM at 1 in ET. unfold load at 1 in ET. cbn [frames] in ET.
  rewrite Hdf in ET.
  unfold bindM at 1 in ET. unfold liftM at 1 in ET.
  destruct (DataValidator.validate_all raw []) as [vr|e]; cbn [bind];
    [|left; exact ET].
  unfold DataPreprocessor.new_DataCleaner, DataPreprocessor.new_FeatureEngineer
    in ET.
  rewrite (bindM_Ok _ _ _ _ _ (copy_run h p df raw Hdf)) in ET.
  unfold bindM at 1 in ET. rewrite DataCleaner_clean_run in ET.
  destruct (DataCleaner.clean lib raw) as [f1|e]; cbn [bind];
    [|right; exists raw; left; exact ET].
  rewrite (bindM_Ok _ _ _ _ _ (copy_run (h ++ [f1]) p (length h) f1
                                  (nth_error_last h f1))) in ET.
  unfold bindM at 1 in ET. rewrite engineer_all_run in ET.
  destruct (FeatureEngineer.engineer_all (FeatureEngineer.__init__ f1 None))
    as [e2|e]; cbn [bind];
    [|right; exists f1; right; exists f1; exact ET].
  set (h2 := h ++ [f1]) in *.
  set (eng := FeatureEngineer.df e2) in *.
  destruct (encode_categorical_fit_run lib (h2 ++ [eng]) p
              (length h2) eng (nth_error_last h2 _))
    as (enc & encs & Eenc & Henc).
  unfold bindM at 1 in ET. rewrite Eenc in ET.
  set (h3 := h2 ++ [eng]) in *.
  set (p1 := mk_preprocessor encs (feature_names p) (is_fitted p)) in *.
  rewrite (bindM_Ok _ _ _ _ _ (load_last h3 p1 enc)) in ET.
  assert (Hfil : forall cs : list string,
            filter (fun q : string * series => negb (mem (fst q) cs))
              (filter (fun q => negb (mem (fst q) [target_col])) enc) =
            filter (fun q => negb (mem (fst q) (target_col :: cs))) enc).
  { intros cs. rewrite filter_filter. apply filter_ext. intros [k v].
    cbn [fst]. rewrite (mem_cons k target_col cs). cbn [mem existsb].
    rewrite orb_false_r. destruct (String.eqb k target_col); reflexivity. }
  destruct (mem target_col (columns enc)) eqn:Ht.
  - destruct (mem_getitem _ _ Ht) as [s Hs].
    unfold bindM at 1 in ET. unfold bindM at 1 in ET.
    unfold liftM at 1 in ET. rewrite Hs in ET.
    unfold bindM at 1 in ET. unfold liftM at 1 in ET.
    rewrite drop_subset in ET.
    2:{ intros c [<-|[]]. exact Ht. }
    rewrite (bindM_Ok _ _ _ _ _ (alloc_run (h3 ++ [enc]) p1 _)) in ET.
    unfold retM at 1 in ET.
    set (d1 := filter (fun q => negb (mem (fst q) [target_col])) enc) in *.
    rewrite (bindM_Ok _ _ _ _ _ (load_last (h3 ++ [enc]) p1 d1)) in ET.
    unfold bindM at 1 in ET. unfold liftM at 1 in ET.
    rewrite drop_present in ET.
    rewrite (bindM_Ok _ _ _ _ _ (alloc_run ((h3 ++ [enc]) ++ [d1]) p1 _)) in ET.
    rewrite (bindM_Ok _ _ _ _ _ (load_last ((h3 ++ [enc]) ++ [d1]) p1 _)) in ET.
    unfold bindM, get_self, set_self, retM in ET. cbn [self_ frames] in ET.
    eexists. eexists. eexists. exists enc, encs. eexists.
    split; [exact ET|]. cbn [frames self_].
    split; [apply nth_error_last|].
    split; [reflexivity|]. split; [exact Henc|].
    split; [unfold d1; apply Hfil|].
    rewrite Hs. reflexivity.
  - unfold retM at 1 in ET. unfold bindM at 1 in ET.
    rewrite (bindM_Ok _ _ _ _ _ (load_last h3 p1 enc)) in ET.
    unfold bindM at 1 in ET. unfold liftM at 1 in ET.
    rewrite drop_present in ET.
    rewrite (bindM_Ok _ _ _ _ _ (alloc_run (h3 ++ [enc]) p1 _)) in ET.
    rewrite (bindM_Ok _ _ _ _ _ (load_last (h3 ++ [enc]) p1 _)) in ET.
    unfold bindM, get_self, set_self, retM in ET. cbn [self_ frames] in ET.
    eexists. eexists. eexists. exists enc, encs. eexists.
    split; [exact ET|]. cbn [frames self_].
    split; [apply nth_error_last|].
    split; [reflexivity|]. split; [exact Henc|].
    split.
    + apply filter_ext_in. intros [k v] Hk. cbn [fst].
      rewrite (mem_cons k target_col). 
      destruct (String.eqb k target_col) eqn:Ek; [|reflexivity].
      apply String.eqb_eq in Ek. subst k.
      pose proof (mem_fst_columns (target_col, v) enc Hk) as Hq.
      cbn [fst] in Hq. congruence.
    + rewrite (not_mem_getitem _ _ Ht). reflexivity.
Qed.

End FitTransformRun.

(** X16.  [fit_transform] returns exactly when validation, cleaning and
    feature engineering of the frame return: fitting the encoders and
    selecting the columns never raise. It then marks the preprocessor
    fitted and freezes [feature_names] to the columns of the frame [X] it
    returns, which are those of the engineered frame, in order, without the
    target column, [index] and [Unnamed: 0]; [y] is [None] exactly when the
    frame has no target column. When it raises, the preprocessor is as
    before. *)
Theorem fit_transform_freezes_features
        (lib : Pandas) (h : list frame) (p : preprocessor) (df : loc)
        (raw : frame) (target_col : string) :
  nth_error h df = Some raw ->
  exists w',
    match engineered_for_fit lib raw with
    | Ok eng =>
        exists X y F,
          DataPreprocessor.fit_transform lib df target_col (mk_world h p) =
          (Ok (X, y), w') /\
          nth_error (frames w') X = Some F /\
          feature_names (self_ w') = columns F /\
          is_fitted (self_ w') = true /\
          columns F = frozen_labels target_col eng /\
          (y = None <-> mem target_col (columns eng) = false) /\
          (mem target_col config.CATEGORICAL_FEATURES = false ->
           y = match getitem eng target_col with
               | Ok s => Some s
               | Raise _ => None
               end)
    | Raise e =>
        DataPreprocessor.fit_transform lib df target_col (mk_world h p) =
        (Raise e, w') /\
        self_ w' = p
    end.
Proof.
  intros Hdf.
  pose proof (fit_transform_run lib h p df raw target_col Hdf) as R.
  destruct (engineered_for_fit lib raw) as [eng|e].
  - destruct R as (X & y & F & enc & encs & w' & E & HX & Hself & Henc & HF & Hy).
    exists w', X, y, F. split; [exact E|]. split; [exact HX|].
    rewrite Hself. cbn [feature_names is_fitted].
    split; [reflexivity|]. split; [reflexivity|].
    destruct Henc as [Sh G].
    assert (Hcols : columns enc = columns eng) by (apply shape_columns; exact Sh).
    split; [|split].
    + rewrite HF, columns_filter, Hcols. reflexivity.
    + rewrite Hy. split.
      * intros H. destruct (mem target_col (columns eng)) eqn:Hm; [|reflexivity].
        rewrite <- Hcols in Hm. destruct (mem_getitem _ _ Hm) as [s Hs].
        rewrite Hs in H. discriminate.
      * intros Hm. rewrite <- Hcols in Hm.
        rewrite (not_mem_getitem _ _ Hm). reflexivity.
    + intros Hcat. rewrite Hy. specialize (G target_col).
      rewrite Hcat in G.
      destruct (getitem eng target_col); destruct G as [-> _]; reflexivity.
  - destruct R as [E|(f & [E|(g & E)])]; eexists; (split; [exact E|reflexivity]).
Qed.

Lemma fit_transform_freezes_features_witness :
  exists w' X y F,
    DataPreprocessor.fit_transform example_pandas 0 "price"
      (mk_world [training_frame] DataPreprocessor.__init__) = (Ok (X, y), w') /\
    nth_error (frames w') X = Some F /\
    feature_names (self_ w') = columns F /\
    y = Some [qcell 6500000; qcell 4200000].
Proof.
  destruct (fit_transform_freezes_features example_pandas [training_frame]
              DataPreprocessor.__init__ 0 training_frame "price" eq_refl)
    as (w' & H).
  assert (E : exists eng,
             engineered_for_fit example_pandas training_frame = Ok eng /\
             getitem eng "price" = Ok [qcell 6500000; qcell 4200000])
    by (eexists; split; vm_compute; reflexivity).
  destruct E as (eng & E & Hp). rewrite E in H.
  destruct H as (X & y & F & Erun & HX & Hn & _ & _ & _ & Hy).
  exists w', X, y, F. split; [exact Erun|]. split; [exact HX|].
  split; [exact Hn|]. rewrite (Hy eq_refl), Hp. reflexivity.
Defined.

Section TransformAfterFit.
Variable lib : Pandas.
Variable py : Python.

(** [transform] on a fitted preprocessor, as a function of the raw frame. *)
Lemma transform_run (h : list frame) (p : preprocessor) (df : loc)
      (raw : frame) :
  nth_error h df = Some raw ->
  is_fitted p = true ->
  exists w', self_ w' = p /\
    match encoded lib p raw with
    | Ok enc =>
        exists X,
          DataPreprocessor.transform lib py df (mk_world h p) = (Ok X, w') /\
          nth_error (frames w') X =
          Some (aligned (feature_names p) (kept enc))
    | Raise e =>
        DataPreprocessor.transform lib py df (mk_world h p) = (Raise e, w')
    end.
Proof.
  intros Hdf Hfit.
  remember (DataPreprocessor.transform lib py df (mk_world h p)) as T eqn:ET.
  unfold DataPreprocessor.transform in ET. unfold encoded.
  unfold bindM at 1 in ET. unfold get_self at 1 in ET. cbn [self_] in ET.
  rewrite Hfit in ET. cbn [negb] in ET.
  unfold DataPreprocessor.new_DataCleaner, DataPreprocessor.new_FeatureEngineer
    in ET.
  rewrite (bindM_Ok _ _ _ _ _ (copy_run h p df raw Hdf)) in ET.
  unfold bindM at 1 in ET. rewrite DataCleaner_clean_run in ET.
  destruct (DataCleaner.clean lib raw) as [f1|e]; cbn [bind];
    [|eexists; split; [|exact ET]; reflexivity].
  rewrite (bindM_Ok _ _ _ _ _ (copy_run (h ++ [f1]) p (length h) f1
                                  (nth_error_last h f1))) in ET.
  unfold bindM at 1 in ET. rewrite engineer_all_run in ET.
  destruct (FeatureEngineer.engineer_all (FeatureEngineer.__init__ f1 None))
    as [e2|e]; cbn [bind];
    [|eexists; split; [|exact ET]; reflexivity].
  set (h2 := h ++ [f1]) in *.
  destruct (encode_categorical_run lib (h2 ++ [FeatureEngineer.df e2]) p
              (length h2) (FeatureEngineer.df e2) (nth_error_last h2 _))
    as (f3 & Eenc & Hf3).
  unfold bindM at 1 in ET. rewrite Eenc in ET.
  destruct (encode_fitted lib (label_encoders p) (FeatureEngineer.df e2))
    as [enc|e];
    [|eexists; split; [|exact ET]; reflexivity].
  rewrite (Hf3 enc eq_refl) in ET.
  destruct (reconcile_run py (h2 ++ [FeatureEngineer.df e2]) p enc _ eq_refl)
    as (X & w' & Erun & Hself & HX).
  cbv zeta in Erun, ET. rewrite Erun in ET.
  exists w'. split; [exact Hself|].
  exists X. split; [exact ET|exact HX].
Qed.

End TransformAfterFit.

(** X17.  Train/serve schema agreement: after a [fit_transform] that
    returned the frame [X], every later [transform] that returns, on
    whatever batch, returns a frame with exactly the columns of [X], in the
    same order. *)
Theorem fit_then_transform_columns
        (lib : Pandas) (py : Python) (h : list frame) (p : preprocessor)
        (df : loc) (raw : frame) (target_col : string)
        (X : loc) (y : option series) (w1 : world)
        (df2 : loc) (raw2 : frame) (X2 : loc) (w2 : world) :
  nth_error h df = Some raw ->
  DataPreprocessor.fit_transform lib df target_col (mk_world h p) =
  (Ok (X, y), w1) ->
  nth_error (frames w1) df2 = Some raw2 ->
  DataPreprocessor.transform lib py df2 w1 = (Ok X2, w2) ->
  exists F F2,
    nth_error (frames w1) X = Some F /\
    nth_error (frames w2) X2 = Some F2 /\
    columns F2 = columns F.
Proof.
  intros Hdf Efit Hdf2 Etr.
  pose proof (fit_transform_run lib h p df raw target_col Hdf) as R.
  destruct (engineered_for_fit lib raw) as [eng|e].
  2:{ destruct R as [E|(f & [E|(g & E)])]; rewrite E in Efit; discriminate. }
  destruct R as (X' & y' & F & enc & encs & w' & E & HX & Hself & _).
  rewrite E in Efit. injection Efit as <- <- <-.
  destruct w' as [h1 p1]. cbn [self_ frames] in *.
  destruct (transform_run lib py h1 p1 df2 raw2 Hdf2) as (w3 & _ & T).
  { rewrite Hself. reflexivity. }
  destruct (encoded lib p1 raw2) as [enc2|e].
  - destruct T as (X3 & Et & HX3). rewrite Et in Etr.
    injection Etr as <- <-.
    exists F, (aligned (feature_names p1) (kept enc2)).
    split; [exact HX|]. split; [exact HX3|].
    rewrite columns_aligned, Hself. reflexivity.
  - rewrite T in Etr. discriminate.
Qed.

Lemma fit_then_transform_columns_witness :
  exists X y w1 X2 w2 F F2,
    DataPreprocessor.fit_transform example_pandas 0 "price"
      (mk_world [training_frame; sample_frame 65 3 10]
         DataPreprocessor.__init__) = (Ok (X, y), w1) /\
    DataPreprocessor.transform example_pandas example_python 1 w1 =
    (Ok X2, w2) /\
    nth_error (frames w1) X = Some F /\
    nth_error (frames w2) X2 = Some F2 /\
    columns F2 = columns F.
Proof.
  assert (E : exists X y w1 X2 w2,
             DataPreprocessor.fit_transform example_pandas 0 "price"
               (mk_world [training_frame; sample_frame 65 3 10]
                  DataPreprocessor.__init__) = (Ok (X, y), w1) /\
             nth_error (frames w1) 1 = Some (sample_frame 65 3 10) /\
             DataPreprocessor.transform example_pandas example_python 1 w1 =
             (Ok X2, w2)).
  { eexists. eexists. eexists. eexists. eexists.
    split; [vm_compute; reflexivity|]. split; vm_compute; reflexivity. }
  destruct E as (X & y & w1 & X2 & w2 & Efit & H1 & Etr).
  destruct (fit_then_transform_columns example_pandas example_python
              [training_frame; sample_frame 65 3 10] DataPreprocessor.__init__
              0 training_frame "price" X y w1 1 (sample_frame 65 3 10) X2 w2
              eq_refl Efit H1 Etr) as (F & F2 & HF & HF2 & Hc).
  exists X, y, w1, X2, w2, F, F2.
  split; [exact Efit|]. split; [exact Etr|]. split; [exact HF|].
  split; [exact HF2|exact Hc].
Defined.

(* ====================================================================== *)
(** * [ModelTrainer]: training, then prediction *)
(* ====================================================================== *)

Lemma fit_with_model (lib : Regressors) (self s' : ModelTrainer.t lib)
      X_train y_train args :
  ModelTrainer.fit_with lib self X_train y_train args = Ok s' ->
  ModelTrainer.model_type lib s' = ModelTrainer.model_type lib self /\
  ModelTrainer.cv_scores lib s' = ModelTrainer.cv_scores lib self /\
  exists m, ModelTrainer.model lib s' = Some m.
Proof.
  unfold ModelTrainer.fit_with.
  destruct (ModelTrainer.model lib self) as [m|]; [|discriminate].
  destruct (model_fit lib m X_train y_train args) as [m'|e]; cbn [bind];
    [|discriminate].
  intros [= <-]. cbn. eauto.
Qed.

Lemma build_model_fields (lib : Regressors) (self s' : ModelTrainer.t lib) :
  ModelTrainer.build_model lib self = Ok s' ->
  ModelTrainer.model_type lib s' = ModelTrainer.model_type lib self /\
  ModelTrainer.cv_scores lib s' = ModelTrainer.cv_scores lib self.
Proof.
  unfold ModelTrainer.build_model.
  repeat match goal with
         | |- context [if ?b then _ else _] => destruct b
         end; try discriminate; intros [= <-]; split; reflexivity.
Qed.

(** X18.  After a [train] that returned, the trainer holds a fitted model:
    its model type and cross-validation scores are unchanged,
    [training_time] is the measured time, and [predict] hands the frame to
    the fitted model (it never raises "Model not trained"). *)
Theorem train_then_predict
        (lib : Regressors) (self s' : ModelTrainer.t lib)
        (X_train : frame) (y_train : vector)
        (X_val : option frame) (y_val : option vector) :
  ModelTrainer.train lib self X_train y_train X_val y_val = Ok s' ->
  ModelTrainer.model_type lib s' = ModelTrainer.model_type lib self /\
  ModelTrainer.cv_scores lib s' = ModelTrainer.cv_scores lib self /\
  ModelTrainer.training_time lib s' = elapsed lib /\
  exists m,
    ModelTrainer.model lib s' = Some m /\
    forall X, ModelTrainer.predict lib s' X = model_predict lib m X.
Proof.
  unfold ModelTrainer.train. intros E.
  assert (H0 : exists s0,
             match ModelTrainer.model lib self with
             | Some _ => Ok self
             | None => ModelTrainer.build_model lib self
             end = Ok s0 /\
             ModelTrainer.model_type lib s0 = ModelTrainer.model_type lib self /\
             ModelTrainer.cv_scores lib s0 = ModelTrainer.cv_scores lib self).
  { destruct (ModelTrainer.model lib self).
    - exists self. auto.
    - destruct (ModelTrainer.build_model lib self) as [s0|e] eqn:Eb;
        [|discriminate].
      exists s0. split; [reflexivity|]. apply build_model_fields. exact Eb. }
  destruct H0 as (s0 & E0 & T0 & C0). rewrite E0 in E. cbn [bind] in E.
  match type of E with
  | bind ?m _ = _ => destruct m as [s1|e] eqn:E1; cbn [bind] in E;
                     [|discriminate]
  end.
  injection E as <-. cbn.
  assert (H1 : ModelTrainer.model_type lib s1 = ModelTrainer.model_type lib s0 /\
               ModelTrainer.cv_scores lib s1 = ModelTrainer.cv_scores lib s0 /\
               exists m, ModelTrainer.model lib s1 = Some m).
  { destruct X_val as [Xv|]; [destruct y_val as [yv|]|];
      try (eapply fit_with_model; exact E1).
    destruct (mem (ModelTrainer.model_type lib s0)
                ["xgboost"; "lightgbm"; "catboost"]) eqn:Hm;
      [|eapply fit_with_model; exact E1].
    unfold ModelTrainer._train_with_early_stopping in E1.
    cbn [mem existsb] in Hm.
    destruct (String.eqb (ModelTrainer.model_type lib s0) "xgboost");
      [eapply fit_with_model; exact E1|].
    destruct (String.eqb (ModelTrainer.model_type lib s0) "lightgbm");
      [eapply fit_with_model; exact E1|].
    destruct (String.eqb (ModelTrainer.model_type lib s0) "catboost");
      [eapply fit_with_model; exact E1|].
    discriminate Hm. }
  destruct H1 as (T1 & C1 & m & Hm).
  split; [congruence|]. split; [congruence|]. split; [reflexivity|].
  exists m. split; [exact Hm|].
  intros X. unfold ModelTrainer.predict. cbn. rewrite Hm. reflexivity.
Qed.

Lemma train_then_predict_witness :
  exists s' m,
    ModelTrainer.train example_regressors
      (ModelTrainer.__init__ example_regressors "catboost")
      training_frame [Fin 6500000; Fin 4200000] None None = Ok s' /\
    ModelTrainer.model example_regressors s' = Some m /\
    ModelTrainer.predict example_regressors s' training_frame =
    model_predict example_regressors m training_frame.
Proof.
  assert (E : exists s',
             ModelTrainer.train example_regressors
               (ModelTrainer.__init__ example_regressors "catboost")
               training_frame [Fin 6500000; Fin 4200000] None None = Ok s')
    by (eexists; reflexivity).
  destruct E as (s' & E).
  destruct (train_then_predict example_regressors _ s' _ _ _ _ E)
    as (_ & _ & _ & m & Hm & Hp).
  exists s', m. split; [exact E|]. split; [exact Hm|apply Hp].
Defined.

(* ====================================================================== *)
(** * [EnsembleTrainer.train_all] *)
(* ====================================================================== *)

Section TrainAll.
Variable lib : Regressors.
Variable X_train : frame.
Variable y_train : vector.
Variable X_val : option frame.
Variable y_val : option vector.
Import EnsembleTrainer.

Local Abbreviation alone := (trained_alone lib X_train y_train X_val y_val).

Lemma train_all_loop (l : list string) :
  forall (s : t lib) r s',
    forM_ l (fun model_type =>
               let trainer := ModelTrainer.__init__ lib model_type in
               trainer <~ liftM (ModelTrainer.train lib trainer X_train y_train
                                   X_val y_val) ;;
               modifyS (fun s => mk lib (model_types lib s)
                                   (dict_set (models lib s) model_type trainer)
                                   (weights lib s))) s = (r, s') ->
    model_types lib s' = model_types lib s /\
    weights lib s' = weights lib s /\
    match r with
    | Ok _ =>
        (forall mt, In mt l ->
           exists tr, alone mt = Ok tr /\ dict_get (models lib s') mt = Some tr) /\
        (forall mt, ~ In mt l ->
           dict_get (models lib s') mt = dict_get (models lib s) mt)
    | Raise e =>
        exists pre mt post,
          l = pre ++ mt :: post /\ alone mt = Raise e /\
          (forall m, In m pre ->
             exists tr, alone m = Ok tr /\
                        dict_get (models lib s') m = Some tr) /\
          (forall m, ~ In m pre ->
             dict_get (models lib s') m = dict_get (models lib s) m)
    end.
Proof.
  induction l as [|x l IH]; intros s r s'; cbn [forM_].
  - intros [= <- <-]. split; [reflexivity|]. split; [reflexivity|].
    split; [intros mt []|reflexivity].
  - unfold bindM at 1. cbv zeta. unfold bindM at 1. unfold liftM at 1.
    fold (alone x).
    destruct (alone x) as [tr|e] eqn:Ex.
    + unfold modifyS at 1. intros H.
      destruct (IH _ _ _ H) as (Ht & Hw & Hr). cbn in Ht, Hw.
      split; [exact Ht|]. split; [exact Hw|].
      destruct r as [u|e].
      * destruct Hr as [Hin Hout]. split.
        -- intros mt [<-|Hmt].
           ++ destruct (in_dec string_dec x l) as [Hx|Hx]; [apply Hin; exact Hx|].
              exists tr. split; [exact Ex|].
              rewrite (Hout x Hx). cbn [models].
              rewrite dict_get_dict_set, String.eqb_refl. reflexivity.
           ++ apply Hin. exact Hmt.
        -- intros mt Hmt. rewrite Hout by (intros Hc; apply Hmt; right; exact Hc).
           cbn [models]. rewrite dict_get_dict_set.
           destruct (String.eqb mt x) eqn:Emt; [|reflexivity].
           apply String.eqb_eq in Emt. subst mt. exfalso. apply Hmt. left.
           reflexivity.
      * destruct Hr as (pre & mt & post & -> & Hmt & Hpre & Hout).
        exists (x :: pre), mt, post. split; [reflexivity|]. split; [exact Hmt|].
        split.
        -- intros m [<-|Hm]; [|apply Hpre; exact Hm].
           destruct (in_dec string_dec x pre) as [Hx|Hx];
             [apply Hpre; exact Hx|].
           exists tr. split; [exact Ex|].
           rewrite (Hout x Hx). cbn [models].
           rewrite dict_get_dict_set, String.eqb_refl. reflexivity.
        -- intros m Hm.
           rewrite Hout by (intros Hc; apply Hm; right; exact Hc).
           cbn [models]. rewrite dict_get_dict_set.
           destruct (String.eqb m x) eqn:Em; [|reflexivity].
           apply String.eqb_eq in Em. subst m. exfalso. apply Hm. left.
           reflexivity.
    + intros [= <- <-]. split; [reflexivity|]. split; [reflexivity|].
      exists [], x, l. split; [reflexivity|]. split; [exact Ex|].
      split; [intros m []|reflexivity].
Qed.

End TrainAll.

(** X19.  [EnsembleTrainer.train_all] is all or nothing for the weights.
    When it returns, every model type of the ensemble has its trained
    member registered and the weights are the equal weights. When a member
    fails to train, the call raises that member's exception at once: the
    later members are not trained, the members trained before it stay
    registered, and the weights are left as they were. *)
Theorem train_all_fails_fast
        (lib : Regressors) (self : EnsembleTrainer.t lib)
        (X_train : frame) (y_train : vector)
        (X_val : option frame) (y_val : option vector)
        (r : result unit) (s' : EnsembleTrainer.t lib) :
  EnsembleTrainer.train_all lib X_train y_train X_val y_val self = (r, s') ->
  EnsembleTrainer.model_types lib s' = EnsembleTrainer.model_types lib self /\
  match r with
  | Ok _ =>
      EnsembleTrainer.weights lib s' =
      Some (EnsembleTrainer.equal_weights (EnsembleTrainer.model_types lib self)) /\
      forall mt, In mt (EnsembleTrainer.model_types lib self) ->
        exists tr,
          trained_alone lib X_train y_train X_val y_val mt = Ok tr /\
          dict_get (EnsembleTrainer.models lib s') mt = Some tr
  | Raise e =>
      EnsembleTrainer.weights lib s' = EnsembleTrainer.weights lib self /\
      exists pre mt post,
        EnsembleTrainer.model_types lib self = pre ++ mt :: post /\
        trained_alone lib X_train y_train X_val y_val mt = Raise e /\
        (forall m, In m pre ->
           exists tr,
             trained_alone lib X_train y_train X_val y_val m = Ok tr /\
             dict_get (EnsembleTrainer.models lib s') m = Some tr) /\
        (forall m, ~ In m pre ->
           dict_get (EnsembleTrainer.models lib s') m =
           dict_get (EnsembleTrainer.models lib self) m)
  end.
Proof.
  unfold EnsembleTrainer.train_all. intros E.
  unfold bindM at 1 in E. cbn [getS] in E.
  unfold bindM at 1 in E.
  match type of E with
  | context [forM_ ?l ?b self] =>
      destruct (forM_ l b self) as [[u|e] s1] eqn:Eloop
  end.
  - destruct (train_all_loop lib X_train y_train X_val y_val _ _ _ _ Eloop)
      as (Ht & Hw & Hin & _).
    unfold modifyS in E. injection E as <- <-.
    cbn [EnsembleTrainer.model_types EnsembleTrainer.weights
         EnsembleTrainer.models EnsembleTrainer.set_weights].
    split; [exact Ht|]. split; [rewrite Ht; reflexivity|exact Hin].
  - destruct (train_all_loop lib X_train y_train X_val y_val _ _ _ _ Eloop)
      as (Ht & Hw & Hr).
    injection E as <- <-. split; [exact Ht|]. split; [exact Hw|exact Hr].
Qed.

Lemma train_all_fails_fast_witness :
  exists e s' tr,
    EnsembleTrainer.train_all flaky_regressors training_frame
      [Fin 6500000; Fin 4200000] None None
      (EnsembleTrainer.__init__ flaky_regressors
         ["xgboost"; "lightgbm"; "catboost"]) = (Raise e, s') /\
    EnsembleTrainer.weights flaky_regressors s' = None /\
    dict_get (EnsembleTrainer.models flaky_regressors s') "xgboost" = Some tr /\
    dict_get (EnsembleTrainer.models flaky_regressors s') "catboost" = None.
Proof.
  assert (E : exists e s',
             EnsembleTrainer.train_all flaky_regressors training_frame
               [Fin 6500000; Fin 4200000] None None
               (EnsembleTrainer.__init__ flaky_regressors
                  ["xgboost"; "lightgbm"; "catboost"]) = (Raise e, s') /\
             dict_get (EnsembleTrainer.models flaky_regressors s') "xgboost"
             <> None /\
             dict_get (EnsembleTrainer.models flaky_regressors s') "catboost"
             = None).
  { eexists. eexists. split; [vm_compute; reflexivity|].
    split; [vm_compute; discriminate|vm_compute; reflexivity]. }
  destruct E as (e & s' & E & Hx & Hc).
  destruct (train_all_fails_fast flaky_regressors _ _ _ _ _ _ _ E)
    as (_ & Hw & _).
  destruct (dict_get (EnsembleTrainer.models flaky_regressors s') "xgboost")
    as [tr|] eqn:Ex; [|congruence].
  exists e, s', tr. split; [exact E|]. split; [exact Hw|].
  split; [exact Ex|exact Hc].
Defined.

(* ====================================================================== *)
(** * [EnsembleTrainer._weighted_predict] *)
(* ====================================================================== *)

Lemma Qeq_le (a b : Q) : (a == b)%Q -> (a <= b)%Q.
Proof. intros H. rewrite H. apply Qle_refl. Qed.

Lemma between_weaken (lo hi lo' hi' : Q) (v : vector) :
  (lo' <= lo)%Q -> (hi <= hi')%Q -> between lo hi v -> between lo' hi' v.
Proof.
  intros Hl Hh H. unfold between in *.
  eapply Forall_impl; [|exact H].
  intros x (q & -> & H1 & H2). exists q. split; [reflexivity|].
  split; eapply Qle_trans; eassumption.
Qed.

Lemma between_step (lo hi l1 h1 w : Q) (acc v : vector) :
  length acc = length v ->
  between l1 h1 acc -> between lo hi v -> (0 <= w)%Q ->
  between (l1 + w * lo) (h1 + w * hi)
          (zip_with fadd acc (map (fun x => fmul (Fin w) x) v)).
Proof.
  intros Hlen Hacc Hv Hw. unfold between in *.
  revert v Hlen Hv. induction Hacc as [|a acc Ha Hacc IH]; intros [|x v] Hlen Hv;
    cbn [map zip_with]; try constructor; try discriminate.
  - inversion Hv as [|? ? Hx Hv']; subst.
    destruct Ha as (qa & -> & La & Ua). destruct Hx as (qx & -> & Lx & Ux).
    exists (qa + w * qx)%Q. split; [reflexivity|]. split.
    + apply Qplus_le_compat; [exact La|].
      rewrite (Qmult_comm w lo), (Qmult_comm w qx).
      apply Qmult_le_compat_r; assumption.
    + apply Qplus_le_compat; [exact Ua|].
      rewrite (Qmult_comm w qx), (Qmult_comm w hi).
      apply Qmult_le_compat_r; assumption.
  - inversion Hv; subst. apply IH; [cbn [length] in Hlen; lia|assumption].
Qed.

Lemma between_zeros (lo hi : Q) (n : nat) :
  between (lo * 0) (hi * 0) (repeat (Fin 0) n).
Proof.
  unfold between. induction n as [|n IH]; cbn [repeat]; constructor;
    [|exact IH].
  exists 0%Q. split; [reflexivity|].
  split; apply Qeq_le; ring.
Qed.

Lemma member_weights_sum_cons (mp : string * vector)
      (l : list (string * vector)) (weights : list (string * Q)) :
  member_weights_sum (mp :: l) weights =
  (match dict_get weights (fst mp) with
   | Some w => w
   | None => 0
   end + member_weights_sum l weights)%Q.
Proof. reflexivity. Qed.

Lemma weighted_fold (lo hi : Q) (n : nat) (weights : list (string * Q))
      (l : list (string * vector)) :
  (forall k v, In (k, v) l ->
     length v = n /\ between lo hi v /\
     exists w, dict_get weights k = Some w /\ (0 <= w)%Q) ->
  forall (W : Q) (acc : vector),
    length acc = n -> between (lo * W) (hi * W) acc ->
    exists v,
      foldM (fun ensemble_pred mp =>
               match dict_get weights (fst mp) with
               | None => Raise (KeyError (fst mp))
               | Some w =>
                   EnsembleTrainer.vector_add ensemble_pred
                     (map (fun x => fmul (Fin w) x) (snd mp))
               end) l acc = Ok v /\
      length v = n /\
      between (lo * (W + member_weights_sum l weights))
              (hi * (W + member_weights_sum l weights)) v.
Proof.
  induction l as [|[k x] l IH]; intros Hall W acc Hlen Hacc; cbn [foldM].
  - exists acc. split; [reflexivity|]. split; [exact Hlen|].
    unfold member_weights_sum. cbn [map Qsum fold_right].
    eapply between_weaken; [| |exact Hacc]; apply Qeq_le; ring.
  - destruct (Hall k x (or_introl eq_refl)) as (Hx & Bx & w & Hw & Hpos).
    cbn [fst snd]. rewrite Hw. unfold EnsembleTrainer.vector_add.
    rewrite length_map, Hlen, Hx, Nat.eqb_refl. cbn [bind].
    destruct (IH (fun k' v' H => Hall k' v' (or_intror H)) (W + w)%Q
                (zip_with fadd acc (map (fun x0 => fmul (Fin w) x0) x)))
      as (v & E & Hv & Bv).
    + rewrite length_zip_with, length_map, Hlen, Hx. apply Nat.min_id.
    + eapply between_weaken;
        [| |apply (between_step lo hi (lo * W) (hi * W) w);
            [congruence|exact Hacc|exact Bx|exact Hpos]];
        apply Qeq_le; ring.
    + exists v. split; [exact E|]. split; [exact Hv|].
      rewrite member_weights_sum_cons. cbn [fst]. rewrite Hw.
      eapply between_weaken; [| |exact Bv]; apply Qeq_le; ring.
Qed.

(** The weighted mean of bounded predictions is bounded. *)
Lemma weighted_predict_bounds
      (predictions : list (string * vector)) (weights : list (string * Q))
      (lo hi : Q) (n : nat) :
  predictions <> [] ->
  (forall k v, In (k, v) predictions ->
     length v = n /\ between lo hi v /\
     exists w, dict_get weights k = Some w /\ (0 <= w)%Q) ->
  (member_weights_sum predictions weights == 1)%Q ->
  exists v,
    EnsembleTrainer._weighted_predict predictions weights = Ok v /\
    length v = n /\ between lo hi v.
Proof.
  intros Hne Hall Hsum. unfold EnsembleTrainer._weighted_predict.
  destruct predictions as [|[k first] rest] eqn:Ep; [congruence|].
  rewrite <- Ep in *.
  assert (Hfirst : length first = n).
  { apply (Hall k first). rewrite Ep. left. reflexivity. }
  destruct (weighted_fold lo hi n weights predictions Hall 0%Q
              (repeat (Fin 0) (length first)))
    as (v & E & Hv & Bv).
  - rewrite repeat_length. exact Hfirst.
  - apply between_zeros.
  - exists v. split; [exact E|]. split; [exact Hv|].
    eapply between_weaken; [| |exact Bv]; apply Qeq_le; rewrite Hsum; ring.
Qed.




(* ====================================================================== *)
(** * [TrainingPipeline.train_all_models] with a validation set *)
(* ====================================================================== *)

Section ValidatedEnsemble.
Variable lib : Regressors.
Variable X_train : frame.
Variable y_train : vector.
Variable Xv : frame.
Variable yv : vector.
Variable perform_cv : bool.
Variable types : list string.
Import TrainingPipeline.

Local Abbreviation avail_ :=
  (available lib X_train y_train (Some Xv) (Some yv) perform_cv types).
Local Abbreviation tm1_ :=
  (members_after lib X_train y_train (Some Xv) (Some yv) perform_cv types []).
Local Abbreviation members_ :=
  (map (fun m => (m, trainer_of lib X_train y_train (Some Xv) (Some yv)
                       perform_cv m)) avail_).

Lemma train_all_models_validated :
  mem "ensemble" types = true ->
  2 <= length avail_ ->
  train_all_models lib X_train y_train (Some Xv) (Some yv) perform_cv
    (__init__ lib types) =
  match EnsembleTrainer.optimize_weights lib
          (EnsembleTrainer.mk lib avail_ members_ None) Xv yv "grid_search" with
  | Ok ens =>
      (Ok (dict_set tm1_ "ensemble" (Ensemble lib ens)),
       mk lib types (dict_set tm1_ "ensemble" (Ensemble lib ens)))
  | Raise e => (Raise e, mk lib types tm1_)
  end.
Proof.
  intros Hens Hlen.
  remember (train_all_models lib X_train y_train (Some Xv) (Some yv)
              perform_cv (__init__ lib types)) as R eqn:ER.
  unfold train_all_models in ER.
  unfold bindM at 1 in ER. cbn [getS __init__ models_to_train] in ER.
  unfold bindM at 1 in ER.
  rewrite (member_loop_run lib X_train y_train (Some Xv) (Some yv) perform_cv
             _ types eq_refl) in ER.
  cbn [models_to_train trained_models __init__] in ER.
  rewrite Hens in ER.
  unfold bindM at 1 in ER. unfold bindM at 1 in ER.
  cbn [getS trained_models] in ER.
  rewrite available_after in ER.
  apply Nat.leb_le in Hlen. rewrite Hlen in ER.
  unfold bindM at 1 in ER. unfold liftM at 1 in ER.
  rewrite (members_of_available lib X_train y_train (Some Xv) (Some yv)
             perform_cv types avail_) in ER by (intros m Hm; exact Hm).
  rewrite dict_of_distinct in ER.
  2:{ rewrite map_map. cbn [fst]. rewrite map_id. unfold available.
      apply NoDup_filter. unfold ensemble_models.
      repeat constructor; cbn [In]; intuition discriminate. }
  cbn [EnsembleTrainer.weights EnsembleTrainer.__init__] in ER.
  unfold bindM at 1 in ER. unfold liftM at 1 in ER.
  destruct (EnsembleTrainer.optimize_weights lib _ Xv yv "grid_search")
    as [ens|e]; exact ER.
Qed.

End ValidatedEnsemble.

(** X21.  With a validation set, an ensemble of exactly two members is
    stored without weights: [optimize_weights] searches only for three
    members and assigns nothing, so the ensemble [train_all_models] returns
    under the key [ensemble] has [weights = None], and its [predict] raises
    on every frame. *)
Theorem two_member_ensemble_has_no_weights
        (lib : Regressors) (X_train : frame) (y_train : vector)
        (Xv : frame) (yv : vector) (perform_cv : bool) (types : list string)
        (tm : list (string * TrainingPipeline.trained lib))
        (s' : TrainingPipeline.t lib) :
  mem "ensemble" types = true ->
  length (available lib X_train y_train (Some Xv) (Some yv) perform_cv types)
  = 2 ->
  TrainingPipeline.train_all_models lib X_train y_train (Some Xv) (Some yv)
    perform_cv (TrainingPipeline.__init__ lib types) = (Ok tm, s') ->
  exists ens,
    dict_get tm "ensemble" = Some (TrainingPipeline.Ensemble lib ens) /\
    EnsembleTrainer.model_types lib ens =
    available lib X_train y_train (Some Xv) (Some yv) perform_cv types /\
    EnsembleTrainer.weights lib ens = None /\
    forall X, exists e, EnsembleTrainer.predict lib ens X = Raise e.
Proof.
  intros Hens Hlen E.
  rewrite train_all_models_validated in E by (try exact Hens; lia).
  unfold EnsembleTrainer.optimize_weights in E.
  change (String.eqb "grid_search" "equal") with false in E. cbv iota in E.
  cbn [EnsembleTrainer.model_types] in E. rewrite Hlen in E.
  cbn [Nat.eqb bind snd] in E.
  match type of E with
  | context [EnsembleTrainer.predictions_of lib ?s Xv] =>
      set (ens := s) in *;
      destruct (EnsembleTrainer.predictions_of lib ens Xv) as [ps|e];
      cbn [bind] in E; [|discriminate]
  end.
  injection E as <- _.
  exists ens. split; [rewrite dict_get_dict_set; reflexivity|].
  split; [reflexivity|]. split; [reflexivity|].
  intros X. unfold EnsembleTrainer.predict. unfold ens at 1.
  cbn [EnsembleTrainer.models].
  destruct (available lib X_train y_train (Some Xv) (Some yv) perform_cv types)
    as [|m l] eqn:Ea; [discriminate Hlen|].
  cbn [map]. fold ens.
  destruct (EnsembleTrainer.predictions_of lib ens X) as [ps'|e];
    cbn [bind]; eexists; reflexivity.
Qed.

Lemma two_member_ensemble_has_no_weights_witness :
  exists tm s' ens,
    TrainingPipeline.train_all_models flaky_regressors training_frame
      [Fin 6500000; Fin 4200000] (Some training_frame)
      (Some [Fin 6500000; Fin 4200000]) false
      (TrainingPipeline.__init__ flaky_regressors
         ["xgboost"; "lightgbm"; "catboost"; "ensemble"]) = (Ok tm, s') /\
    dict_get tm "ensemble" = Some (TrainingPipeline.Ensemble flaky_regressors ens) /\
    EnsembleTrainer.weights flaky_regressors ens = None.
Proof.
  assert (E : exists tm s',
             TrainingPipeline.train_all_models flaky_regressors training_frame
               [Fin 6500000; Fin 4200000] (Some training_frame)
               (Some [Fin 6500000; Fin 4200000]) false
               (TrainingPipeline.__init__ flaky_regressors
                  ["xgboost"; "lightgbm"; "catboost"; "ensemble"])
             = (Ok tm, s'))
    by (eexists; eexists; vm_compute; reflexivity).
  destruct E as (tm & s' & E).
  destruct (two_member_ensemble_has_no_weights flaky_regressors training_frame
              [Fin 6500000; Fin 4200000] training_frame
              [Fin 6500000; Fin 4200000] false
              ["xgboost"; "lightgbm"; "catboost"; "ensemble"]
              tm s' eq_refl eq_refl E) as (ens & Hd & _ & Hw & _).
  exists tm, s', ens. split; [exact E|]. split; [exact Hd|exact Hw].
Defined.

(* ====================================================================== *)
(** * [ModelEvaluator.evaluate] on finite vectors *)
(* ====================================================================== *)

Lemma finite_values_map (v : vector) (l : list Q) :
  finite_values v = Some l -> v = map Fin l.
Proof.
  revert l. induction v as [|x v IH]; intros l; cbn [finite_values fold_right].
  - intros [= <-]. reflexivity.
  - fold (finite_values v). destruct x as [q| |]; try discriminate.
    destruct (finite_values v) as [l'|]; [|discriminate].
    intros [= <-]. cbn [map]. rewrite (IH l' eq_refl). reflexivity.
Qed.

Lemma check_reg_targets_finite (y_true y_pred : vector) (t p : list Q) :
  check_reg_targets y_true y_pred = Ok (t, p) ->
  y_true = map Fin t /\ y_pred = map Fin p /\
  length t = length p /\ 0 < length t.
Proof.
  unfold check_reg_targets.
  destruct (Nat.eqb (length y_true) (length y_pred)) eqn:El; cbn [negb];
    [|discriminate].
  apply Nat.eqb_eq in El.
  destruct y_true as [|a y_true]; [discriminate|].
  destruct (finite_values (a :: y_true)) as [t'|] eqn:Et; [|discriminate].
  destruct (finite_values y_pred) as [p'|] eqn:Ep; [|discriminate].
  intros [= <- <-].
  pose proof (finite_values_length _ _ Et) as Lt.
  pose proof (finite_values_length _ _ Ep) as Lp.
  split; [apply finite_values_map; exact Et|].
  split; [apply finite_values_map; exact Ep|].
  cbn [length] in *. split; lia.
Qed.

Lemma zip_fsub_map (a b : list Q) :
  zip_with fsub (map Fin a) (map Fin b) = map Fin (differences a b).
Proof.
  unfold differences. revert b.
  induction a as [|x a IH]; intros [|y b]; cbn [map zip_with]; try reflexivity.
  rewrite IH. reflexivity.
Qed.

Lemma map_fabs_map (l : list Q) : map fabs (map Fin l) = map Fin (map Qabs l).
Proof. rewrite !map_map. reflexivity. Qed.

Lemma vsum_map (l : list Q) : vsum (map Fin l) = Fin (Qsum l).
Proof.
  unfold vsum, Qsum. induction l as [|x l IH]; cbn [map fold_right];
    [reflexivity|].
  rewrite IH. reflexivity.
Qed.

Lemma Qzero_of_nat (n : nat) : 0 < n -> Qzero (inject_Z (Z.of_nat n)) = false.
Proof.
  intros Hn. destruct (Qzero _) eqn:Z; [|reflexivity].
  unfold Qzero in Z. apply Qeq_bool_iff in Z.
  unfold Qeq in Z. cbn in Z. lia.
Qed.

Lemma vmean_map (l : list Q) :
  0 < length l -> vmean (map Fin l) = Fin (Qmean l).
Proof.
  intros Hn. unfold vmean, Qmean, of_nat. rewrite vsum_map, length_map.
  cbn [fdiv]. rewrite (Qzero_of_nat _ Hn). reflexivity.
Qed.

Lemma length_differences (a b : list Q) :
  length a = length b -> length (differences a b) = length a.
Proof.
  intros H. unfold differences. rewrite length_zip_with, H. apply Nat.min_id.
Qed.

(** The fields of the metrics [evaluate] returns. *)
Lemma evaluate_fields (np : Numerics) (y_true y_pred : vector)
      (m : ModelEvaluator.metrics) :
  ModelEvaluator.evaluate np y_true y_pred = Ok m ->
  exists t p q,
    y_true = map Fin t /\ y_pred = map Fin p /\
    length t = length p /\ 0 < length t /\
    r2_score y_true y_pred = Ok (ModelEvaluator.r2 m) /\
    ModelEvaluator.mse m = Fin (Qmean (squares (residuals t p))) /\
    ModelEvaluator.mae m = Fin (Qmean (map Qabs (residuals t p))) /\
    ModelEvaluator.mape m =
      fmul (Fin (Qmean (zip_with (fun a b =>
                          (Qabs (b - a) / Qmax' (Qabs a) float_eps)%Q) t p)))
           (Fin 100) /\
    ModelEvaluator.mean_error m = Fin (Qmean (differences p t)) /\
    ModelEvaluator.max_error m = vmax (map Fin (map Qabs (differences p t))) /\
    ModelEvaluator.explained_variance m =
      ModelEvaluator._explained_variance y_true y_pred /\
    ModelEvaluator.within_5_pct m =
      ModelEvaluator.within
        (zip_with fdiv (map Fin (map Qabs (differences t p))) (map Fin t))
        (5 # 100) (length t) /\
    ModelEvaluator.within_20_pct m =
      ModelEvaluator.within
        (zip_with fdiv (map Fin (map Qabs (differences t p))) (map Fin t))
        (20 # 100) (length t) /\
    ModelEvaluator.div_by_int np
      (fmul (fsub (Fin 1) (ModelEvaluator.r2 m))
            (Fin (inject_Z (Z.of_nat (length t) - 1))))
      (Z.of_nat (length t) - 1 - 1) = Ok q /\
    ModelEvaluator.adj_r2_score m = fsub (Fin 1) q.
Proof.
  unfold ModelEvaluator.evaluate. intros E.
  destruct (r2_score y_true y_pred) as [r2_|e] eqn:Er; cbn [bind] in E;
    [|discriminate].
  unfold mean_squared_error, mean_absolute_error,
    mean_absolute_percentage_error in E.
  destruct (check_reg_targets y_true y_pred) as [[t p]|e] eqn:Ec;
    cbn [bind] in E; [|discriminate].
  destruct (check_reg_targets_finite _ _ _ _ Ec) as (Ht & Hp & Hl & Hn).
  match type of E with
  | bind ?d _ = _ => destruct d as [q|e] eqn:Ed; cbn [bind] in E;
                     [|discriminate]
  end.
  injection E as <-. cbn.
  exists t, p, q. subst y_true y_pred.
  rewrite !zip_fsub_map, !map_fabs_map, !length_map in *.
  rewrite vmean_map by (rewrite length_differences; lia).
  repeat split; try assumption; try reflexivity.
Qed.

Lemma Qabs_Qsum (l : list Q) : (Qabs (Qsum l) <= Qsum (map Qabs l))%Q.
Proof.
  unfold Qsum. induction l as [|x l IH]; cbn [map fold_right].
  - apply Qle_refl.
  - eapply Qle_trans; [apply Qabs_triangle|].
    apply Qplus_le_compat; [apply Qle_refl|exact IH].
Qed.

Lemma Qsum_abs_differences (a b : list Q) :
  (Qsum (map Qabs (differences a b)) == Qsum (map Qabs (differences b a)))%Q.
Proof.
  unfold Qsum, differences. revert b.
  induction a as [|x a IH]; intros [|y b]; cbn [zip_with map fold_right];
    try reflexivity.
  rewrite IH, (Qabs_Qminus x y). reflexivity.
Qed.

Lemma Qsum_nonneg (l : list Q) :
  (forall x, In x l -> (0 <= x)%Q) -> (0 <= Qsum l)%Q.
Proof.
  unfold Qsum. induction l as [|x l IH]; intros H; cbn [fold_right].
  - apply Qle_refl.
  - apply (Qle_trans _ (0 + 0)); [discriminate|].
    apply Qplus_le_compat; [apply H; left; reflexivity|].
    apply IH. intros y Hy. apply H. right. exact Hy.
Qed.

Lemma Qsum_le_bound (l : list Q) (M : Q) :
  (forall x, In x l -> (x <= M)%Q) ->
  (Qsum l <= inject_Z (Z.of_nat (length l)) * M)%Q.
Proof.
  unfold Qsum. induction l as [|x l IH]; intros H; cbn [fold_right length].
  - discriminate.
  - rewrite Nat2Z.inj_succ. unfold Z.succ. rewrite inject_Z_plus.
    setoid_replace ((inject_Z (Z.of_nat (length l)) + inject_Z 1) * M)%Q
      with (M + inject_Z (Z.of_nat (length l)) * M)%Q by ring.
    apply Qplus_le_compat; [apply H; left; reflexivity|].
    apply IH. intros y Hy. apply H. right. exact Hy.
Qed.

Lemma fmax_Fin (a b : Q) :
  exists c, fmax (Fin a) (Fin b) = Fin c /\ (a <= c)%Q /\ (b <= c)%Q /\
            (c = a \/ c = b).
Proof.
  unfold fmax. destruct (fgtb (Fin b) (Fin a)) eqn:E.
  - apply fgtb_Fin in E. exists b. split; [reflexivity|].
    split; [apply Qlt_le_weak; exact E|]. split; [apply Qle_refl|].
    right. reflexivity.
  - apply fgtb_Fin_false in E. exists a. split; [reflexivity|].
    split; [apply Qle_refl|]. split; [exact E|]. left. reflexivity.
Qed.

Lemma fold_fmax (l : list Q) (x : Q) :
  exists M, fold_left fmax (map Fin l) (Fin x) = Fin M /\
            (x <= M)%Q /\ (forall y, In y l -> (y <= M)%Q) /\
            In M (x :: l).
Proof.
  revert x. induction l as [|y l IH]; intros x; cbn [map fold_left].
  - exists x. split; [reflexivity|]. split; [apply Qle_refl|].
    split; [intros y []|left; reflexivity].
  - destruct (fmax_Fin x y) as (c & -> & Hx & Hy & Hc).
    destruct (IH c) as (M & E & HcM & Hall & Hin).
    exists M. split; [exact E|].
    split; [eapply Qle_trans; eassumption|]. split.
    + intros z [<-|Hz]; [eapply Qle_trans; eassumption|apply Hall; exact Hz].
    + destruct Hin as [<-|Hin]; [|right; right; exact Hin].
      destruct Hc as [->| ->]; [left|right; left]; reflexivity.
Qed.

Lemma vmax_map (l : list Q) :
  0 < length l ->
  exists M, vmax (map Fin l) = Fin M /\
            (forall y, In y l -> (y <= M)%Q) /\ In M l.
Proof.
  destruct l as [|x l]; [cbn; lia|]. intros _. cbn [map vmax].
  destruct (fold_fmax l x) as (M & E & Hx & Hall & Hin).
  exists M. split; [exact E|]. split; [|exact Hin].
  intros y [<-|Hy]; [exact Hx|apply Hall; exact Hy].
Qed.

Lemma Qsquare_nonneg (x : Q) : (0 <= x * x)%Q.
Proof.
  unfold Qle. cbn. rewrite Z.mul_1_r. apply Z.square_nonneg.
Qed.

Lemma Qinv_of_nat_nonneg (n : nat) : (0 <= / inject_Z (Z.of_nat n))%Q.
Proof.
  apply Qinv_le_0_compat. change 0%Q with (inject_Z 0).
  rewrite <- Zle_Qle. lia.
Qed.

Lemma of_nat_pos (n : nat) : 0 < n -> (0 < inject_Z (Z.of_nat n))%Q.
Proof.
  intros H. change 0%Q with (inject_Z 0). rewrite <- Zlt_Qlt. lia.
Qed.



(* ====================================================================== *)
(** * A perfect prediction *)
(* ====================================================================== *)

Lemma finite_values_Fin (t : list Q) : finite_values (map Fin t) = Some t.
Proof.
  induction t as [|x t IH]; [reflexivity|].
  cbn [map finite_values fold_right]. fold (finite_values (map Fin t)).
  rewrite IH. reflexivity.
Qed.

Lemma check_reg_targets_Fin (t p : list Q) :
  length t = length p -> 0 < length t ->
  check_reg_targets (map Fin t) (map Fin p) = Ok (t, p).
Proof.
  intros Hl Hn. unfold check_reg_targets.
  rewrite !length_map, Hl, Nat.eqb_refl. cbn [negb].
  destruct t as [|x t]; [cbn in Hn; lia|]. cbn [map].
  change (Fin x :: map Fin t) with (map Fin (x :: t)).
  rewrite !finite_values_Fin. reflexivity.
Qed.

Lemma Qsum_zero (l : list Q) :
  (forall x, In x l -> (x == 0)%Q) -> (Qsum l == 0)%Q.
Proof.
  unfold Qsum. induction l as [|x l IH]; intros H; cbn [fold_right];
    [reflexivity|].
  rewrite (H x (or_introl eq_refl)), IH; [ring|].
  intros y Hy. apply H. right. exact Hy.
Qed.

Lemma in_differences_self (t : list Q) (x : Q) :
  In x (differences t t) -> (x == 0)%Q.
Proof.
  unfold differences. induction t as [|a t IH]; cbn [zip_with]; [intros []|].
  intros [<-|H]; [ring|apply IH; exact H].
Qed.

Lemma Qabs_zero (x : Q) : (x == 0)%Q -> (Qabs x == 0)%Q.
Proof. intros H. rewrite H. reflexivity. Qed.

Lemma Qmean_zero (l : list Q) :
  (forall x, In x l -> (x == 0)%Q) -> (Qmean l == 0)%Q.
Proof.
  intros H. unfold Qmean. rewrite (Qsum_zero l H). unfold Qdiv. ring.
Qed.

Lemma percentage_all (n : nat) : 0 < n -> (percentage n n == 100)%Q.
Proof.
  intros Hn. unfold percentage. field.
  intros H. pose proof (of_nat_pos n Hn) as P. rewrite H in P.
  discriminate P.
Qed.

(** On a perfect prediction every relative error of a non-zero target is
    zero. *)
Lemma within_perfect (t : list Q) (bound : Q) :
  (0 <= bound)%Q ->
  (forall a, In a t -> ~ (a == 0)%Q) ->
  length (filter (fun x => fleb x (Fin bound))
            (zip_with fdiv (map Fin (map Qabs (differences t t))) (map Fin t)))
  = length t.
Proof.
  intros Hb. unfold differences.
  induction t as [|a t IH]; intros Hnz; [reflexivity|].
  cbn [zip_with map filter fdiv].
  assert (Ha : Qzero a = false).
  { destruct (Qzero a) eqn:Z; [|reflexivity].
    unfold Qzero in Z. apply Qeq_bool_iff in Z.
    exfalso. apply (Hnz a (or_introl eq_refl)). exact Z. }
  rewrite Ha. cbn [fleb].
  assert (Hle : Qle_bool (Qabs (a - a) / a) bound = true).
  { apply Qle_bool_iff.
    assert (Hz : (Qabs (a - a) / a == 0)%Q).
    { rewrite (Qabs_zero (a - a)) by ring. unfold Qdiv. ring. }
    rewrite Hz. exact Hb. }
  rewrite Hle. cbn [length]. f_equal. apply IH.
  intros b Hb'. apply Hnz. right. exact Hb'.
Qed.

(** X23.  On a perfect prediction ([y_pred] equal to [y_true], at least two
    samples) the metrics [evaluate] returns are the ideal ones: R² is 1
    (also for a constant target), [mse], [mae], [mape], [mean_error] and
    [max_error] are 0; with at least three samples the adjusted R² is 1;
    and when no target is zero the shares of predictions within 5% and
    within 20% are 100. *)
Theorem perfect_prediction_metrics
        (np : Numerics) (y : vector) (m : ModelEvaluator.metrics) :
  ModelEvaluator.evaluate np y y = Ok m ->
  2 <= length y ->
  equals (ModelEvaluator.r2 m) 1 /\
  equals (ModelEvaluator.mse m) 0 /\
  equals (ModelEvaluator.mae m) 0 /\
  equals (ModelEvaluator.mape m) 0 /\
  equals (ModelEvaluator.mean_error m) 0 /\
  equals (ModelEvaluator.max_error m) 0 /\
  (3 <= length y -> equals (ModelEvaluator.adj_r2_score m) 1) /\
  ((forall q, In (Fin q) y -> ~ (q == 0)%Q) ->
   equals (ModelEvaluator.within_5_pct m) 100 /\
   equals (ModelEvaluator.within_20_pct m) 100).
Proof.
  intros E Hlen.
  destruct (evaluate_fields np _ _ _ E)
    as (t & p & q & Ht & Hp & Hl & Hn & Hr2 & Hmse & Hmae & Hmape & Hme &
        Hmx & _ & Hw5 & Hw20 & Hdiv & Hadj).
  assert (p = t) as ->.
  { rewrite Ht in Hp. clear - Hp. revert p Hp.
    induction t as [|a t IH]; intros [|b p]; cbn [map]; try discriminate;
      [reflexivity|].
    intros [= -> H]. f_equal. apply IH. exact H. }
  assert (Ly : length y = length t) by (rewrite Ht; apply length_map).
  assert (Hres : forall x, In x (residuals t t) -> (x == 0)%Q)
    by (apply in_differences_self).
  assert (R2 : equals (ModelEvaluator.r2 m) 1).
  { rewrite Ht in Hr2. unfold r2_score in Hr2.
    rewrite (check_reg_targets_Fin t t eq_refl Hn) in Hr2. cbn [bind] in Hr2.
    assert (L2 : Nat.ltb (length t) 2 = false) by (apply Nat.ltb_ge; lia).
    rewrite L2 in Hr2. injection Hr2 as <-.
    assert (Hnum : (Qsum (squares (residuals t t)) == 0)%Q).
    { apply Qsum_zero. intros x Hx. unfold squares in Hx.
      apply in_map_iff in Hx. destruct Hx as (r & <- & Hr).
      rewrite (Hres r Hr). ring. }
    eexists. split; [reflexivity|].
    destruct (Qzero (Qsum (squares (map (fun a => (a - Qmean t)%Q) t))));
      cbn [negb].
    - assert (Hz : Qzero (Qsum (squares (residuals t t))) = true)
        by (unfold Qzero; apply Qeq_bool_iff; exact Hnum).
      rewrite Hz. reflexivity.
    - rewrite Hnum. unfold Qdiv. ring. }
  split; [exact R2|].
  split.
  { rewrite Hmse. eexists. split; [reflexivity|]. apply Qmean_zero.
    intros x Hx. unfold squares in Hx. apply in_map_iff in Hx.
    destruct Hx as (r & <- & Hr). rewrite (Hres r Hr). ring. }
  split.
  { rewrite Hmae. eexists. split; [reflexivity|]. apply Qmean_zero.
    intros x Hx. apply in_map_iff in Hx. destruct Hx as (r & <- & Hr).
    apply Qabs_zero. apply Hres. exact Hr. }
  split.
  { rewrite Hmape. cbn [fmul]. eexists. split; [reflexivity|].
    rewrite Qmean_zero; [ring|].
    clear. induction t as [|a t IH]; cbn [zip_with]; [intros x []|].
    intros x [<-|Hx]; [|apply IH; exact Hx].
    rewrite (Qabs_zero (a - a)) by ring. unfold Qdiv. ring. }
  split.
  { rewrite Hme. eexists. split; [reflexivity|]. apply Qmean_zero.
    apply in_differences_self. }
  split.
  { destruct (vmax_map (map Qabs (differences t t))) as (M & EM & _ & HM).
    { rewrite length_map, length_differences by reflexivity. exact Hn. }
    rewrite Hmx, EM. exists M. split; [reflexivity|].
    apply in_map_iff in HM. destruct HM as (r & <- & Hr).
    apply Qabs_zero. apply (in_differences_self t). exact Hr. }
  split.
  { intros H3. destruct R2 as (r & Er & Hr1). rewrite Er in Hdiv.
    unfold ModelEvaluator.div_by_int in Hdiv.
    assert (Hk : Z.eqb (Z.of_nat (length t) - 1 - 1) 0 = false)
      by (apply Z.eqb_neq; lia).
    rewrite Hk, andb_false_r in Hdiv. cbn [fsub fneg fadd fmul fdiv] in Hdiv.
    assert (Hz : Qzero (inject_Z (Z.of_nat (length t) - 1 - 1)) = false).
    { destruct (Qzero _) eqn:Z; [|reflexivity].
      unfold Qzero in Z. apply Qeq_bool_iff in Z.
      unfold Qeq in Z. cbn in Z. lia. }
    rewrite Hz in Hdiv. injection Hdiv as <-.
    rewrite Hadj. cbn [fsub fneg fadd]. eexists. split; [reflexivity|].
    rewrite Hr1. unfold Qdiv. ring. }
  intros Hnz.
  assert (Hnz' : forall a, In a t -> ~ (a == 0)%Q).
  { intros a Ha. apply Hnz. rewrite Ht. apply in_map. exact Ha. }
  rewrite Hw5, Hw20, !within_percentage by exact Hn.
  rewrite !within_perfect by (try exact Hnz'; discriminate).
  split; eexists; (split; [reflexivity|apply percentage_all; exact Hn]).
Qed.

Lemma perfect_prediction_metrics_witness :
  exists m,
    ModelEvaluator.evaluate example_numerics [Fin 1; Fin 2; Fin 3]
      [Fin 1; Fin 2; Fin 3] = Ok m /\
    equals (ModelEvaluator.r2 m) 1 /\
    equals (ModelEvaluator.adj_r2_score m) 1 /\
    equals (ModelEvaluator.within_5_pct m) 100.
Proof.
  assert (E : exists m,
             ModelEvaluator.evaluate example_numerics [Fin 1; Fin 2; Fin 3]
               [Fin 1; Fin 2; Fin 3] = Ok m)
    by (eexists; vm_compute; reflexivity).
  destruct E as (m & E).
  destruct (perfect_prediction_metrics example_numerics _ m E)
    as (Hr & _ & _ & _ & _ & _ & Hadj & Hw).
  - cbn [length]. lia.
  - exists m. split; [exact E|]. split; [exact Hr|].
    split; [apply Hadj; cbn [length]; lia|].
    apply Hw. intros q [H|[H|[H|[]]]]; injection H as <-; discriminate.
Defined.

(* ====================================================================== *)
(** * Explained variance *)
(* ====================================================================== *)

Lemma vvar_map (l : list Q) :
  0 < length l -> vvar (map Fin l) = Fin (Qvariance l).
Proof.
  intros Hn. unfold vvar, Qvariance. rewrite (vmean_map l Hn).
  replace (map (fun x => fmul (fsub x (Fin (Qmean l))) (fsub x (Fin (Qmean l))))
             (map Fin l))
    with (map Fin (map (fun x => ((x - Qmean l) * (x - Qmean l))%Q) l))
    by (rewrite !map_map; reflexivity).
  apply vmean_map. rewrite length_map. exact Hn.
Qed.

Lemma Qvariance_nonneg (l : list Q) : (0 <= Qvariance l)%Q.
Proof.
  unfold Qvariance, Qmean, Qdiv.
  apply Qmult_le_0_compat; [|apply Qinv_of_nat_nonneg].
  apply Qsum_nonneg. intros x Hx. apply in_map_iff in Hx.
  destruct Hx as (r & <- & _). apply Qsquare_nonneg.
Qed.

Lemma map_Fin_inj (a b : list Q) : map Fin a = map Fin b -> a = b.
Proof.
  revert b. induction a as [|x a IH]; intros [|y b]; cbn [map];
    try discriminate; [reflexivity|].
  intros [= -> H]. f_equal. apply IH. exact H.
Qed.



(* ====================================================================== *)
(** * [EnsembleTrainer.predict] after [train_all] *)
(* ====================================================================== *)

Section EnsemblePredict.
Variable lib : Regressors.
Variable X_train : frame.
Variable y_train : vector.
Variable X_val : option frame.
Variable y_val : option vector.
Import EnsembleTrainer.

Local Abbreviation alone := (trained_alone lib X_train y_train X_val y_val).
Local Abbreviation trainer := (trainer_alone lib X_train y_train X_val y_val).

(** The members a fresh ensemble registers, in the order of its model
    types. *)
Lemma train_all_loop_models (l : list string) :
  NoDup l ->
  forall (s s' : t lib),
    (forall k, In k l -> dict_get (models lib s) k = None) ->
    forM_ l (fun model_type =>
               let trainer := ModelTrainer.__init__ lib model_type in
               trainer <~ liftM (ModelTrainer.train lib trainer X_train y_train
                                   X_val y_val) ;;
               modifyS (fun s => mk lib (model_types lib s)
                                   (dict_set (models lib s) model_type trainer)
                                   (weights lib s))) s = (Ok tt, s') ->
    models lib s' = models lib s ++ map (fun mt => (mt, trainer mt)) l /\
    model_types lib s' = model_types lib s /\
    weights lib s' = weights lib s /\
    forall mt, In mt l -> alone mt = Ok (trainer mt).
Proof.
  induction l as [|x l IH]; intros Hnd s s' Hfresh; cbn [forM_ map].
  - intros [= <-]. rewrite app_nil_r.
    repeat split; intros mt [].
  - inversion Hnd as [|? ? Hx Hnd']; subst.
    unfold bindM at 1. cbv zeta. unfold bindM at 1. unfold liftM at 1.
    fold (alone x).
    destruct (alone x) as [tr|e] eqn:Ex; [|discriminate].
    unfold modifyS at 1. intros H.
    apply IH in H; [|exact Hnd'|].
    + cbn [models model_types weights] in H.
      destruct H as (Hm & Ht & Hw & Hall).
      assert (Etr : trainer x = tr).
      { unfold trainer_alone. fold (alone x). rewrite Ex. reflexivity. }
      split; [|split; [exact Ht|split; [exact Hw|]]].
      * rewrite Hm, dict_set_fresh by (apply Hfresh; left; reflexivity).
        rewrite <- app_assoc, Etr. reflexivity.
      * intros mt [<-|Hmt]; [rewrite Etr; exact Ex|apply Hall; exact Hmt].
    + intros k Hk. cbn [models]. rewrite dict_get_dict_set.
      destruct (String.eqb k x) eqn:Ek.
      * apply String.eqb_eq in Ek. subst k. contradiction.
      * apply Hfresh. right. exact Hk.
Qed.

Lemma dict_get_app_none {V : Type} (d : list (string * V)) (k : string) (v : V) (k' : string) :
  dict_get (d ++ [(k, v)]) k' =
  match dict_get d k' with
  | Some x => Some x
  | None => if String.eqb k' k then Some v else None
  end.
Proof.
  induction d as [|[a b] d IH]; cbn [app dict_get]; [reflexivity|].
  destruct (String.eqb k' a); [reflexivity|exact IH].
Qed.

(** The predictions of members with distinct keys. *)
Lemma predictions_fold (X : frame) (P : vector -> Prop)
      (ms : list (string * ModelTrainer.t lib)) :
  NoDup (map fst ms) ->
  (forall kv, In kv ms ->
     exists v, ModelTrainer.predict lib (snd kv) X = Ok v /\ P v) ->
  forall acc : list (string * vector),
    (forall kv, In kv ms -> dict_get acc (fst kv) = None) ->
    exists ps,
      foldM (fun predictions mt =>
               pred <- ModelTrainer.predict lib (snd mt) X ;;
               Ok (dict_set predictions (fst mt) pred)) ms acc = Ok (acc ++ ps) /\
      map fst ps = map fst ms /\
      forall k v, In (k, v) ps -> P v.
Proof.
  induction ms as [|[k tr] ms IH]; intros Hnd Hall acc Hfresh; cbn [foldM].
  - exists []. rewrite app_nil_r. split; [reflexivity|].
    split; [reflexivity|intros k v []].
  - cbn [map fst] in Hnd. inversion Hnd as [|? ? Hk Hnd']; subst.
    destruct (Hall (k, tr) (or_introl eq_refl)) as (v & Ev & Pv).
    cbn [fst snd] in *. rewrite Ev. cbn [bind].
    rewrite dict_set_fresh by (apply (Hfresh (k, tr)); left; reflexivity).
    destruct (IH Hnd' (fun kv H => Hall kv (or_intror H)) (acc ++ [(k, v)]))
      as (ps & E & Hkeys & HP).
    + intros [k' tr'] Hin. cbn [fst]. rewrite dict_get_app_none.
      pose proof (Hfresh (k', tr') (or_intror Hin)) as Hf.
      cbn [fst] in Hf. rewrite Hf.
      destruct (String.eqb k' k) eqn:Ek; [|reflexivity].
      apply String.eqb_eq in Ek. subst k'. exfalso. apply Hk.
      change k with (fst (k, tr')). apply in_map. exact Hin.
    + exists ((k, v) :: ps). rewrite E, <- app_assoc.
      split; [reflexivity|]. split; [cbn [map fst]; congruence|].
      intros k' v' [[= <- <-]|Hin]; [exact Pv|eapply HP; exact Hin].
Qed.

Lemma member_weights_sum_const (ps : list (string * vector))
      (types : list string) (c : Q) :
  (forall k, In k (map fst ps) -> In k types) ->
  (member_weights_sum ps (map (fun k => (k, c)) types) ==
   inject_Z (Z.of_nat (length ps)) * c)%Q.
Proof.
  induction ps as [|[k v] ps IH]; intros H.
  - unfold member_weights_sum. cbn. ring.
  - rewrite member_weights_sum_cons. cbn [fst length].
    rewrite dict_get_map_keys.
    assert (Hk : mem k types = true).
    { apply mem_In. apply H. left. reflexivity. }
    rewrite Hk, IH by (intros k' Hk'; apply H; right; exact Hk').
    rewrite Nat2Z.inj_succ. unfold Z.succ. rewrite inject_Z_plus. ring.
Qed.

End EnsemblePredict.

Lemma of_nat_inv_one (n : nat) :
  0 < n ->
  (inject_Z (Z.of_nat n) * (1 / inject_Z (Z.of_nat n)) == 1)%Q.
Proof.
  intros H. field. intros E.
  assert (Hz : (inject_Z (Z.of_nat n) == inject_Z 0)%Q) by exact E.
  rewrite inject_Z_injective in Hz. lia.
Qed.

Lemma of_nat_inv_nonneg (n : nat) : (0 <= 1 / inject_Z (Z.of_nat n))%Q.
Proof.
  unfold Qdiv. rewrite Qmult_1_l. apply Qinv_le_0_compat.
  rewrite <- (Zle_Qle 0). lia.
Qed.


